(** * m4b-tools: chapter-table synthesis, manifest parsing and exit codes

    A shallow embedding of the parts of
      - src/m4b_tools/combiner.py      (title derivation, chapter synthesis,
                                         FFMETADATA encoding, chapter probing,
                                         CSV manifest parsing, metadata merge,
                                         the manifest template writer),
      - src/m4b_tools/cli.py           (sub-command exit codes),
      - convert-all-to-m4b.py          (batch conversion, its entry point),
      - combine-m4b-chapters.py        (natural sort key, legacy title deriver,
                                         the metadata probe)
    that the specification speaks about, followed by the theorems that settle
    each claim and by further properties of the same code.

    Conventions of the embedding.
      - Python [str] is [string]; a character is a code point below 256.
        White space, digits and case are Python's on that range
        ([str.isspace], [str.isdigit], [str.lower], [str.title]).  The
        title-case forms of U+00B5 and U+00FF lie outside the range:
        [to_title] leaves these two characters as they are, and a theorem
        that states a title-cased text excludes them.
      - Python [float] is the kernel's binary64 [float]; [+] and [*] are the
        IEEE operations, [int(x)] is truncation toward zero and is undefined
        (raises) on infinities and NaN.
      - A [dict] with string keys is a [gmap string _]; a dict with a fixed
        set of keys (a chapter, a manifest entry) is a record.
      - A function that can raise returns [result]; logging is an explicit
        list of records; the file system and the external tools are explicit
        arguments. *)

From Stdlib Require Import ZArith List String Ascii Bool Lia.
From Stdlib Require Import DecimalString.
From Stdlib Require Import PrimFloat SpecFloat FloatOps FloatAxioms.
From stdpp Require Import gmap strings list.

Set Default Proof Using "Type".
#[local] Set Warnings "-inexact-float,-register-all".

(* ===================================================================== *)
(** * Part I. The embedding                                              *)
(* ===================================================================== *)

(** ** Python primitives *)
Module Py.

#[local] Open Scope string_scope.
#[local] Open Scope list_scope.

(** *** Exceptions and results *)

Inductive exn : Type :=
| FileNotFoundError (msg : string)
| ValueError (msg : string)
| AttributeError (msg : string)
| TypeError (msg : string)
| OverflowError (msg : string).

Inductive result (A : Type) : Type :=
| Ok (a : A)
| Raise (e : exn).
Arguments Ok {A} a.
Arguments Raise {A} e.

Definition bind {A B} (m : result A) (k : A -> result B) : result B :=
  match m with
  | Ok a => k a
  | Raise e => Raise e
  end.

Definition is_ok {A} (m : result A) : bool :=
  match m with Ok _ => true | Raise _ => false end.

(** *** Logging: the records of [logger.warning] and [logger.error], in
    the order they are emitted ([logger.info] lines are left out) *)

Inductive level : Type := WARNING | ERROR.

Definition log : Type := list (level * string).

Definition warnings (l : log) : list string :=
  omap (fun r => match r with (WARNING, m) => Some m | _ => None end) l.

(** *** Characters *)

Definition code (c : ascii) : nat := nat_of_ascii c.

(** [str.isspace] on code points below 256: TAB..CR, FS..US, SPACE, NEL, NBSP. *)
Definition is_space (c : ascii) : bool :=
  let n := code c in
  (((9 <=? n) && (n <=? 13)) || ((28 <=? n) && (n <=? 32))
   || (n =? 133) || (n =? 160))%nat.

(** [\d] in a pattern, on code points below 256: the ASCII digits. *)
Definition is_digit (c : ascii) : bool :=
  let n := code c in ((48 <=? n) && (n <=? 57))%nat.

(** [c.isdigit()] on the same range: the ASCII digits and the superscripts
    U+00B2, U+00B3 and U+00B9. *)
Definition isdigit_char (c : ascii) : bool :=
  let n := code c in
  (is_digit c || (n =? 178) || (n =? 179) || (n =? 185))%nat.

(** The characters [str.lower] changes: A..Z and U+00C0..U+00DE without the
    multiplication sign U+00D7. *)
Definition is_upper (c : ascii) : bool :=
  let n := code c in
  (((65 <=? n) && (n <=? 90))
   || ((192 <=? n) && (n <=? 222) && negb (n =? 215)))%nat.

(** The characters with a capital below 256: a..z and U+00E0..U+00FE
    without the division sign U+00F7. *)
Definition is_lower (c : ascii) : bool :=
  let n := code c in
  (((97 <=? n) && (n <=? 122))
   || ((224 <=? n) && (n <=? 254) && negb (n =? 247)))%nat.

(** The cased characters: the letters above and U+00AA, U+00B5, U+00BA,
    U+00DF, U+00FF. *)
Definition is_cased (c : ascii) : bool :=
  let n := code c in
  (is_upper c || is_lower c
   || (n =? 170) || (n =? 181) || (n =? 186) || (n =? 223) || (n =? 255))%nat.

(** [c.lower()] *)
Definition to_lower (c : ascii) : ascii :=
  if is_upper c then ascii_of_nat (code c + 32) else c.

(** [c.title()]: the capital of a letter that has one, [Ss] for U+00DF. *)
Definition to_title (c : ascii) : string :=
  if is_lower c then String (ascii_of_nat (code c - 32)) EmptyString
  else if (code c =? 223)%nat then "Ss"
  else String c EmptyString.

Definition ch_eqb (a b : ascii) : bool := Ascii.eqb a b.

(** *** Strings *)

(** Truthiness of a [str]: non-empty. *)
Definition truthy (s : string) : bool :=
  match s with EmptyString => false | String _ _ => true end.

(** [a or b] on strings. *)
Definition or_else (a b : string) : string := if truthy a then a else b.

Fixpoint map_str (f : ascii -> ascii) (s : string) : string :=
  match s with
  | EmptyString => EmptyString
  | String c s' => String (f c) (map_str f s')
  end.

(** [s.lower()] *)
Definition lower (s : string) : string := map_str to_lower s.

(** [s.replace(a, b)] for single characters [a], [b]. *)
Definition replace_char (a b : ascii) (s : string) : string :=
  map_str (fun c => if ch_eqb c a then b else c) s.

Fixpoint rev_onto (s acc : string) : string :=
  match s with
  | EmptyString => acc
  | String c s' => rev_onto s' (String c acc)
  end.

Definition rev_str (s : string) : string := rev_onto s EmptyString.

(** [s.lstrip()], [s.rstrip()], [s.strip()] *)
Fixpoint lstrip (s : string) : string :=
  match s with
  | EmptyString => EmptyString
  | String c s' => if is_space c then lstrip s' else s
  end.

Definition rstrip (s : string) : string := rev_str (lstrip (rev_str s)).

Definition strip (s : string) : string := rstrip (lstrip s).

(** [s.split()]: the maximal runs of non-space characters.  [w] is the word
    being read. *)
Fixpoint split_from (w s : string) : list string :=
  match s with
  | EmptyString => if truthy w then [w] else []
  | String c s' =>
      if is_space c
      then (if truthy w then w :: split_from EmptyString s'
            else split_from EmptyString s')
      else split_from (w +:+ String c EmptyString) s'
  end.

Definition split_ws (s : string) : list string := split_from EmptyString s.

(** [sep.join(l)] *)
Fixpoint join (sep : string) (l : list string) : string :=
  match l with
  | [] => EmptyString
  | [x] => x
  | x :: rest => x +:+ sep +:+ join sep rest
  end.

(** [s.title()]: a character is lower-cased when the previous character is
    cased and title-cased when it is not. *)
Fixpoint title_from (prev_cased : bool) (s : string) : string :=
  match s with
  | EmptyString => EmptyString
  | String c s' =>
      (if prev_cased then String (to_lower c) EmptyString else to_title c)
      +:+ title_from (is_cased c) s'
  end.

Definition title (s : string) : string := title_from false s.

(** [s.startswith(c)] for one character. *)
Definition startswith_char (c : ascii) (s : string) : bool :=
  match s with
  | String a _ => ch_eqb a c
  | EmptyString => false
  end.

(** [c in s] for one character. *)
Fixpoint contains_char (c : ascii) (s : string) : bool :=
  match s with
  | EmptyString => false
  | String a s' => ch_eqb a c || contains_char c s'
  end.

(** [s.split(c, 1)] when [c in s]: the text before the first [c] and the
    text after it. *)
Fixpoint split_once (c : ascii) (s : string) : string * string :=
  match s with
  | EmptyString => (EmptyString, EmptyString)
  | String a s' =>
      if ch_eqb a c then (EmptyString, s')
      else let '(k, v) := split_once c s' in (String a k, v)
  end.

(** [s[1:]] *)
Definition tail_str (s : string) : string :=
  match s with EmptyString => EmptyString | String _ s' => s' end.

(** [str(n)] and [f"{n}"] for integers. *)
Definition str_nat (n : nat) : string := NilZero.string_of_uint (Nat.to_uint n).

Definition str_Z (z : Z) : string := NilZero.string_of_int (Z.to_int z).

(** *** Floats *)

(** [int(x)]: truncation toward zero; [OverflowError] on an infinity,
    [ValueError] on NaN.  A finite binary64 value is [(-1)^s * m * 2^e]. *)
Definition py_int (x : float) : result Z :=
  match Prim2SF x with
  | S754_zero _ => Ok 0%Z
  | S754_finite s m e =>
      let v := if s then Z.neg m else Z.pos m in
      Ok (if (0 <=? e)%Z then (v * 2 ^ e)%Z else Z.quot v (2 ^ (- e)))
  | S754_infinity _ => Raise (OverflowError "cannot convert float infinity to integer")
  | S754_nan => Raise (ValueError "cannot convert float NaN to integer")
  end.

(** *** Paths (POSIX flavour of [os.path] and [pathlib]) *)

Definition slash : ascii := "/"%char.
Definition dot : ascii := "."%char.

(** The text after the last [c] of [s] ([s] itself when there is none);
    [cur] is the text since the last [c] seen. *)
Fixpoint after_last_from (c : ascii) (cur s : string) : string :=
  match s with
  | EmptyString => cur
  | String a s' =>
      if ch_eqb a c then after_last_from c EmptyString s'
      else after_last_from c (cur +:+ String a EmptyString) s'
  end.

(** [os.path.basename(p)] *)
Definition basename (p : string) : string := after_last_from slash EmptyString p.

(** [os.path.isabs(p)] *)
Definition isabs (p : string) : bool := startswith_char slash p.

(** The path components of [pathlib]: split on [/], dropping empty and [.]
    components. *)
Fixpoint parts_from (cur s : string) : list string :=
  let keep w := if truthy w && negb (String.eqb w ".") then [w] else [] in
  match s with
  | EmptyString => keep cur
  | String a s' =>
      if ch_eqb a slash then keep cur ++ parts_from EmptyString s'
      else parts_from (cur +:+ String a EmptyString) s'
  end.

(** [Path(p).name] *)
Definition path_name (p : string) : string :=
  List.last (parts_from EmptyString p) EmptyString.

(** Position of the last [c] in [s], counted from the left. *)
Fixpoint rfind_from (c : ascii) (i : nat) (s : string) : option nat :=
  match s with
  | EmptyString => None
  | String a s' =>
      match rfind_from c (S i) s' with
      | Some j => Some j
      | None => if ch_eqb a c then Some i else None
      end
  end.

Fixpoint take_str (n : nat) (s : string) : string :=
  match n, s with
  | S n', String c s' => String c (take_str n' s')
  | _, _ => EmptyString
  end.

Fixpoint drop_str (n : nat) (s : string) : string :=
  match n, s with
  | S n', String _ s' => drop_str n' s'
  | _, _ => s
  end.

(** [Path(p).suffix]: the last dot of the name and what follows, unless the
    dot is the first or the last character of the name. *)
Definition path_suffix (p : string) : string :=
  let name := path_name p in
  match rfind_from dot 0 name with
  | Some i =>
      if ((0 <? i) && (i <? String.length name - 1))%nat then drop_str i name
      else EmptyString
  | None => EmptyString
  end.

(** [Path(p).stem] *)
Definition path_stem (p : string) : string :=
  let name := path_name p in
  match rfind_from dot 0 name with
  | Some i =>
      if ((0 <? i) && (i <? String.length name - 1))%nat then take_str i name
      else name
  | None => name
  end.

End Py.

(** ** The fragment of [re] the sources use *)
Module Re.

Import Py.
#[local] Open Scope string_scope.
#[local] Open Scope list_scope.

(** Patterns: literal text, a character class, ordered alternation,
    concatenation, and greedy repetition of a class ([c*], [c+]). *)
Inductive regex : Type :=
| Lit (text : string)
| Class (p : ascii -> bool)
| Alt (r1 r2 : regex)
| Cat (r1 r2 : regex)
| Star (p : ascii -> bool)
| Plus (p : ascii -> bool).

(** A literal at the head of [s]; under [re.IGNORECASE] both sides are
    lower-cased.  Returns the text after the literal. *)
Fixpoint match_lit (ignorecase : bool) (text s : string) : option string :=
  match text, s with
  | EmptyString, _ => Some s
  | String a text', String c s' =>
      if (if ignorecase then ch_eqb (to_lower a) (to_lower c) else ch_eqb a c)
      then match_lit ignorecase text' s'
      else None
  | String _ _, EmptyString => None
  end.

(** Greedy repetition with backtracking: take one more character when
    possible, and fall back to the continuation when the rest fails. *)
Fixpoint star_k (p : ascii -> bool) (s : string)
    (k : string -> option string) : option string :=
  match s with
  | String c s' =>
      if p c
      then match star_k p s' k with
           | Some r => Some r
           | None => k s
           end
      else k s
  | EmptyString => k s
  end.

(** The backtracking matcher, in continuation-passing style: [run r s k] is
    the first success, in the engine's search order, of [k] on the text left
    after a match of [r] at the head of [s]. *)
Fixpoint run (ignorecase : bool) (r : regex) (s : string)
    (k : string -> option string) : option string :=
  match r with
  | Lit text =>
      match match_lit ignorecase text s with
      | Some s' => k s'
      | None => None
      end
  | Class p =>
      match s with
      | String c s' => if p c then k s' else None
      | EmptyString => None
      end
  | Alt r1 r2 =>
      match run ignorecase r1 s k with
      | Some x => Some x
      | None => run ignorecase r2 s k
      end
  | Cat r1 r2 => run ignorecase r1 s (fun s' => run ignorecase r2 s' k)
  | Star p => star_k p s k
  | Plus p =>
      match s with
      | String c s' => if p c then star_k p s' k else None
      | EmptyString => None
      end
  end.

(** [re.sub('^' + r, '', s, flags)]: the anchor allows a match at position 0
    only, and the match is replaced by the empty string. *)
Definition sub_prefix (ignorecase : bool) (r : regex) (s : string) : string :=
  match run ignorecase r s Some with
  | Some rest => rest
  | None => s
  end.

(** The class [[\s\-_]]. *)
Definition is_sep (c : ascii) : bool :=
  is_space c || ch_eqb c "-"%char || ch_eqb c "_"%char.

(** [(chapter|ch|part|pt)[\s\-_]*\d*[\s\-_]*] *)
Definition chapter_prefix_re : regex :=
  Cat (Alt (Lit "chapter") (Alt (Lit "ch") (Alt (Lit "part") (Lit "pt"))))
      (Cat (Star is_sep) (Cat (Star is_digit) (Star is_sep))).

(** [\d+[\s\-_]*] *)
Definition leading_number_re : regex :=
  Cat (Plus is_digit) (Star is_sep).

(** [re.split(r'(\d+)', s)]: the text outside digit runs and the digit runs,
    alternating, starting and ending with (possibly empty) text.  [cur] is
    the piece being read, [in_digits] says whether it is a digit run. *)
Fixpoint split_digits_from (cur : string) (in_digits : bool) (s : string)
    : list string :=
  match s with
  | EmptyString => if in_digits then [cur; EmptyString] else [cur]
  | String c s' =>
      if Bool.eqb (is_digit c) in_digits
      then split_digits_from (cur +:+ String c EmptyString) in_digits s'
      else cur :: split_digits_from (String c EmptyString) (is_digit c) s'
  end.

Definition split_digits (s : string) : list string :=
  split_digits_from EmptyString false s.

End Re.

(** ** Natural sort ([natural_sort_key], [list.sort(key=...)]) *)
Module NaturalSort.

Import Py Re.
#[local] Open Scope string_scope.
#[local] Open Scope list_scope.

(** An element of a sort key: [int(text)] or [text.lower()]. *)
Inductive key_item : Type :=
| KInt (n : N)
| KStr (s : string).

(** [text.isdigit()]: non-empty, and every character a digit. *)
Fixpoint all_isdigit (s : string) : bool :=
  match s with
  | EmptyString => true
  | String c s' => isdigit_char c && all_isdigit s'
  end.

Definition isdigit (s : string) : bool := truthy s && all_isdigit s.

(** A text of ASCII digits. *)
Fixpoint all_digits (s : string) : bool :=
  match s with
  | EmptyString => true
  | String c s' => is_digit c && all_digits s'
  end.

(** The number a string of ASCII digits stands for. *)
Fixpoint int_from (acc : N) (s : string) : N :=
  match s with
  | EmptyString => acc
  | String c s' => int_from (acc * 10 + N.of_nat (code c - 48)) s'
  end.

Definition int_of_digits (s : string) : N := int_from 0%N s.

(** The number of ASCII digits at the head of a text. *)
Fixpoint digit_run (s : string) : nat :=
  match s with
  | EmptyString => 0
  | String c s' => if is_digit c then S (digit_run s') else 0
  end.

(** The longest run of digits [int] converts (CPython 3.11 and later). *)
Definition max_str_digits : nat := 4300.

(** [int(text)] on a text for which [isdigit] holds: [ValueError] on more
    than 4300 digits at its head (the message is given up to its colon) and,
    that limit respected, on a superscript digit. *)
Definition int_of_str (text : string) : result N :=
  if (max_str_digits <? digit_run text)%nat then
    Raise (ValueError "Exceeds the limit (4300 digits) for integer string conversion")
  else if negb (all_digits text) then
    Raise (ValueError ("invalid literal for int() with base 10: '"
                       +:+ text +:+ "'"))
  else Ok (int_of_digits text).

(** A text without digits. *)
Fixpoint no_digits (s : string) : bool :=
  match s with
  | EmptyString => true
  | String c s' => negb (is_digit c) && no_digits s'
  end.

(** The element a piece of the split becomes:
    [int(text) if text.isdigit() else text.lower()]. *)
Definition key_of_piece (text : string) : result key_item :=
  if isdigit text then bind (int_of_str text) (fun n => Ok (KInt n))
  else Ok (KStr (lower text)).

(** The list comprehension over the pieces, from left to right. *)
Fixpoint key_of_pieces (pieces : list string) : result (list key_item) :=
  match pieces with
  | [] => Ok []
  | text :: rest =>
      bind (key_of_piece text) (fun k =>
      bind (key_of_pieces rest) (fun ks => Ok (k :: ks)))
  end.

(** Modelled from the spec: [utils.natural_sort_key], which
    m4b_tools/combiner.py imports, is not among the sources.  The natural
    sort of the specification ("orders filenames with embedded integers by
    numeric value rather than lexical value") is taken as the function of
    that name in combine-m4b-chapters.py:
    [[int(text) if text.isdigit() else text.lower()
      for text in re.split(r'(\d+)', filename)]]. *)
Definition natural_sort_key (filename : string) : result (list key_item) :=
  key_of_pieces (split_digits filename).

(** [a < b] on [str]: lexicographic on code points. *)
Fixpoint str_lt (a b : string) : bool :=
  match a, b with
  | _, EmptyString => false
  | EmptyString, String _ _ => true
  | String x a', String y b' =>
      if (code x <? code y)%nat then true
      else if (code y <? code x)%nat then false
      else str_lt a' b'
  end.

(** [a < b] on key elements.  Python raises [TypeError] on an [int] against
    a [str]; the keys above alternate text and number from a text at index
    0, so two keys never meet that case and the order answers [false]. *)
Definition item_lt (a b : key_item) : bool :=
  match a, b with
  | KInt m, KInt n => (m <? n)%N
  | KStr s, KStr t => str_lt s t
  | _, _ => false
  end.

Definition item_eqb (a b : key_item) : bool :=
  match a, b with
  | KInt m, KInt n => (m =? n)%N
  | KStr s, KStr t => String.eqb s t
  | _, _ => false
  end.

(** [a < b] on key elements as Python has it: [None] is the [TypeError]. *)
Definition py_item_lt (a b : key_item) : option bool :=
  match a, b with
  | KInt m, KInt n => Some (m <? n)%N
  | KStr s, KStr t => Some (str_lt s t)
  | _, _ => None
  end.

(** [a < b] on lists as Python has it: elements are compared with [==]
    until two differ, and those two with [<]. *)
Fixpoint py_key_lt (a b : list key_item) : option bool :=
  match a, b with
  | _, [] => Some false
  | [], _ :: _ => Some true
  | x :: a', y :: b' => if item_eqb x y then py_key_lt a' b' else py_item_lt x y
  end.

(** A key alternates text and number. *)
Fixpoint alternates (text_next : bool) (k : list key_item) : bool :=
  match k with
  | [] => true
  | KStr _ :: k' => text_next && alternates false k'
  | KInt _ :: k' => negb text_next && alternates true k'
  end.

(** [a < b] on lists: the first differing pair decides; a proper prefix is
    smaller. *)
Fixpoint key_lt (a b : list key_item) : bool :=
  match a, b with
  | _, [] => false
  | [], _ :: _ => true
  | x :: a', y :: b' => if item_eqb x y then key_lt a' b' else item_lt x y
  end.

(** A stable sort by a key, as insertion from the right; an element goes
    before the first one that is not smaller. *)
Section Sort.
Context {A K : Type} (key : A -> K) (lt : K -> K -> bool).

Fixpoint insert_stable (x : A) (l : list A) : list A :=
  match l with
  | [] => [x]
  | y :: l' =>
      if lt (key y) (key x) then y :: insert_stable x l' else x :: y :: l'
  end.

Definition sort_by (l : list A) : list A := foldr insert_stable [] l.

End Sort.

(** [l.sort(key=key)]: the key of every element is computed first, from
    left to right, and the first exception ends the sort; the elements are
    then put in order of their keys by a stable sort. *)
Section PySort.
Context {A K : Type} (key : A -> result K) (lt : K -> K -> bool).

Fixpoint with_keys (l : list A) : result (list (K * A)) :=
  match l with
  | [] => Ok []
  | x :: rest =>
      bind (key x) (fun k =>
      bind (with_keys rest) (fun kxs => Ok ((k, x) :: kxs)))
  end.

Definition py_sort (l : list A) : result (list A) :=
  bind (with_keys l) (fun kxs => Ok (map snd (sort_by fst lt kxs))).

End PySort.

(** [files.sort(key=lambda x: natural_sort_key(os.path.basename(x)))] *)
Definition natural_sort (files : list string) : result (list string) :=
  py_sort (fun x => natural_sort_key (basename x)) key_lt files.

End NaturalSort.

(** ** Title derivation *)
Module TitleDeriver.

Import Py Re.
#[local] Open Scope string_scope.
#[local] Open Scope list_scope.

(** [derive_chapter_title] of m4b_tools/combiner.py. *)
Definition derive_chapter_title (file_path : string) (index : nat)
    (existing_title : string) : string :=
  if truthy (strip existing_title) then strip existing_title
  else
    let filename := path_stem file_path in
    let cleaned := sub_prefix true chapter_prefix_re filename in
    let cleaned := sub_prefix false leading_number_re cleaned in
    let cleaned := replace_char "-" " " (replace_char "_" " " cleaned) in
    let cleaned := join " " (split_ws cleaned) in
    if truthy cleaned then title cleaned
    else "Chapter " +:+ str_nat index.

(** [derive_chapter_title] of the top-level script combine-m4b-chapters.py:
    the existing title is tested and returned as it is, and a derived title
    carries its number. *)
Definition derive_chapter_title_script (file_path : string) (index : nat)
    (existing_title : string) : string :=
  if truthy existing_title then existing_title
  else
    let filename := path_stem file_path in
    let cleaned := sub_prefix true chapter_prefix_re filename in
    let cleaned := sub_prefix false leading_number_re cleaned in
    let cleaned := replace_char "-" " " (replace_char "_" " " cleaned) in
    let cleaned := join " " (split_ws cleaned) in
    if truthy cleaned then "Chapter " +:+ str_nat index +:+ ": " +:+ title cleaned
    else "Chapter " +:+ str_nat index.

(** *** The rule in the specification's words *)

Fixpoint drop_while (p : ascii -> bool) (s : string) : string :=
  match s with
  | EmptyString => EmptyString
  | String c s' => if p c then drop_while p s' else s
  end.

(** The text after a leading [word], written in any case; [word] is in
    lower case. *)
Definition after_word (word s : string) : option string :=
  if String.eqb (lower (take_str (String.length word) s)) word
  then Some (drop_str (String.length word) s)
  else None.

(** The text after a leading [chapter], [ch], [part] or [pt], in any case. *)
Definition after_token (s : string) : option string :=
  match after_word "chapter" s with
  | Some r => Some r
  | None =>
      match after_word "ch" s with
      | Some r => Some r
      | None =>
          match after_word "part" s with
          | Some r => Some r
          | None => after_word "pt" s
          end
      end
  end.

(** Strip a leading token with its optional digits and separators. *)
Definition strip_token (s : string) : string :=
  match after_token s with
  | Some r => drop_while is_sep (drop_while is_digit (drop_while is_sep r))
  | None => s
  end.

(** Strip a leading digit run and the separators after it. *)
Definition strip_number (s : string) : string :=
  match s with
  | String c _ =>
      if is_digit c then drop_while is_sep (drop_while is_digit s) else s
  | EmptyString => s
  end.

Definition separators_to_spaces (s : string) : string :=
  map_str (fun c => if ch_eqb c "_"%char || ch_eqb c "-"%char
                    then " "%char else c) s.

(** White space collapsed: the runs of white space between two words become
    one space each, and those before the first word and after the last go.
    [started] says that a word has been read, [gap] that white space has
    been read since. *)
Fixpoint collapse_from (started gap : bool) (s : string) : string :=
  match s with
  | EmptyString => EmptyString
  | String c s' =>
      if is_space c then collapse_from started started s'
      else (if started && gap then " " else EmptyString)
           +:+ String c (collapse_from true false s')
  end.

Definition collapse_whitespace (s : string) : string :=
  collapse_from false false s.

Definition cleaned_stem (stem : string) : string :=
  collapse_whitespace (separators_to_spaces (strip_number (strip_token stem))).






End TitleDeriver.

(** ** The external tools and the file system *)
Module Tools.

Import Py.
#[local] Open Scope string_scope.
#[local] Open Scope list_scope.

(** What [json.loads] returns. *)
Inductive json : Type :=
| JNull
| JBool (b : bool)
| JNum (x : float)
| JStr (s : string)
| JArr (items : list json)
| JObj (members : list (string * json)).

(** [d.get(k)] on a loaded object: a repeated member keeps its last value. *)
Fixpoint obj_get (k : string) (members : list (string * json)) : option json :=
  match members with
  | [] => None
  | (k', v) :: rest =>
      match obj_get k rest with
      | Some v' => Some v'
      | None => if String.eqb k' k then Some v else None
      end
  end.

(** How a run of [ffprobe ...] followed by [json.loads] ends:
    [subprocess.run] raises an exception of its own (the program cannot be
    started, its output cannot be decoded), the process exits with a
    non-zero status ([CalledProcessError]), its output is not JSON
    ([JSONDecodeError]), or a value is loaded. *)
Inductive probe_outcome : Type :=
| ProbeRaises (e : exn)
| ProbeExit (returncode : Z)
| ProbeNotJson (stdout : string)
| ProbeJson (data : json).

(** What [get_audio_metadata] returns for a file it could probe. *)
Record audio_meta : Type := {
  duration : float;
  meta_title : string;
  artist : string;
  album : string;
  codec : string;
  bitrate : string;
  sample_rate : string;
  channels : Z
}.

(** The services the program calls: each field is one external call. *)
Record tools : Type := {
  (** [check_ffmpeg()] *)
  ffmpeg_available : bool;
  (** [get_audio_metadata(path)]; [None] is the empty dict of a failed probe *)
  get_audio_metadata : string -> option audio_meta;
  (** [ffprobe -show_chapters] on a path, then [json.loads] *)
  ffprobe_chapters : string -> probe_outcome;
  (** [float(s)] on a [str]; [None] is [ValueError] *)
  float_of_str : string -> option float;
  (** [str(v)] on a loaded value that is not a [str] *)
  str_of_json : json -> string;
  (** [os.path.exists] *)
  path_exists : string -> bool;
  (** [os.path.abspath] *)
  abspath : string -> string;
  (** [glob.glob(pattern, recursive=True)] *)
  glob : string -> list string;
  (** [open(path).readlines()] *)
  read_lines : string -> list string;
  (** the records [csv.reader] yields from a list of lines; a quoted field
      can run over several lines *)
  csv_reader : list string -> list (list string);
  (** the directory [tempfile.TemporaryDirectory()] creates *)
  mkdtemp : string
}.

(** [str(v)] / [f"{v}"] on a loaded value. *)
Definition py_str (tl : tools) (v : json) : string :=
  match v with
  | JStr s => s
  | _ => str_of_json tl v
  end.

(** [float(v)] on a loaded value. *)
Definition py_float (tl : tools) (v : json) : result float :=
  match v with
  | JNum x => Ok x
  | JBool b => Ok (if b then 1%float else 0%float)
  | JStr s =>
      match float_of_str tl s with
      | Some x => Ok x
      | None => Raise (ValueError "could not convert string to float")
      end
  | _ => Raise (TypeError "float() argument must be a string or a real number")
  end.

(** The items a [for] loop draws from a loaded value. *)
Definition py_iter (v : json) : result (list json) :=
  match v with
  | JArr items => Ok items
  | JObj members => Ok (map (fun kv => JStr (fst kv)) members)
  | JStr s => Ok (map (fun c => JStr (String c EmptyString)) (list_ascii_of_string s))
  | _ => Raise (TypeError "object is not iterable")
  end.

(** [os.path.dirname] *)
Fixpoint rstrip_slash_rev (r : string) : string :=
  match r with
  | String c r' => if ch_eqb c slash then rstrip_slash_rev r' else r
  | EmptyString => EmptyString
  end.

Definition dirname (p : string) : string :=
  match rfind_from slash 0 p with
  | None => EmptyString
  | Some i =>
      let head := take_str (S i) p in
      let stripped := rev_str (rstrip_slash_rev (rev_str head)) in
      if truthy stripped then stripped else head
  end.

(** [os.path.join(a, b)] *)
Definition path_join (a b : string) : string :=
  if isabs b then b
  else if negb (truthy a) then b
  else if startswith_char slash (rev_str a) then a +:+ b
  else a +:+ "/" +:+ b.

(** The line feed. *)
Definition nl : string := String (ascii_of_nat 10) EmptyString.

End Tools.

(** ** m4b_tools/combiner.py *)
Module Combiner.

Import Py Re NaturalSort TitleDeriver Tools.
#[local] Open Scope string_scope.
#[local] Open Scope list_scope.

(** *** Chapters *)

(** A chapter as [extract_existing_chapters] builds it. *)
Record existing_chapter : Type := {
  ec_title : json;
  ec_start : float;
  ec_end : float;
  ec_duration : float
}.

(** A chapter of the combined file: the dict with keys [title], [start],
    [end] that [combine_m4b_files] appends. *)
Record chapter : Type := {
  ch_title : string;
  ch_start : float;
  ch_end : float
}.

(** One turn of the loop of [extract_existing_chapters]; [n] is
    [len(chapters)] at that point. *)
Definition chapter_of_json (tl : tools) (n : nat) (c : json)
    : result existing_chapter :=
  match c with
  | JObj members =>
      bind (py_float tl (default (JNum 0) (obj_get "start_time" members)))
        (fun start_time =>
      bind (py_float tl (default (JNum 0) (obj_get "end_time" members)))
        (fun end_time =>
      bind (match obj_get "tags" members with
            | None => Ok []
            | Some (JObj tags) => Ok tags
            | Some _ => Raise (AttributeError "object has no attribute 'get'")
            end)
        (fun tags =>
      Ok {| ec_title := default (JStr ("Chapter " +:+ str_nat (n + 1)))
                                (obj_get "title" tags);
            ec_start := start_time;
            ec_end := end_time;
            ec_duration := (end_time - start_time)%float |})))
  | _ => Raise (AttributeError "object has no attribute 'get'")
  end.

Fixpoint chapters_of_json (tl : tools) (items : list json)
    (chapters : list existing_chapter) : result (list existing_chapter) :=
  match items with
  | [] => Ok chapters
  | c :: rest =>
      bind (chapter_of_json tl (length chapters) c)
        (fun ch => chapters_of_json tl rest (chapters ++ [ch]))
  end.

(** [extract_existing_chapters]: the two exceptions of the [except] clause
    give the empty list and a warning; any other exception propagates. *)
Definition extract_existing_chapters (tl : tools) (file_path : string)
    : result (list existing_chapter) * log :=
  match ffprobe_chapters tl file_path with
  | ProbeRaises e => (Raise e, [])
  | ProbeExit _ | ProbeNotJson _ =>
      (Ok [], [(WARNING, "Could not extract chapters from " +:+ file_path)])
  | ProbeJson (JObj members) =>
      (bind (py_iter (default (JArr []) (obj_get "chapters" members)))
         (fun items => chapters_of_json tl items []), [])
  | ProbeJson _ => (Raise (AttributeError "object has no attribute 'get'"), [])
  end.

(** *** The metadata side channel *)

(** [f.write(text)] on the open file, whose content so far is [buf]. *)
Definition write (buf text : string) : string := buf +:+ text.

(** [if metadata.get(key): f.write(f"{tag}={metadata[key]}\n")] *)
Definition write_field (metadata : gmap string string) (key tag : string)
    (buf : string) : string :=
  match metadata !! key with
  | Some v => if truthy v then write buf (tag +:+ "=" +:+ v +:+ nl) else buf
  | None => buf
  end.

(** The body of the loop over the chapters. *)
Definition write_chapter (buf : string) (c : chapter) : result string :=
  let buf := write buf ("[CHAPTER]" +:+ nl) in
  let buf := write buf ("TIMEBASE=1/1000" +:+ nl) in
  bind (py_int (ch_start c * 1000)%float) (fun start_ms =>
  let buf := write buf ("START=" +:+ str_Z start_ms +:+ nl) in
  bind (py_int (ch_end c * 1000)%float) (fun end_ms =>
  let buf := write buf ("END=" +:+ str_Z end_ms +:+ nl) in
  let buf := write buf ("title=" +:+ ch_title c +:+ nl) in
  Ok (write buf nl))).

Fixpoint write_chapters (buf : string) (chapters : list chapter)
    : result string :=
  match chapters with
  | [] => Ok buf
  | c :: rest => bind (write_chapter buf c) (fun buf => write_chapters buf rest)
  end.

(** [create_chapter_metadata]: the path of the file and what was written
    to it. *)
Definition create_chapter_metadata (chapters : list chapter)
    (temp_dir : string) (metadata : gmap string string)
    : result (string * string) :=
  let metadata_path := path_join temp_dir "metadata.txt" in
  let buf := write EmptyString (";FFMETADATA1" +:+ nl) in
  let buf := write_field metadata "title" "title" buf in
  let buf := write_field metadata "artist" "artist" buf in
  let buf := write_field metadata "album" "album" buf in
  let buf := write_field metadata "author" "album_artist" buf in
  let buf := write_field metadata "narrator" "composer" buf in
  let buf := write_field metadata "genre" "genre" buf in
  let buf := write_field metadata "year" "date" buf in
  let buf := write_field metadata "description" "comment" buf in
  let buf := write buf nl in
  bind (write_chapters buf chapters) (fun buf => Ok (metadata_path, buf)).

(** *** The CSV manifest *)

(** An element of [file_list]: the dict with keys [file] and [title]. *)
Record manifest_entry : Type := {
  me_file : string;
  me_title : string
}.

(** The loop over the leading lines; [i] is the index of the head of
    [lines].  Returns [metadata] and [data_start_idx]. *)
Fixpoint directives_loop (i : nat) (lines : list string)
    (metadata : gmap string string) (data_start_idx : nat)
    : gmap string string * nat :=
  match lines with
  | [] => (metadata, data_start_idx)
  | raw :: rest =>
      let line := strip raw in
      if startswith_char "#" line then
        let sep :=
          if contains_char "," line then Some ","%char
          else if contains_char ":" line then Some ":"%char
          else None in
        match sep with
        | Some c =>
            let '(key, value) := split_once c (tail_str line) in
            let key := lower (strip key) in
            let value := strip value in
            let metadata :=
              if truthy key && truthy value then <[key := value]> metadata
              else metadata in
            directives_loop (S i) rest metadata (S i)
        | None => directives_loop (S i) rest metadata data_start_idx
        end
      else if truthy line then (metadata, data_start_idx)
      else directives_loop (S i) rest metadata data_start_idx
  end.

(** The dict [csv.DictReader] yields for a record: the header zipped with
    the record, and [None] for the columns a short record lacks.  A later
    assignment to a key replaces an earlier one. *)
Definition dict_row (fieldnames record : list string)
    : gmap string (option string) :=
  let assignments :=
    (zip fieldnames (map Some record)
     ++ map (fun k => (k, None)) (drop (length record) fieldnames))%list in
  foldl (fun d kv => <[fst kv := snd kv]> d) ∅ assignments.

(** The accepted extensions: [{'.m4b', '.m4a'}]. *)
Definition accepted_suffix (s : string) : bool :=
  String.eqb s ".m4b" || String.eqb s ".m4a".

Definition none_strip : exn :=
  AttributeError "'NoneType' object has no attribute 'strip'".

(** The loop over the data rows. *)
Fixpoint rows_loop (tl : tools) (csv_file : string) (fieldnames : list string)
    (records : list (list string)) (file_list : list manifest_entry)
    (lg : log) : result (list manifest_entry) * log :=
  match records with
  | [] => (Ok file_list, lg)
  | record :: rest =>
      let row := dict_row fieldnames record in
      match row !! "file" with
      | None => (Raise (ValueError "CSV must have a 'file' column"), lg)
      | Some None => (Raise none_strip, lg)
      | Some (Some file) =>
          let file_path := strip file in
          if negb (truthy file_path)
          then rows_loop tl csv_file fieldnames rest file_list lg
          else
            let file_path :=
              if negb (isabs file_path)
              then path_join (dirname csv_file) file_path
              else file_path in
            let file_path := abspath tl file_path in
            if negb (path_exists tl file_path)
            then rows_loop tl csv_file fieldnames rest file_list
                   (lg ++ [(WARNING, "File not found: " +:+ file_path)])
            else if negb (accepted_suffix (lower (path_suffix file_path)))
            then rows_loop tl csv_file fieldnames rest file_list
                   (lg ++ [(WARNING, "Skipping non-M4B file: " +:+ file_path)])
            else
              match default (Some EmptyString) (row !! "title") with
              | None => (Raise none_strip, lg)
              | Some t =>
                  rows_loop tl csv_file fieldnames rest
                    (file_list ++ [{| me_file := file_path;
                                      me_title := strip t |}]) lg
              end
      end
  end.

(** What [csv.DictReader] makes of the records of the reader: the first
    one is the header, and empty records after it are skipped. *)
Definition header (tl : tools) (csv_data : list string) : list string :=
  match csv_reader tl csv_data with
  | [] => []
  | h :: _ => h
  end.

Definition data_records (tl : tools) (csv_data : list string)
    : list (list string) :=
  filter (fun r => r <> []) (tail (csv_reader tl csv_data)).

(** [parse_csv_input] *)
Definition parse_csv_input (tl : tools) (csv_file : string)
    : result (list manifest_entry * gmap string string) * log :=
  let csv_file := abspath tl csv_file in
  if negb (path_exists tl csv_file)
  then (Raise (FileNotFoundError ("CSV file not found: " +:+ csv_file)), [])
  else
    let lines := read_lines tl csv_file in
    let '(metadata, data_start_idx) := directives_loop 0 lines ∅ 0 in
    let csv_data := drop data_start_idx lines in
    match csv_data with
    | [] => (Raise (ValueError "No data rows found in CSV file"), [])
    | _ :: _ =>
        let csv_data := filter (fun line => truthy (strip line) = true) csv_data in
        match csv_data with
        | [] => (Raise (ValueError "No non-empty data rows found in CSV file"), [])
        | _ :: _ =>
            match rows_loop tl csv_file (header tl csv_data)
                    (data_records tl csv_data) [] [] with
            | (Raise e, lg) => (Raise e, lg)
            | (Ok [], lg) =>
                (Raise (ValueError "No valid M4B files found in CSV"), lg)
            | (Ok file_list, lg) => (Ok (file_list, metadata), lg)
            end
        end
    end.

(** *** [combine_m4b_files] *)

(** The arguments of [combine_m4b_files]; [None] is Python's [None]. *)
Record combine_args : Type := {
  input_pattern : option string;
  output_file : option string;
  title : option string;
  preserve_existing_chapters : bool;
  temp_dir : option string;
  csv_file : option string
}.

(** Truthiness of an [Optional[str]]. *)
Definition opt_truthy (o : option string) : bool :=
  match o with
  | Some s => truthy s
  | None => false
  end.

(** [a or b] with [a] an [Optional[str]]. *)
Definition opt_or (a : option string) (b : string) : string :=
  match a with
  | Some s => if truthy s then s else b
  | None => b
  end.

(** The variables the first part of the function leaves behind. *)
Record inputs : Type := {
  m4b_files : list string;
  file_title_list : list manifest_entry;
  csv_metadata : gmap string string;
  out_file : option string;
  book_title : option string
}.

(** A function that returns [False] early gives [None]; one that goes on
    gives its variables. *)
Definition early (A : Type) : Type := result (option A) * log.

(** The [if csv_file: ... else: ...] block. *)
Definition load_inputs (tl : tools) (args : combine_args) : early inputs :=
  if opt_truthy (csv_file args) then
    match parse_csv_input tl (default EmptyString (csv_file args)) with
    | (Ok (file_list, metadata), lg) =>
        (Ok (Some {|
           m4b_files := map me_file file_list;
           file_title_list := file_list;
           csv_metadata := metadata;
           out_file :=
             match metadata !! "output_path" with
             | Some p => Some p
             | None => output_file args
             end;
           book_title :=
             match metadata !! "title" with
             | Some t => if negb (opt_truthy (title args)) then Some t
                         else title args
             | None => title args
             end |}), lg)
    | (Raise (FileNotFoundError m), lg) | (Raise (ValueError m), lg) =>
        (Ok None, lg ++ [(ERROR, "Error reading CSV file: " +:+ m)])
    | (Raise e, lg) => (Raise e, lg)
    end
  else if negb (opt_truthy (input_pattern args)) then
    (Ok None, [(ERROR, "Either input_pattern or csv_file must be provided")])
  else
    let matching_files := glob tl (default EmptyString (input_pattern args)) in
    let files :=
      map (abspath tl)
          (filter (fun f => accepted_suffix (lower (path_suffix f)) = true)
                  matching_files) in
    (Ok (Some {|
       m4b_files := files;
       file_title_list :=
         map (fun f => {| me_file := f; me_title := EmptyString |}) files;
       csv_metadata := ∅;
       out_file := output_file args;
       book_title := title args |}), []).

(** From the start of the function to the sort of [m4b_files]. *)
Definition select_files (tl : tools) (args : combine_args) : early inputs :=
  if negb (ffmpeg_available tl) then
    (Ok None, [(ERROR, "FFmpeg is required but not available")])
  else
    match load_inputs tl args with
    | (Ok (Some inp), lg) =>
        match m4b_files inp with
        | [] =>
            (Ok None,
             lg ++ [(ERROR, "No M4B files found in "
                            +:+ (if opt_truthy (csv_file args) then "CSV file"
                                 else "pattern: "
                                      +:+ default EmptyString (input_pattern args)))])
        | _ :: _ =>
            if negb (opt_truthy (out_file inp)) then
              (Ok None, lg ++ [(ERROR, "Output file must be specified")])
            else
              match natural_sort (m4b_files inp) with
              | Raise e => (Raise e, lg)
              | Ok sorted =>
                  (Ok (Some {|
                     m4b_files := sorted;
                     file_title_list := file_title_list inp;
                     csv_metadata := csv_metadata inp;
                     out_file := out_file inp;
                     book_title := book_title inp |}), lg)
              end
        end
    | other => other
    end.

(** An element of [files_metadata]: the probed dict with [file_path] and
    [start_offset] added. *)
Record file_meta : Type := {
  file_path : string;
  start_offset : float;
  probed : audio_meta
}.

(** The loop that probes every file; [None] when a probe fails. *)
Fixpoint probe_loop (tl : tools) (files : list string)
    (files_metadata : list file_meta) (total_duration : float)
    : option (list file_meta * float) * log :=
  match files with
  | [] => (Some (files_metadata, total_duration), [])
  | f :: rest =>
      match get_audio_metadata tl f with
      | None => (None, [(ERROR, "Could not extract metadata from " +:+ f)])
      | Some metadata =>
          probe_loop tl rest
            (files_metadata ++ [{| file_path := f;
                                   start_offset := total_duration;
                                   probed := metadata |}])
            (total_duration + duration metadata)%float
      end
  end.

(** [check_audio_compatibility] *)
Definition check_audio_compatibility (files_metadata : list file_meta) : bool :=
  match files_metadata with
  | [] => false
  | first :: rest =>
      forallb (fun m =>
                 String.eqb (codec (probed m)) (codec (probed first))
                 && String.eqb (sample_rate (probed m)) (sample_rate (probed first))
                 && (channels (probed m) =? channels (probed first))%Z)
              rest
  end.

(** The title the manifest gives a file: the first entry with that path. *)
Definition csv_title_for (args : combine_args)
    (file_title_list : list manifest_entry) (path : string) : string :=
  if opt_truthy (csv_file args) then
    match find (fun item => String.eqb (me_file item) path) file_title_list with
    | Some item => me_title item
    | None => EmptyString
    end
  else EmptyString.

(** The state of the chapter loop: [chapters] and [current_time]. *)
Record synth_state : Type := {
  chapters : list chapter;
  current_time : float
}.

(** The chapter that covers a whole file. *)
Definition whole_file_chapter (chapter_title : string) (current_time : float)
    (file_meta : file_meta) : chapter :=
  {| ch_title := chapter_title;
     ch_start := current_time;
     ch_end := (current_time + duration (probed file_meta))%float |}.

(** An embedded chapter moved to its place in the combined file. *)
Definition offset_chapter (tl : tools) (base_title : string)
    (current_time : float) (c : existing_chapter) : chapter :=
  {| ch_title := base_title +:+ " - " +:+ py_str tl (ec_title c);
     ch_start := (current_time + ec_start c)%float;
     ch_end := (current_time + ec_end c)%float |}.

(** One turn of [for i, file_meta in enumerate(files_metadata, 1)]; what
    the chapter probe logs is not kept. *)
Definition chapter_step (tl : tools) (args : combine_args)
    (file_title_list : list manifest_entry) (st : synth_state)
    (i : nat) (file_meta : file_meta) : result synth_state :=
  let csv_title := csv_title_for args file_title_list (file_path file_meta) in
  let chapter_title :=
    or_else csv_title
      (derive_chapter_title (file_path file_meta) i
         (meta_title (probed file_meta))) in
  bind
    (if preserve_existing_chapters args then
       bind (fst (extract_existing_chapters tl (file_path file_meta)))
         (fun existing_chapters =>
            match existing_chapters with
            | [] =>
                Ok (chapters st
                    ++ [whole_file_chapter chapter_title (current_time st) file_meta])
            | _ :: _ =>
                Ok (chapters st
                    ++ map (offset_chapter tl chapter_title (current_time st))
                           existing_chapters)
            end)
     else
       Ok (chapters st
           ++ [whole_file_chapter chapter_title (current_time st) file_meta]))
    (fun chapters' =>
       Ok {| chapters := chapters';
             current_time := (current_time st + duration (probed file_meta))%float |}).

Fixpoint chapter_loop (tl : tools) (args : combine_args)
    (file_title_list : list manifest_entry) (i : nat)
    (files_metadata : list file_meta) (st : synth_state) : result synth_state :=
  match files_metadata with
  | [] => Ok st
  | file_meta :: rest =>
      bind (chapter_step tl args file_title_list st i file_meta)
        (fun st' => chapter_loop tl args file_title_list (S i) rest st')
  end.

(** The block under [# Generate chapters]. *)
Definition generate_chapters (tl : tools) (args : combine_args)
    (file_title_list : list manifest_entry) (files_metadata : list file_meta)
    : result (list chapter) :=
  bind (chapter_loop tl args file_title_list 1 files_metadata
          {| chapters := []; current_time := 0%float |})
    (fun st => Ok (chapters st)).

(** The dict [output_metadata]. *)
Definition determine_output_metadata (title : option string)
    (csv_metadata : gmap string string) (first : file_meta)
    : gmap string string :=
  let book :=
    opt_or title
      (opt_or (csv_metadata !! "title")
         (or_else (album (probed first)) "Combined Audiobook")) in
  list_to_map
    [ ("title", book);
      ("artist", opt_or (csv_metadata !! "author") (artist (probed first)));
      ("album", book);
      ("author", default EmptyString (csv_metadata !! "author"));
      ("narrator", default EmptyString (csv_metadata !! "narrator"));
      ("genre", default "Audiobook" (csv_metadata !! "genre"));
      ("year", default EmptyString (csv_metadata !! "year"));
      ("description", default EmptyString (csv_metadata !! "description")) ].

(** What the function has decided when it starts the transcoder: the files
    in the order of the concat list, the output path, the chapters, the
    book metadata and the side-channel document. *)
Record plan : Type := {
  plan_files : list string;
  plan_output_file : string;
  plan_stream_copy : bool;
  plan_chapters : list chapter;
  plan_output_metadata : gmap string string;
  plan_metadata_file : string * string
}.

(** [combine_m4b_files] up to the first run of the transcoder. *)
Definition combine_plan (tl : tools) (args : combine_args) : early plan :=
  match select_files tl args with
  | (Raise e, lg) => (Raise e, lg)
  | (Ok None, lg) => (Ok None, lg)
  | (Ok (Some inp), lg) =>
      match probe_loop tl (m4b_files inp) [] 0%float with
      | (None, lg') => (Ok None, lg ++ lg')
      | (Some (files_metadata, _), lg') =>
          match files_metadata with
          | [] => (Ok None, lg ++ lg')
          | first :: _ =>
              let use_temp_dir :=
                if opt_truthy (temp_dir args)
                then abspath tl (default EmptyString (temp_dir args))
                else mkdtemp tl in
              let output_metadata :=
                determine_output_metadata (book_title inp) (csv_metadata inp)
                  first in
              (bind (generate_chapters tl args (file_title_list inp) files_metadata)
                 (fun chapters =>
               bind (create_chapter_metadata chapters use_temp_dir output_metadata)
                 (fun metadata_file =>
               Ok (Some {|
                 plan_files := m4b_files inp;
                 plan_output_file :=
                   abspath tl (default EmptyString (out_file inp));
                 plan_stream_copy := check_audio_compatibility files_metadata;
                 plan_chapters := chapters;
                 plan_output_metadata := output_metadata;
                 plan_metadata_file := metadata_file |}))),
               lg ++ lg')
          end
      end
  end.

End Combiner.

(** ** m4b_tools/cli.py *)
Module Cli.

Import Py.
#[local] Open Scope string_scope.
#[local] Open Scope list_scope.
#[local] Open Scope Z_scope.

(** How a call into the library ends: it returns, the user interrupts it
    ([KeyboardInterrupt]), or another exception escapes it. *)
Inductive call (A : Type) : Type :=
| Returns (a : A)
| Interrupted
| Throws (msg : string).
Arguments Returns {A} a.
Arguments Interrupted {A}.
Arguments Throws {A} msg.

(** The parsed arguments the handlers read. *)
Record cli_args : Type := {
  command : option string;
  jobs : Z;
  pattern : option string;
  output : option string;
  csv : option string
}.

(** What the three library functions do when they are called. *)
Record library : Type := {
  convert_all_to_m4b : call (nat * nat);
  combine_m4b_files : call bool;
  generate_csv_from_folder : call bool
}.

Definition opt_truthy (o : option string) : bool :=
  match o with
  | Some s => truthy s
  | None => false
  end.

(** [cmd_convert] *)
Definition cmd_convert (lib : library) (args : cli_args) : call Z :=
  if jobs args <? 1 then Returns 1
  else
    match convert_all_to_m4b lib with
    | Returns (successful, total) =>
        if (successful =? total)%nat then Returns 0
        else Returns (if (successful =? 0)%nat then 1 else 0)
    | Interrupted => Interrupted
    | Throws msg => Throws msg
    end.

(** [cmd_combine] *)
Definition cmd_combine (lib : library) (args : cli_args) : call Z :=
  if negb (opt_truthy (csv args)) && negb (opt_truthy (pattern args))
  then Returns 1
  else if negb (opt_truthy (csv args)) && negb (opt_truthy (output args))
  then Returns 1
  else
    match combine_m4b_files lib with
    | Returns success => Returns (if success then 0 else 1)
    | Interrupted => Interrupted
    | Throws msg => Throws msg
    end.

(** [cmd_generate_csv] *)
Definition cmd_generate_csv (lib : library) (args : cli_args) : call Z :=
  match generate_csv_from_folder lib with
  | Returns success => Returns (if success then 0 else 1)
  | Interrupted => Interrupted
  | Throws msg => Throws msg
  end.

(** [main]: the exit code of the process. *)
Definition main (lib : library) (args : cli_args) : Z :=
  match command args with
  | None => 1
  | Some cmd =>
      if negb (truthy cmd) then 1
      else
        let handled :=
          if String.eqb cmd "convert" then cmd_convert lib args
          else if String.eqb cmd "combine" then cmd_combine lib args
          else if String.eqb cmd "generate-csv" then cmd_generate_csv lib args
          else Returns 1 in
        match handled with
        | Returns exit_code => exit_code
        | Interrupted => 130
        | Throws _ => 1
        end
  end.

End Cli.

(** ** convert-all-to-m4b.py *)
Module Converter.

Import Py.
#[local] Open Scope string_scope.
#[local] Open Scope list_scope.

(** *** [pathlib] *)

(** A parsed path: whether it is anchored at the root, and its components. *)
Record ppath : Type := {
  anchored : bool;
  parts : list string
}.

(** [Path(s)] *)
Definition Path (s : string) : ppath :=
  {| anchored := isabs s; parts := parts_from EmptyString s |}.

(** [str(p)] *)
Definition path_str (p : ppath) : string :=
  if anchored p then "/" +:+ join "/" (parts p)
  else match parts p with
       | [] => "."
       | _ :: _ => join "/" (parts p)
       end.

(** [p.name] *)
Definition name (p : ppath) : string := List.last (parts p) EmptyString.

(** The components left of [l] after the prefix [pre]. *)
Fixpoint strip_parts (pre l : list string) : option (list string) :=
  match pre, l with
  | [], _ => Some l
  | a :: pre', b :: l' => if String.eqb a b then strip_parts pre' l' else None
  | _ :: _, [] => None
  end.

(** [p.relative_to(other)] *)
Definition relative_to (p other : ppath) : result ppath :=
  if Bool.eqb (anchored p) (anchored other) then
    match strip_parts (parts other) (parts p) with
    | Some rest => Ok {| anchored := false; parts := rest |}
    | None => Raise (ValueError "path is not in the subpath of the other")
    end
  else Raise (ValueError "path is not in the subpath of the other").

(** [a / b] *)
Definition joinpath (a b : ppath) : ppath :=
  if anchored b then b
  else {| anchored := anchored a; parts := parts a ++ parts b |}.

(** [p.with_suffix(suffix)] *)
Definition with_suffix (p : ppath) (suffix : string) : result ppath :=
  match name p with
  | EmptyString => Raise (ValueError "path has an empty name")
  | String _ _ =>
      Ok {| anchored := anchored p;
            parts := removelast (parts p) ++ [path_stem (name p) +:+ suffix] |}
  end.

(** [needle in s] for a two-character needle, and the text before its first
    occurrence ([s.split(needle)[0]]). *)
Fixpoint before_pair (a b : ascii) (s : string) : option string :=
  match s with
  | String x ((String y _) as s') =>
      if ch_eqb x a && ch_eqb y b then Some EmptyString
      else option_map (String x) (before_pair a b s')
  | _ => None
  end.

(** [s.rstrip('/')] *)
Definition rstrip_slash (s : string) : string :=
  rev_str (Tools.rstrip_slash_rev (rev_str s)).

(** *** The world the converter acts on *)

(** The regular files, by path, with their contents, and the runs of the
    transcoder so far (input, output), oldest first.  Directories are not
    modelled. *)
Record world : Type := {
  fs : gmap string string;
  invocations : list (string * string)
}.

(** The services of the converter. *)
Record services : Type := {
  (** [check_ffmpeg()] *)
  ffmpeg_ok : bool;
  (** [glob.glob(pattern, recursive=True)] *)
  glob_files : string -> list string;
  (** [Path.cwd()] *)
  cwd : ppath;
  (** [Path(p).resolve()] *)
  resolve : string -> ppath;
  (** whether [os.makedirs(dir, exist_ok=True)] succeeds *)
  makedirs_ok : string -> bool;
  (** a run of [ffmpeg -i input ... -y output] on the files at hand: whether
      it exits with status 0, and what it leaves at [output] if it writes
      there.  The transcoder writes no other file. *)
  ffmpeg : gmap string string -> string -> string -> bool * option string
}.

(** [SUPPORTED_FORMATS] *)
Definition SUPPORTED_FORMATS : list string :=
  [".mp3"; ".flac"; ".m4a"; ".aac"; ".ogg"; ".wav"; ".wma"].

Definition supported (f : string) : bool :=
  existsb (String.eqb (lower (path_suffix f))) SUPPORTED_FORMATS.

(** [convert_to_m4b]: every exception is caught and gives [False]. *)
Definition convert_to_m4b (sv : services) (w : world)
    (input_file output_file : string) : bool * world :=
  if negb (makedirs_ok sv (Tools.dirname output_file)) then (false, w)
  else
    let '(exit_ok, written) := ffmpeg sv (fs w) input_file output_file in
    let w' :=
      {| fs := match written with
               | Some content => <[output_file := content]> (fs w)
               | None => fs w
               end;
         invocations := invocations w ++ [(input_file, output_file)] |} in
    if exit_ok then
      match fs w' !! output_file with
      | Some content => (truthy content, w')
      | None => (false, w')
      end
    else (false, w').

(** The arguments of [convert_all_to_m4b] that [process_single_file] reads. *)
Record job : Type := {
  glob_pattern : string;
  output_base_dir : string;
  preserve_structure : bool;
  base_input_path : option string;
  max_workers : nat
}.

Definition opt_truthy (o : option string) : bool :=
  match o with
  | Some s => truthy s
  | None => false
  end.

(** [base_path]: [Path(base_input_path).resolve()] or [None]. *)
Definition base_path_of (sv : services) (jb : job) : option ppath :=
  if opt_truthy (base_input_path jb)
  then Some (resolve sv (default EmptyString (base_input_path jb)))
  else None.

(** [try: p.relative_to(base) except ValueError: p.name] *)
Definition relative_or_name (p base : ppath) : ppath :=
  match relative_to p base with
  | Ok r => r
  | Raise _ => Path (name p)
  end.

(** The output path [process_single_file] computes for an input file. *)
Definition output_path_of (sv : services) (jb : job) (input_file : string)
    : result ppath :=
  let input_path := Path input_file in
  let output_base_path := Path (output_base_dir jb) in
  if preserve_structure jb then
    let relative_path :=
      match base_path_of sv jb with
      | Some base_path => relative_or_name input_path base_path
      | None =>
          match before_pair "*" "*" (glob_pattern jb) with
          | Some before =>
              let pattern_base := rstrip_slash before in
              if truthy pattern_base
              then relative_or_name input_path (Path pattern_base)
              else relative_or_name input_path (cwd sv)
          | None => Path (name input_path)
          end
      end in
    bind (with_suffix relative_path ".m4b")
      (fun rel => Ok (joinpath output_base_path rel))
  else
    Ok (joinpath output_base_path (Path (path_stem (name input_path) +:+ ".m4b"))).

(** [process_single_file]: the success flag (the input path it also returns
    is its argument). *)
Definition process_single_file (sv : services) (jb : job) (w : world)
    (input_file : string) : result bool * world :=
  match output_path_of sv jb input_file with
  | Raise e => (Raise e, w)
  | Ok output_path =>
      match fs w !! path_str output_path with
      | Some _ => (Ok false, w)
      | None =>
          let '(success, w') :=
            convert_to_m4b sv w (path_str (Path input_file))
              (path_str output_path) in
          (Ok success, w')
      end
  end.

(** The loop [for input_file in audio_files] of the single-threaded branch,
    with the counter [successful_conversions]. *)
Fixpoint convert_loop (sv : services) (jb : job) (audio_files : list string)
    (successful_conversions : nat) (w : world) : result nat * world :=
  match audio_files with
  | [] => (Ok successful_conversions, w)
  | input_file :: rest =>
      match process_single_file sv jb w input_file with
      | (Raise e, w') => (Raise e, w')
      | (Ok success, w') =>
          convert_loop sv jb rest
            (if success then S successful_conversions
             else successful_conversions) w'
      end
  end.

(** [sorted(l)] on strings. *)
Definition sorted_strings (l : list string) : list string :=
  NaturalSort.sort_by (fun x => x) NaturalSort.str_lt l.

(** The files [convert_all_to_m4b] works on. *)
Definition audio_files_of (sv : services) (jb : job) : list string :=
  let full_pattern :=
    match base_path_of sv jb with
    | Some base_path =>
        if negb (isabs (glob_pattern jb))
        then path_str (joinpath base_path (Path (glob_pattern jb)))
        else glob_pattern jb
    | None => glob_pattern jb
    end in
  filter (fun f => supported f = true) (sorted_strings (glob_files sv full_pattern)).

(** [convert_all_to_m4b] with [max_workers == 1]:
    [(successful_conversions, total_files)]. *)
Definition convert_all_to_m4b (sv : services) (jb : job) (w : world)
    : result (nat * nat) * world :=
  if negb (ffmpeg_ok sv) then (Ok (0, 0), w)
  else
    match audio_files_of sv jb with
    | [] => (Ok (0, 0), w)
    | audio_files =>
        match convert_loop sv jb audio_files 0 w with
        | (Ok successful, w') => (Ok (successful, length audio_files), w')
        | (Raise e, w') => (Raise e, w')
        end
    end.

End Converter.

(** ** m4b_tools/combiner.py: [generate_csv_from_folder] *)
Module Template.

Import Py Re NaturalSort TitleDeriver Tools.
#[local] Open Scope string_scope.
#[local] Open Scope list_scope.

(** The services the template writer calls beside those of [tools]. *)
Record folder_services : Type := {
  (** [os.path.isdir] *)
  isdir : string -> bool;
  (** [os.path.isfile] *)
  isfile : string -> bool;
  (** [os.path.relpath(path, start)] *)
  relpath : string -> string -> string;
  (** the text [csv.writer(f).writerow(row)] writes *)
  writerow : list string -> string;
  (** the exception [open(path, 'w')] raises, as text, when it raises one *)
  open_error : string -> option string
}.

(** The title of a row: the title in the file's metadata when it has one,
    else the cleaned file name, else the file name. *)
Definition row_title (tl : tools) (file_path : string) : string :=
  let metadata_title :=
    match get_audio_metadata tl file_path with
    | Some metadata => strip (meta_title metadata)
    | None => EmptyString
    end in
  if truthy metadata_title then metadata_title
  else
    let filename := path_stem file_path in
    let cleaned := sub_prefix true chapter_prefix_re filename in
    let cleaned := sub_prefix false leading_number_re cleaned in
    let cleaned := replace_char "-" " " (replace_char "_" " " cleaned) in
    let cleaned := join " " (split_ws cleaned) in
    if truthy cleaned then title cleaned else filename.

(** What the nine [f.write] calls before the CSV header write. *)
Definition header_text (folder_name output_m4b : string) : string :=
  "#title," +:+ folder_name +:+ nl
  +:+ "#author," +:+ nl
  +:+ "#narrator," +:+ nl
  +:+ "#genre,Audiobook" +:+ nl
  +:+ "#year," +:+ nl
  +:+ "#description," +:+ nl
  +:+ "#output_path," +:+ output_m4b +:+ nl
  +:+ "#cover_path," +:+ nl
  +:+ nl.

(** The rows the [csv.writer] writes: the header and one row per file. *)
Fixpoint rows_text (tl : tools) (fs : folder_services) (csv_dir : string)
    (m4b_files : list string) : string :=
  match m4b_files with
  | [] => EmptyString
  | file_path :: rest =>
      writerow fs [relpath fs file_path csv_dir; row_title tl file_path]
      +:+ rows_text tl fs csv_dir rest
  end.

(** The files found in the folder, before they are sorted. *)
Definition found_files (tl : tools) (fs : folder_services)
    (folder_path : string) : list string :=
  filter (fun p => isfile fs p
                   && Combiner.accepted_suffix (lower (path_suffix p)) = true)
         (glob tl (path_join (path_join folder_path "**") "*")).

(** The files found in the folder, in natural order. *)
Definition folder_files (tl : tools) (fs : folder_services)
    (folder_path : string) : result (list string) :=
  natural_sort (found_files tl fs folder_path).

(** [generate_csv_from_folder]: the answer, the file written (its path and
    its text) when one is, and the log.  The sort stands before the [try],
    so its exception escapes; inside the [try], [open] is the one call taken
    to fail. *)
Definition generate_csv_from_folder (tl : tools) (fs : folder_services)
    (folder_path : string) (output_csv : option string)
    : result bool * option (string * string) * log :=
  let folder_path := abspath tl folder_path in
  if negb (path_exists tl folder_path) then
    (Ok false, None, [(ERROR, "Folder not found: " +:+ folder_path)])
  else if negb (isdir fs folder_path) then
    (Ok false, None, [(ERROR, "Path is not a directory: " +:+ folder_path)])
  else
    match found_files tl fs folder_path with
    | [] =>
        (Ok false, None,
         [(ERROR, "No M4B files found in folder: " +:+ folder_path)])
    | _ :: _ =>
        match folder_files tl fs folder_path with
        | Raise e => (Raise e, None, [])
        | Ok m4b_files =>
            let folder_name := basename folder_path in
            let output_csv :=
              if negb (Combiner.opt_truthy output_csv)
              then path_join folder_path (folder_name +:+ ".csv")
              else abspath tl (default EmptyString output_csv) in
            let output_m4b := path_join folder_path (folder_name +:+ ".m4b") in
            match open_error fs output_csv with
            | Some e =>
                (Ok false, None, [(ERROR, "Failed to write CSV file: " +:+ e)])
            | None =>
                (Ok true,
                 Some (output_csv,
                       header_text folder_name output_m4b
                       +:+ writerow fs ["file"; "title"]
                       +:+ rows_text tl fs (dirname output_csv) m4b_files),
                 [])
            end
        end
    end.

(** [open(path).readlines()] on the text of a file: universal newlines turn
    CR LF and a lone CR into LF, and every line keeps its LF. *)
Fixpoint readlines_from (cur s : string) : list string :=
  match s with
  | EmptyString => if truthy cur then [cur] else []
  | String c s' =>
      if (code c =? 10)%nat
      then (cur +:+ nl) :: readlines_from EmptyString s'
      else if (code c =? 13)%nat
      then (cur +:+ nl)
           :: readlines_from EmptyString
                (match s' with
                 | String c' s'' => if (code c' =? 10)%nat then s'' else s'
                 | EmptyString => s'
                 end)
      else readlines_from (cur +:+ String c EmptyString) s'
  end.

Definition readlines (text : string) : list string :=
  readlines_from EmptyString text.

End Template.

(** ** The stand-alone scripts *)
Module Scripts.

Import Py Tools.
#[local] Open Scope string_scope.
#[local] Open Scope list_scope.

(** *** combine-m4b-chapters.py: [get_audio_metadata] *)

(** The dict the function returns: the duration, and the loaded values of
    the other keys as they are. *)
Record metadata_dict : Type := {
  md_duration : float;
  md_title : json;
  md_artist : json;
  md_album : json;
  md_codec : json;
  md_bitrate : json;
  md_sample_rate : json;
  md_channels : json
}.

(** [v.get(k, d)]: only a dict has [get]. *)
Definition get (v : json) (k : string) (d : json) : result json :=
  match v with
  | JObj members => Ok (default d (obj_get k members))
  | _ => Raise (AttributeError "object has no attribute 'get'")
  end.

(** [v == 'audio'] *)
Definition is_audio (v : json) : bool :=
  match v with
  | JStr s => String.eqb s "audio"
  | _ => false
  end.

(** [next((s for s in streams if s.get('codec_type') == 'audio'), {})] *)
Fixpoint first_audio (streams : list json) : result json :=
  match streams with
  | [] => Ok (JObj [])
  | s :: rest =>
      bind (get s "codec_type" JNull)
        (fun t => if is_audio t then Ok s else first_audio rest)
  end.

(** [get_audio_metadata], from the outcome of
    [ffprobe -show_format -show_streams] and [json.loads]; [None] is the
    empty dict of the [except] clause, which catches the failed probe, the
    text that is not JSON and [ValueError]. *)
Definition get_audio_metadata (tl : tools) (outcome : probe_outcome)
    : result (option metadata_dict) :=
  match outcome with
  | ProbeRaises (ValueError _) => Ok None
  | ProbeRaises e => Raise e
  | ProbeExit _ | ProbeNotJson _ => Ok None
  | ProbeJson metadata =>
      bind (get metadata "format" (JObj [])) (fun format_info =>
      bind (bind (get metadata "streams" (JArr [])) py_iter) (fun streams =>
      bind (first_audio streams) (fun audio_stream =>
      bind (get format_info "duration" (JNum 0)) (fun d =>
      match py_float tl d with
      | Raise (ValueError _) => Ok None
      | Raise e => Raise e
      | Ok duration =>
          let tag k :=
            bind (get format_info "tags" (JObj []))
              (fun tags => get tags k (JStr EmptyString)) in
          bind (tag "title") (fun title =>
          bind (tag "artist") (fun artist =>
          bind (tag "album") (fun album =>
          bind (get audio_stream "codec_name" (JStr EmptyString)) (fun codec =>
          bind (get audio_stream "bit_rate" (JStr EmptyString)) (fun bitrate =>
          bind (get audio_stream "sample_rate" (JStr EmptyString))
            (fun sample_rate =>
          bind (get audio_stream "channels" (JNum 2)) (fun channels =>
          Ok (Some {| md_duration := duration;
                      md_title := title;
                      md_artist := artist;
                      md_album := album;
                      md_codec := codec;
                      md_bitrate := bitrate;
                      md_sample_rate := sample_rate;
                      md_channels := channels |}))))))))
      end))))
  end.

(** *** convert-all-to-m4b.py: [main] *)

(** The exit status of the script: [exit(1)] when the number of jobs is
    below 1 and when not every file was converted, 0 when [main] returns. *)
Definition convert_main (jobs : Z) (convert_all_to_m4b : Cli.call (nat * nat))
    : Cli.call Z :=
  if (jobs <? 1)%Z then Cli.Returns 1%Z
  else
    match convert_all_to_m4b with
    | Cli.Returns (successful, total) =>
        if (successful =? total)%nat then Cli.Returns 0%Z else Cli.Returns 1%Z
    | Cli.Interrupted => Cli.Interrupted
    | Cli.Throws msg => Cli.Throws msg
    end.

End Scripts.

(** ** Sample environments and inputs, for the worked examples *)
Module Samples.

Import Py Tools Combiner.
#[local] Open Scope string_scope.
#[local] Open Scope list_scope.

(** A line of a text file. *)
Definition ln (s : string) : string := s +:+ nl.

(** Characters above code point 127: U+00E9 and U+00C9 (e and E with an
    acute accent), U+00DF (sharp s), U+00B2 (superscript two). *)
Definition e_acute : string := String (ascii_of_nat 233) EmptyString.
Definition E_acute : string := String (ascii_of_nat 201) EmptyString.
Definition sharp_s : string := String (ascii_of_nat 223) EmptyString.
Definition superscript_two : string := String (ascii_of_nat 178) EmptyString.

(** A file name with accents. *)
Definition cafe_elan : string :=
  "caf" +:+ e_acute +:+ "_" +:+ e_acute +:+ "lan.m4b".

(** The fields of a line without quote characters, as [csv.reader] splits
    them: the line terminator is dropped, commas separate. *)
Fixpoint split_commas (cur s : string) : list string :=
  match s with
  | EmptyString => [cur]
  | String c s' =>
      if ch_eqb c ","%char then cur :: split_commas EmptyString s'
      else if (code c =? 10)%nat || (code c =? 13)%nat then split_commas cur s'
      else split_commas (cur +:+ String c EmptyString) s'
  end.

Definition plain_csv_row (line : string) : list string :=
  split_commas EmptyString line.

(** The reader on lines without quote characters: one record per line. *)
Definition plain_csv_reader (lines : list string) : list (list string) :=
  map plain_csv_row lines.

Definition probed_file (d : float) (t alb : string) : audio_meta :=
  {| duration := d; meta_title := t; artist := "Some Author"; album := alb;
     codec := "aac"; bitrate := "64000"; sample_rate := "22050";
     channels := 1 |}.

(** A machine whose working directory is [/work]: it holds the regular
    files [files]; [media] maps a path to what the metadata probe and the
    chapter probe say of it; [texts] maps a path to its lines. *)
Definition machine (files : list string)
    (media : list (string * (audio_meta * probe_outcome)))
    (texts : list (string * list string)) : tools :=
  {| ffmpeg_available := true;
     get_audio_metadata := fun p =>
       option_map (fun x => fst (snd x))
         (find (fun x => String.eqb (fst x) p) media);
     ffprobe_chapters := fun p =>
       match find (fun x => String.eqb (fst x) p) media with
       | Some x => snd (snd x)
       | None => ProbeExit 1
       end;
     float_of_str := fun _ => None;
     str_of_json := fun _ => "?";
     path_exists := fun p => existsb (String.eqb p) files;
     abspath := fun p => if isabs p then p else "/work/" +:+ p;
     glob := fun _ => files;
     read_lines := fun p =>
       match find (fun x => String.eqb (fst x) p) texts with
       | Some x => snd x
       | None => []
       end;
     csv_reader := plain_csv_reader;
     mkdtemp := "/tmp/tmpdir" |}.

Definition no_chapters : probe_outcome := ProbeJson (JObj []).

(** The manifest of the specification's parser example. *)
Definition book_csv : list string :=
  [ln "#title,My Book"; ln ""; ln "file,title"; ln "a.m4b,Intro"].

Definition book_machine : tools :=
  machine ["/work/book.csv"; "/work/a.m4b"]
          [("/work/a.m4b", (probed_file 2 "" "", no_chapters))]
          [("/work/book.csv", book_csv)].

(** A manifest that lists [b.m4b] before [a.m4b] and names an output. *)
Definition reversed_csv : list string :=
  [ln "#title,Two Parts"; ln "#output_path,/out/from_csv.m4b"; ln "";
   ln "file,title"; ln "b.m4b,Second half first"; ln "a.m4b,First half last"].

Definition reversed_machine : tools :=
  machine ["/work/rev.csv"; "/work/a.m4b"; "/work/b.m4b"]
          [("/work/a.m4b", (probed_file 2 "" "Album A", no_chapters));
           ("/work/b.m4b", (probed_file 1.5 "" "Album B", no_chapters))]
          [("/work/rev.csv", reversed_csv)].

Definition csv_args (csv out ttl : option string) : combine_args :=
  {| input_pattern := None; output_file := out; title := ttl;
     preserve_existing_chapters := false; temp_dir := None;
     csv_file := csv |}.

(** Three tracks of 2.0 s, 1.5 s and 2.5 s, and a silent one. *)
Definition track (path : string) (d : float) : file_meta :=
  {| file_path := path; start_offset := 0%float;
     probed := probed_file d "" "" |}.

Definition three_tracks : list file_meta :=
  [track "/work/chapter1.m4b" 2; track "/work/chapter2.m4b" 1.5;
   track "/work/chapter3.m4b" 2.5].

Definition tracks_with_silence : list file_meta :=
  [track "/work/chapter1.m4b" 2; track "/work/chapter2.m4b" 0;
   track "/work/chapter3.m4b" 1.5].

Definition pattern_args (preserve : bool) : combine_args :=
  {| input_pattern := Some "/work/*.m4b"; output_file := Some "/out/book.m4b";
     title := None; preserve_existing_chapters := preserve;
     temp_dir := None; csv_file := None |}.

Definition plain_machine : tools :=
  machine ["/work/chapter1.m4b"; "/work/chapter2.m4b"; "/work/chapter3.m4b"]
          [("/work/chapter1.m4b", (probed_file 2 "" "", no_chapters));
           ("/work/chapter2.m4b", (probed_file 1.5 "" "", no_chapters));
           ("/work/chapter3.m4b", (probed_file 2.5 "" "", no_chapters))]
          [].

(** A first part of 10 s with two embedded chapters, 1 s..2 s and 5 s..6 s,
    followed by a silent part without chapters. *)
Definition two_embedded : probe_outcome :=
  ProbeJson (JObj
    [("chapters", JArr
       [JObj [("start_time", JNum 1); ("end_time", JNum 2);
              ("tags", JObj [("title", JStr "Intro")])];
        JObj [("start_time", JNum 5); ("end_time", JNum 6)]])]).

Definition chaptered_machine : tools :=
  machine ["/work/part1.m4b"; "/work/part2.m4b"]
          [("/work/part1.m4b", (probed_file 10 "" "", two_embedded));
           ("/work/part2.m4b", (probed_file 0 "" "", no_chapters))]
          [].

Definition chaptered_tracks : list file_meta :=
  [track "/work/part1.m4b" 10; track "/work/part2.m4b" 0].

(** What the chapter probe of [chaptered_machine] finds in a file. *)
Definition chaptered_embedded (path : string) : list existing_chapter :=
  if String.eqb path "/work/part1.m4b" then
    [ {| ec_title := JStr "Intro"; ec_start := 1; ec_end := 2; ec_duration := 1 |};
      {| ec_title := JStr "Chapter 2"; ec_start := 5; ec_end := 6; ec_duration := 1 |} ]
  else [].

(** Book metadata with an empty author and no year, and two chapters whose
    boundaries are not whole milliseconds. *)
Definition sample_book : gmap string string :=
  list_to_map [("title", "My Book"); ("artist", "A. Writer");
               ("album", "My Book"); ("author", ""); ("genre", "Audiobook");
               ("description", "A test")].

Definition sample_chapters : list chapter :=
  [ {| ch_title := "Intro"; ch_start := 0; ch_end := 1.9996 |};
    {| ch_title := "The End"; ch_start := 1.9996; ch_end := 3.5 |} ].

(** A machine on which the chapter probe of [/work/broken.m4b] exits with
    status 1 and that of [/work/garbled.m4b] prints text that is not JSON. *)
Definition failing_machine : tools :=
  machine ["/work/broken.m4b"; "/work/garbled.m4b"; "/work/plain.m4b"]
          [("/work/broken.m4b", (probed_file 1 "" "", ProbeExit 1));
           ("/work/garbled.m4b", (probed_file 1 "" "", ProbeNotJson "<html>"));
           ("/work/plain.m4b", (probed_file 1 "" "", no_chapters))]
          [].

(** A machine on which the chapter probe cannot be started for
    [/work/absent.m4b] and prints JSON of another shape for the others: a
    list, a [chapters] member that is a number, and a chapter whose start
    time is [N/A]. *)
Definition misshapen_machine : tools :=
  machine ["/work/absent.m4b"; "/work/list.m4b"; "/work/count.m4b"; "/work/na.m4b"]
          [("/work/absent.m4b",
            (probed_file 1 "" "",
             ProbeRaises (FileNotFoundError "No such file or directory: 'ffprobe'")));
           ("/work/list.m4b", (probed_file 1 "" "", ProbeJson (JArr [])));
           ("/work/count.m4b",
            (probed_file 1 "" "", ProbeJson (JObj [("chapters", JNum 5)])));
           ("/work/na.m4b",
            (probed_file 1 "" "",
             ProbeJson (JObj
               [("chapters", JArr
                  [JObj [("start_time", JStr "N/A"); ("end_time", JNum 2)]])])))]
          [].

(** The chapter entries of [two_embedded]. *)
Definition two_embedded_items : list json :=
  [JObj [("start_time", JNum 1); ("end_time", JNum 2);
         ("tags", JObj [("title", JStr "Intro")])];
   JObj [("start_time", JNum 5); ("end_time", JNum 6)]].

(** [m4b-tools convert '*.mp3' output] with the default single job, and a
    library whose conversion handles 3 files of 5. *)
Definition convert_cli : Cli.cli_args :=
  {| Cli.command := Some "convert"; Cli.jobs := 1;
     Cli.pattern := Some "*.mp3"; Cli.output := None; Cli.csv := None |}.

Definition partial_library : Cli.library :=
  {| Cli.convert_all_to_m4b := Cli.Returns (3, 5);
     Cli.combine_m4b_files := Cli.Returns true;
     Cli.generate_csv_from_folder := Cli.Returns true |}.

(** A manifest with a missing file and a text file between two valid rows. *)
Definition mixed_csv : list string :=
  [ln "#title,Mixed"; ln ""; ln "file,title"; ln "a.m4b,First";
   ln "gone.m4b,Missing"; ln "notes.txt,Notes"; ln "b.m4b,Last"].

Definition mixed_machine : tools :=
  machine ["/work/mixed.csv"; "/work/a.m4b"; "/work/b.m4b"; "/work/notes.txt"]
          [] [("/work/mixed.csv", mixed_csv)].

(** A manifest whose only row names a missing file, and an empty one. *)
Definition filtered_machine : tools :=
  machine ["/work/f.csv"; "/work/e.csv"] []
          [("/work/f.csv", [ln "file,title"; ln "gone.m4b,Missing"]);
           ("/work/e.csv", [ln "#title,Nothing"])].

(** A converter whose transcoder always succeeds, on a disk where the
    output of [a.mp3] is already there. *)
Definition studio : Converter.services :=
  {| Converter.ffmpeg_ok := true;
     Converter.glob_files := fun _ => ["/in/b.mp3"; "/in/a.mp3"; "/in/notes.txt"];
     Converter.cwd := Converter.Path "/in";
     Converter.resolve := Converter.Path;
     Converter.makedirs_ok := fun _ => true;
     Converter.ffmpeg := fun _ input _ => (true, Some ("m4b of " +:+ input)) |}.

Definition flat_job : Converter.job :=
  {| Converter.glob_pattern := "/in/*";
     Converter.output_base_dir := "/out";
     Converter.preserve_structure := false;
     Converter.base_input_path := None;
     Converter.max_workers := 1 |}.

Definition disk : Converter.world :=
  {| Converter.fs := list_to_map
       [("/in/a.mp3", "mp3 a"); ("/in/b.mp3", "mp3 b");
        ("/in/notes.txt", "text"); ("/out/a.m4b", "old m4b")];
     Converter.invocations := [] |}.

(** The machine of [plain_machine] on which [/work/chapter2.m4b] cannot be
    probed. *)
Definition unprobed_machine : tools :=
  machine ["/work/chapter1.m4b"; "/work/chapter2.m4b"; "/work/chapter3.m4b"]
          [("/work/chapter1.m4b", (probed_file 2 "" "", no_chapters));
           ("/work/chapter3.m4b", (probed_file 2.5 "" "", no_chapters))]
          [].

(** A manifest whose only record is shorter than its header. *)
Definition short_machine : tools :=
  machine ["/work/s.csv"; "/work/a.m4b"] []
          [("/work/s.csv", [ln "file,title"; ln "a.m4b"])].

(** The services [tl] with another CSV reader. *)
Definition with_reader (tl : tools)
    (reader : list string -> list (list string)) : tools :=
  {| ffmpeg_available := ffmpeg_available tl;
     get_audio_metadata := get_audio_metadata tl;
     ffprobe_chapters := ffprobe_chapters tl;
     float_of_str := float_of_str tl;
     str_of_json := str_of_json tl;
     path_exists := path_exists tl;
     abspath := abspath tl;
     glob := glob tl;
     read_lines := read_lines tl;
     csv_reader := reader;
     mkdtemp := mkdtemp tl |}.

(** The double quote. *)
Definition dq : string := String (ascii_of_nat 34) EmptyString.

(** A manifest whose one record has a quoted title that runs over two
    lines, with the two records the reader makes of its three lines. *)
Definition quoted_machine : tools :=
  with_reader
    (machine ["/work/q.csv"; "/work/a.m4b"] []
       [("/work/q.csv",
         [ln "file,title"; ln ("a.m4b," +:+ dq +:+ "Part");
          ln ("one" +:+ dq)])])
    (fun _ => [["file"; "title"]; ["a.m4b"; "Part" +:+ nl +:+ "one"]]).



(** Two inputs with the same stem in two directories, on an empty disk:
    without the directory structure both are to become [/out/a.m4b]. *)
Definition twin_studio : Converter.services :=
  {| Converter.ffmpeg_ok := true;
     Converter.glob_files := fun _ => ["/in/x/a.mp3"; "/in/y/a.flac"];
     Converter.cwd := Converter.Path "/in";
     Converter.resolve := Converter.Path;
     Converter.makedirs_ok := fun _ => true;
     Converter.ffmpeg := fun _ input _ => (true, Some ("m4b of " +:+ input)) |}.

Definition twin_job (preserve : bool) : Converter.job :=
  {| Converter.glob_pattern := "/in/**/*";
     Converter.output_base_dir := "/out";
     Converter.preserve_structure := preserve;
     Converter.base_input_path := None;
     Converter.max_workers := 1 |}.

Definition empty_disk : Converter.world :=
  {| Converter.fs := ∅; Converter.invocations := [] |}.

(** The end of a row written by [csv.writer]: CR LF. *)
Definition crlf : string := String (ascii_of_nat 13) nl.

(** A machine with the folder [/books/My Book], which holds one audio file
    without a title of its own. *)
Definition library_machine : tools :=
  machine ["/books/My Book"; "/books/My Book/01 - intro.m4b"]
          [("/books/My Book/01 - intro.m4b",
            (probed_file 2 EmptyString EmptyString, no_chapters))]
          [].

Definition library_folder : Template.folder_services :=
  {| Template.isdir := fun p => String.eqb p "/books/My Book";
     Template.isfile := fun p => negb (String.eqb p "/books/My Book");
     Template.relpath := fun p _ => basename p;
     Template.writerow := fun row => join "," row +:+ crlf;
     Template.open_error := fun _ => None |}.

(** A machine on which the chapter probe of [/work/part1.m4b] lists a
    chapter whose start time is not a number. *)
Definition unreadable_chapters : probe_outcome :=
  ProbeJson (JObj
    [("chapters", JArr
       [JObj [("start_time", JStr "soon"); ("end_time", JNum 2)]])]).

Definition unreadable_machine : tools :=
  machine ["/work/part1.m4b"; "/work/part2.m4b"]
          [("/work/part1.m4b", (probed_file 10 "" "", unreadable_chapters));
           ("/work/part2.m4b", (probed_file 0 "" "", no_chapters))]
          [].

(** The answer of [ffprobe -show_format -show_streams] for a file with a
    cover picture before its audio stream. *)
Definition cover_then_audio : list (string * json) :=
  [("streams", JArr
      [JObj [("codec_type", JStr "video"); ("codec_name", JStr "mjpeg")];
       JObj [("codec_type", JStr "audio"); ("codec_name", JStr "aac");
             ("sample_rate", JStr "44100"); ("channels", JNum 1)]]);
   ("format", JObj [("duration", JNum 12.5);
                    ("tags", JObj [("title", JStr "Intro")])])].

End Samples.

(** ** The vocabulary of the claims *)
Module Props.

Import Py Tools Combiner.
#[local] Open Scope string_scope.
#[local] Open Scope list_scope.

(** *** Chapter synthesis *)

(** The durations [d1..dN] of the probed tracks. *)
Definition durations (files_metadata : list file_meta) : list float :=
  map (fun m => duration (probed m)) files_metadata.

(** [d1 + .. + di], summed from the left from [0.0] as the program does. *)
Definition prefix_sum (ds : list float) (i : nat) : float :=
  fold_left PrimFloat.add (take i ds) 0%float.

Definition total (ds : list float) : float := fold_left PrimFloat.add ds 0%float.

(** The title of the span of the [i]-th track (from 1). *)
Definition span_title (args : combine_args)
    (file_title_list : list manifest_entry) (i : nat) (m : file_meta) : string :=
  or_else (csv_title_for args file_title_list (file_path m))
    (TitleDeriver.derive_chapter_title (file_path m) i (meta_title (probed m))).

(** One span per track, from the running offset [t]. *)
Fixpoint whole_spans (args : combine_args)
    (file_title_list : list manifest_entry) (t : float) (i : nat)
    (files_metadata : list file_meta) : list chapter :=
  match files_metadata with
  | [] => []
  | m :: rest =>
      whole_file_chapter (span_title args file_title_list i m) t m
      :: whole_spans args file_title_list (t + duration (probed m))%float (S i) rest
  end.






(** *** The side-channel document *)

(** A text of lines, each ended by a line feed. *)
Fixpoint unlines (lines : list string) : string :=
  match lines with
  | [] => EmptyString
  | l :: rest => l +:+ nl +:+ unlines rest
  end.

(** The book fields in the order of the document, each with its tag. *)
Definition book_fields : list (string * string) :=
  [("title", "title"); ("artist", "artist"); ("album", "album");
   ("author", "album_artist"); ("narrator", "composer"); ("genre", "genre");
   ("year", "date"); ("description", "comment")].

(** The line of a field, if the field is present and not empty. *)
Definition field_line (metadata : gmap string string) (field : string * string)
    : option string :=
  match metadata !! fst field with
  | Some v => if truthy v then Some (snd field +:+ "=" +:+ v) else None
  | None => None
  end.



(** A time in seconds as whole milliseconds: the whole part of the
    magnitude of the product, with the sign of the product. *)
Definition truncated_ms (t : float) : Z :=
  match Prim2SF (t * 1000)%float with
  | S754_finite s m e =>
      let magnitude := (Z.pos m * 2 ^ Z.max 0 e / 2 ^ Z.max 0 (- e))%Z in
      if s then (- magnitude)%Z else magnitude
  | _ => 0%Z
  end.

(** The block of a chapter; its last line is blank. *)
Definition chapter_block (c : chapter) : list string :=
  ["[CHAPTER]";
   "TIMEBASE=1/1000";
   "START=" +:+ str_Z (truncated_ms (ch_start c));
   "END=" +:+ str_Z (truncated_ms (ch_end c));
   "title=" +:+ ch_title c;
   EmptyString].

(** The document: marker, field lines, a blank line, the chapter blocks. *)
Definition document (chapters : list chapter) (metadata : gmap string string)
    : string :=
  unlines ([";FFMETADATA1"]
           ++ omap (field_line metadata) book_fields
           ++ [EmptyString]
           ++ concat (map chapter_block chapters)).

(** *** Chapter decoding *)

(** The title a probed chapter carries in its tags, if any. *)
Definition tag_title (item : json) : option json :=
  match item with
  | JObj members =>
      match obj_get "tags" members with
      | Some (JObj tags) => obj_get "title" tags
      | _ => None
      end
  | _ => None
  end.

(** A chapter entry the decoder can read: an object whose times convert to
    floats and whose tags, when present, are an object. *)
Definition readable (tl : tools) (item : json) : Prop :=
  exists members start_time end_time,
    item = JObj members
    /\ py_float tl (default (JNum 0) (obj_get "start_time" members)) = Ok start_time
    /\ py_float tl (default (JNum 0) (obj_get "end_time" members)) = Ok end_time
    /\ (obj_get "tags" members = None
        \/ exists tags, obj_get "tags" members = Some (JObj tags)).

(** *** The manifest *)

Definition manifest_lines (tl : tools) (csv_file : string) : list string :=
  read_lines tl (abspath tl csv_file).

(** A comment line and a blank line. *)
Definition is_comment (line : string) : bool := startswith_char "#" (strip line).

Definition is_blank (line : string) : bool := negb (truthy (strip line)).

(** The lines at the head of the manifest that are comments or blank. *)
Fixpoint leading_block (lines : list string) : list string :=
  match lines with
  | line :: rest =>
      if is_comment line || is_blank line then line :: leading_block rest
      else []
  | [] => []
  end.

(** The separator of a comment: its first comma if it has one, else its
    first colon. *)
Definition separator (line : string) : option ascii :=
  if contains_char "," (strip line) then Some ","%char
  else if contains_char ":" (strip line) then Some ":"%char
  else None.

(** A directive: a comment with a separator. *)
Definition is_directive (line : string) : bool :=
  is_comment line
  && match separator line with
     | Some _ => true
     | None => false
     end.

(** The position of the first [c] of [s]. *)
Fixpoint index_of (c : ascii) (s : string) : nat :=
  match s with
  | EmptyString => 0
  | String a s' => if ch_eqb a c then 0 else S (index_of c s')
  end.

(** The key of a directive, what stands between the [#] and the separator,
    and its value, what stands after the separator. *)
Definition directive_key (line : string) : string :=
  let body := tail_str (strip line) in
  match separator line with
  | Some c => lower (strip (take_str (index_of c body) body))
  | None => EmptyString
  end.

Definition directive_value (line : string) : string :=
  let body := tail_str (strip line) in
  match separator line with
  | Some c => strip (drop_str (S (index_of c body)) body)
  | None => EmptyString
  end.

(** A directive is kept when neither its key nor its value is empty; a
    later directive replaces an earlier one with the same key. *)
Definition read_directive (m : gmap string string) (line : string)
    : gmap string string :=
  if is_directive line && truthy (directive_key line)
     && truthy (directive_value line)
  then <[directive_key line := directive_value line]> m
  else m.

Definition manifest_directives (tl : tools) (csv_file : string)
    : gmap string string :=
  foldl read_directive ∅ (leading_block (manifest_lines tl csv_file)).

(** The number of elements at the head of a list that satisfy [p]. *)
Fixpoint leading_count {A} (p : A -> bool) (l : list A) : nat :=
  match l with
  | x :: rest => if p x then S (leading_count p rest) else 0
  | [] => 0
  end.

(** Where the table begins: after the last directive of the leading block,
    at line 0 when the block has none. *)
Definition data_start (lines : list string) : nat :=
  let block := leading_block lines in
  length block - leading_count (fun line => negb (is_directive line)) (rev block).

(** The lines after the directives, and those of them that are not blank. *)
Definition manifest_rest (tl : tools) (csv_file : string) : list string :=
  drop (data_start (manifest_lines tl csv_file)) (manifest_lines tl csv_file).

Definition manifest_data (tl : tools) (csv_file : string) : list string :=
  filter (fun line => truthy (strip line) = true) (manifest_rest tl csv_file).

(** The records of the table: those the reader yields from the lines that
    are not blank, when there is one. *)
Definition manifest_table (tl : tools) (csv_file : string)
    : list (list string) :=
  match manifest_data tl csv_file with
  | [] => []
  | data => csv_reader tl data
  end.

(** The header is the first record; the records are the others, without
    the empty ones. *)
Definition manifest_header (tl : tools) (csv_file : string) : list string :=
  match manifest_table tl csv_file with
  | [] => []
  | h :: _ => h
  end.

Definition manifest_records (tl : tools) (csv_file : string)
    : list (list string) :=
  filter (fun r => r <> []) (tail (manifest_table tl csv_file)).

(** The place of the last column called [name]. *)
Fixpoint last_index (name : string) (fieldnames : list string) : option nat :=
  match fieldnames with
  | [] => None
  | x :: rest =>
      match last_index name rest with
      | Some j => Some (S j)
      | None => if String.eqb x name then Some 0 else None
      end
  end.

(** A record is short for a column when the header has a column of that
    name at a place the record does not reach. *)
Definition short_for (name : string) (fieldnames record : list string) : bool :=
  existsb (String.eqb name) (drop (length record) fieldnames).

(** What [csv.DictReader] gives a record under a column name: nothing when
    no column has the name, [None] when the record is short for it, else the
    field at the place of the last column of that name. *)
Definition cell (name : string) (fieldnames record : list string)
    : option (option string) :=
  if short_for name fieldnames record then Some None
  else
    match last_index name (take (length record) fieldnames) with
    | Some j => Some (record !! j)
    | None => None
    end.

(** The value of a column in a record; empty when the column is missing. *)
Definition column (name : string) (fieldnames record : list string) : string :=
  default EmptyString (mjoin (cell name fieldnames record)).

(** The path a record names, resolved against the manifest's directory. *)
Definition resolved (tl : tools) (csv_file : string)
    (fieldnames record : list string) : string :=
  let file_path := strip (column "file" fieldnames record) in
  abspath tl (if isabs file_path then file_path
              else path_join (dirname (abspath tl csv_file)) file_path).

(** A record is valid when it names a file that exists and has an accepted
    extension. *)
Definition valid_record (tl : tools) (csv_file : string)
    (fieldnames record : list string) : bool :=
  truthy (strip (column "file" fieldnames record))
  && path_exists tl (resolved tl csv_file fieldnames record)
  && accepted_suffix (lower (path_suffix (resolved tl csv_file fieldnames record))).

Definition entry_of (tl : tools) (csv_file : string)
    (fieldnames record : list string) : manifest_entry :=
  {| me_file := resolved tl csv_file fieldnames record;
     me_title := strip (column "title" fieldnames record) |}.




(** The valid entries, in row order. *)
Definition valid_entries (tl : tools) (csv_file : string) : list manifest_entry :=
  map (entry_of tl csv_file (manifest_header tl csv_file))
      (filter (fun r => valid_record tl csv_file (manifest_header tl csv_file) r = true)
              (manifest_records tl csv_file)).




(** *** Order of the combined files *)

(** No element is directly followed by one with a smaller key. *)
Fixpoint in_orderb {A K : Type} (key : A -> K) (lt : K -> K -> bool)
    (l : list A) : bool :=
  match l with
  | a :: ((b :: _) as rest) => negb (lt (key b) (key a)) && in_orderb key lt rest
  | _ => true
  end.

(** The key [combine_m4b_files] sorts a file by, when the file has one. *)
Definition file_key (path : string) : list NaturalSort.key_item :=
  match NaturalSort.natural_sort_key (basename path) with
  | Ok k => k
  | Raise _ => []
  end.

(** The file has a key: [natural_sort_key] raises nothing on its name. *)
Definition sortable (path : string) : Prop :=
  NaturalSort.natural_sort_key (basename path) = Ok (file_key path).

Definition natural_order (files : list string) : bool :=
  in_orderb file_key NaturalSort.key_lt files.

(** *** Conversion *)

(** The output path computed for an input file is that of a file at hand. *)
Definition output_exists (sv : Converter.services) (jb : Converter.job)
    (files : gmap string string) (input_file : string) : bool :=
  match Converter.output_path_of sv jb input_file with
  | Ok out => bool_decide (is_Some (files !! Converter.path_str out))
  | Raise _ => false
  end.

(** The input files whose output is already there. *)
Definition with_existing_output (sv : Converter.services) (jb : Converter.job)
    (files : gmap string string) (inputs : list string) : list string :=
  filter (fun f => output_exists sv jb files f = true) inputs.

(** *** Arguments *)

(** The arguments [args] with another [input_pattern]. *)
Definition with_pattern (args : combine_args) (pat : option string)
    : combine_args :=
  {| input_pattern := pat;
     output_file := output_file args;
     title := title args;
     preserve_existing_chapters := preserve_existing_chapters args;
     temp_dir := temp_dir args;
     csv_file := csv_file args |}.

(** *** Natural order *)

(** A text that does not begin with a digit. *)
Definition starts_with_text (s : string) : bool :=
  match s with
  | EmptyString => true
  | String c _ => negb (is_digit c)
  end.

(** [f] does not sort after [g]: the key of [g] is not smaller. *)
Definition not_after (f g : string) : Prop :=
  NaturalSort.key_lt (file_key g) (file_key f) = false.

(** One of the superscript digits U+00B2, U+00B3 and U+00B9: digits for
    [str.isdigit], not for [int]. *)
Definition is_superscript (c : ascii) : bool :=
  let n := code c in ((n =? 178) || (n =? 179) || (n =? 185))%nat.

(** A piece of a name that has no key element: it holds digits and
    superscript digits only, with a superscript among them, or it is a
    number of more than 4300 digits. *)
Definition no_key_piece (piece : string) : bool :=
  let cs := list_ascii_of_string piece in
  (forallb (fun c => is_digit c || is_superscript c) cs
   && existsb is_superscript cs)
  || (forallb is_digit cs && (4300 <? length cs)%nat).

(** A name every piece of which has a key element. *)
Definition has_key (name : string) : bool :=
  forallb (fun piece => negb (no_key_piece piece)) (Re.split_digits name).

(** *** The CSV template *)

(** A text without a line break (LF or CR). *)
Fixpoint no_break (s : string) : bool :=
  match s with
  | EmptyString => true
  | String c s' =>
      negb ((code c =? 10)%nat || (code c =? 13)%nat) && no_break s'
  end.

(** The lines of the header block of a template. *)
Definition template_lines (folder_name output_m4b : string) : list string :=
  [ "#title," +:+ folder_name +:+ nl;
    "#author," +:+ nl;
    "#narrator," +:+ nl;
    "#genre,Audiobook" +:+ nl;
    "#year," +:+ nl;
    "#description," +:+ nl;
    "#output_path," +:+ output_m4b +:+ nl;
    "#cover_path," +:+ nl;
    nl ].

(** A directive is kept when its value is not empty. *)
Definition store (key value : string) (m : gmap string string)
    : gmap string string :=
  if truthy value then <[key := value]> m else m.

(** The directives the header block of a template stands for. *)
Definition template_directives (folder_name output_m4b : string)
    : gmap string string :=
  store "output_path" (strip output_m4b)
    (<["genre" := "Audiobook"]> (store "title" (strip folder_name) ∅)).

(** A key word: no blank and no comma. *)
Fixpoint key_word (s : string) : bool :=
  match s with
  | EmptyString => true
  | String c s' =>
      negb (is_space c) && negb (ch_eqb c ","%char) && key_word s'
  end.

(** *** The chapter probe *)

(** The services [tl] with another chapter probe. *)
Definition with_chapter_probe (tl : tools) (probe : string -> probe_outcome)
    : tools :=
  {| ffmpeg_available := ffmpeg_available tl;
     get_audio_metadata := get_audio_metadata tl;
     ffprobe_chapters := probe;
     float_of_str := float_of_str tl;
     str_of_json := str_of_json tl;
     path_exists := path_exists tl;
     abspath := abspath tl;
     glob := glob tl;
     read_lines := read_lines tl;
     csv_reader := csv_reader tl;
     mkdtemp := mkdtemp tl |}.

(** A stream entry that is a dict and is not an audio stream. *)
Definition other_stream (v : json) : Prop :=
  exists members,
    v = JObj members
    /\ Scripts.is_audio (default JNull (obj_get "codec_type" members)) = false.

(** *** The base of the directory structure *)

(** The directory [process_single_file] takes the structure relative to,
    when it takes one: the resolved [base_input_path], else what precedes
    the first [**] of the pattern, else the working directory; none for a
    pattern without [**]. *)
Definition structure_base (sv : Converter.services) (jb : Converter.job)
    : option Converter.ppath :=
  match Converter.base_path_of sv jb with
  | Some base_path => Some base_path
  | None =>
      match Converter.before_pair "*" "*" (Converter.glob_pattern jb) with
      | Some before =>
          if truthy (Converter.rstrip_slash before)
          then Some (Converter.Path (Converter.rstrip_slash before))
          else Some (Converter.cwd sv)
      | None => None
      end
  end.

(** The input path is the base itself. *)
Definition is_base (sv : Converter.services) (jb : Converter.job)
    (input_file : string) : Prop :=
  exists base,
    structure_base sv jb = Some base
    /\ Converter.anchored (Converter.Path input_file) = Converter.anchored base
    /\ Converter.parts (Converter.Path input_file) = Converter.parts base.

(** The sort key does not tell [f] and [g] apart: neither key is smaller. *)
Definition same_key (f g : string) : bool :=
  negb (NaturalSort.key_lt (file_key f) (file_key g))
  && negb (NaturalSort.key_lt (file_key g) (file_key f)).

End Props.

(* ===================================================================== *)
(** * Part II. The claims                                                *)
(* ===================================================================== *)

Import Py Re NaturalSort TitleDeriver Tools Combiner Props.
#[local] Open Scope string_scope.
#[local] Open Scope list_scope.

(** ** Strings: appending, reversal, stripping and case *)

Lemma append_cons x (a b : string) : String x a +:+ b = String x (a +:+ b).
Proof. reflexivity. Qed.

Lemma append_assoc (a b c : string) : (a +:+ b) +:+ c = a +:+ (b +:+ c).
Proof.
  induction a as [|x a IH]; [reflexivity|].
  rewrite !append_cons, IH. reflexivity.
Qed.

Lemma append_empty_r (a : string) : a +:+ EmptyString = a.
Proof.
  induction a as [|x a IH]; [reflexivity|].
  rewrite append_cons, IH. reflexivity.
Qed.

Lemma truthy_snoc s c : truthy (s +:+ String c EmptyString) = true.
Proof. destruct s; reflexivity. Qed.

Lemma rev_onto_app (s : string) : forall acc,
  rev_onto s acc = rev_str s +:+ acc.
Proof.
  unfold rev_str. induction s as [|c s IH]; intros acc; [reflexivity|].
  cbn [rev_onto]. rewrite IH, (IH (String c EmptyString)), append_assoc.
  reflexivity.
Qed.

Lemma rev_str_cons c (s : string) :
  rev_str (String c s) = rev_str s +:+ String c EmptyString.
Proof. unfold rev_str at 1. cbn [rev_onto]. apply rev_onto_app. Qed.

Lemma rev_str_snoc (s : string) c :
  rev_str (s +:+ String c EmptyString) = String c (rev_str s).
Proof.
  induction s as [|x s IH]; [reflexivity|].
  rewrite append_cons, !rev_str_cons, IH. reflexivity.
Qed.


Lemma truthy_rev_str (s : string) : truthy (rev_str s) = truthy s.
Proof.
  destruct s as [|c s]; [reflexivity|].
  rewrite rev_str_cons. destruct (rev_str s); reflexivity.
Qed.

Lemma lstrip_snoc (s : string) c :
  lstrip (s +:+ String c EmptyString)
  = if truthy (lstrip s) then lstrip s +:+ String c EmptyString
    else lstrip (String c EmptyString).
Proof.
  induction s as [|x s IH]; [reflexivity|].
  rewrite append_cons. cbn [lstrip]. destruct (is_space x); [exact IH|].
  rewrite append_cons. reflexivity.
Qed.

(** [rstrip] from the left: a character stays when something stays after
    it or when it is not a space. *)
Lemma rstrip_cons c (s : string) :
  rstrip (String c s)
  = if truthy (rstrip s) then String c (rstrip s)
    else if is_space c then EmptyString else String c EmptyString.
Proof.
  unfold rstrip. rewrite rev_str_cons, lstrip_snoc, truthy_rev_str.
  destruct (truthy (lstrip (rev_str s))).
  - apply rev_str_snoc.
  - cbn [lstrip]. destruct (is_space c); reflexivity.
Qed.

Lemma rstrip_empty : rstrip EmptyString = EmptyString.
Proof. reflexivity. Qed.

Lemma lstrip_idem (s : string) : lstrip (lstrip s) = lstrip s.
Proof.
  induction s as [|c s IH]; [reflexivity|].
  cbn [lstrip]. destruct (is_space c) eqn:E; [exact IH|].
  cbn [lstrip]. rewrite E. reflexivity.
Qed.

Lemma rstrip_idem (s : string) : rstrip (rstrip s) = rstrip s.
Proof.
  induction s as [|c s IH]; [reflexivity|].
  rewrite rstrip_cons. destruct (truthy (rstrip s)) eqn:E.
  - rewrite rstrip_cons, IH, E. reflexivity.
  - destruct (is_space c) eqn:Ec; [reflexivity|].
    rewrite rstrip_cons, rstrip_empty. cbn [truthy]. rewrite Ec. reflexivity.
Qed.

Lemma lstrip_rstrip (s : string) : lstrip (rstrip s) = rstrip (lstrip s).
Proof.
  induction s as [|c s IH]; [reflexivity|].
  cbn [lstrip]. rewrite rstrip_cons. destruct (is_space c) eqn:Ec.
  - destruct (truthy (rstrip s)) eqn:E.
    + cbn [lstrip]. rewrite Ec. exact IH.
    + rewrite <- IH. destruct (rstrip s); [reflexivity|discriminate].
  - rewrite rstrip_cons.
    destruct (truthy (rstrip s)); cbn [lstrip]; rewrite Ec; reflexivity.
Qed.

Lemma strip_idem (s : string) : strip (strip s) = strip s.
Proof.
  unfold strip. rewrite lstrip_rstrip, lstrip_idem, rstrip_idem. reflexivity.
Qed.

Lemma to_lower_idem c : to_lower (to_lower c) = to_lower c.
Proof. destruct c as [[] [] [] [] [] [] [] []]; reflexivity. Qed.

Lemma is_space_to_lower c : is_space (to_lower c) = is_space c.
Proof. destruct c as [[] [] [] [] [] [] [] []]; reflexivity. Qed.

Lemma lower_idem (s : string) : lower (lower s) = lower s.
Proof.
  induction s as [|c s IH]; [reflexivity|].
  unfold lower in *. cbn [map_str]. rewrite to_lower_idem, IH. reflexivity.
Qed.

Lemma lower_cons c (s : string) : lower (String c s) = String (to_lower c) (lower s).
Proof. reflexivity. Qed.

Lemma truthy_lower (s : string) : truthy (lower s) = truthy s.
Proof. destruct s; reflexivity. Qed.

Lemma lstrip_lower (s : string) : lstrip (lower s) = lower (lstrip s).
Proof.
  induction s as [|c s IH]; [reflexivity|].
  rewrite lower_cons. cbn [lstrip]. rewrite is_space_to_lower.
  destruct (is_space c); [exact IH|]. rewrite lower_cons. reflexivity.
Qed.

Lemma rstrip_lower (s : string) : rstrip (lower s) = lower (rstrip s).
Proof.
  induction s as [|c s IH]; [reflexivity|].
  rewrite lower_cons, !rstrip_cons, IH, truthy_lower, is_space_to_lower.
  destruct (truthy (rstrip s)); [reflexivity|].
  destruct (is_space c); reflexivity.
Qed.

Lemma strip_lower (s : string) : strip (lower s) = lower (strip s).
Proof. unfold strip. rewrite lstrip_lower, rstrip_lower. reflexivity. Qed.
(** ** Binary64 facts the claims need *)

Lemma Prim2SF_zero : Prim2SF 0%float = S754_zero false.
Proof. reflexivity. Qed.

Lemma SFcompare_finite_refl s m e :
  SFcompare (S754_finite s m e) (S754_finite s m e) = Some Eq.
Proof.
  unfold SFcompare. destruct s; rewrite Z.compare_refl.
  - rewrite Pos.compare_cont_refl. reflexivity.
  - rewrite Pos.compare_cont_refl. reflexivity.
Qed.

(** A float that compares equal to [0.0] is one of the two zeros. *)
Lemma float_zero_cases d :
  (d =? 0)%float = true -> exists s, Prim2SF d = S754_zero s.
Proof.
  rewrite FloatAxioms.eqb_spec, Prim2SF_zero.
  destruct (Prim2SF d) as [s | s | | s m e]; simpl.
  - intros _. exists s. reflexivity.
  - destruct s; discriminate.
  - discriminate.
  - destruct s; discriminate.
Qed.

(** Adding a zero never moves a value up: [x < x + d] is false. *)
Lemma add_zero_not_above x d :
  (d =? 0)%float = true -> (x <? x + d)%float = false.
Proof.
  intros Hd. destruct (float_zero_cases d Hd) as [sd Hsd].
  rewrite ltb_spec, add_spec, Hsd.
  destruct (Prim2SF x) as [s | s | | s m e]; simpl.
  - destruct s, sd; reflexivity.
  - destruct s; reflexivity.
  - reflexivity.
  - unfold SFltb. rewrite SFcompare_finite_refl. reflexivity.
Qed.

(** Adding a zero to a number gives a number that compares equal to it. *)
Lemma add_zero_equal x d :
  (d =? 0)%float = true -> (x =? x)%float = true -> (x + d =? x)%float = true.
Proof.
  intros Hd. destruct (float_zero_cases d Hd) as [sd Hsd].
  rewrite !FloatAxioms.eqb_spec, add_spec, Hsd.
  destruct (Prim2SF x) as [s | s | | s m e]; simpl.
  - destruct s, sd; reflexivity.
  - destruct s; simpl; intros H; exact H.
  - discriminate.
  - unfold SFeqb. rewrite SFcompare_finite_refl. reflexivity.
Qed.

(** ** C1: one span per track, on the prefix sums *)

Lemma fold_add_snoc (ds : list float) (d t : float) :
  fold_left PrimFloat.add (ds ++ [d]) t
  = (fold_left PrimFloat.add ds t + d)%float.
Proof. rewrite fold_left_app. reflexivity. Qed.

(** Without [preserve_existing_chapters] a turn of the loop appends the span
    of the whole file and never raises. *)
Lemma chapter_step_whole tl args ftl st i m :
  preserve_existing_chapters args = false ->
  chapter_step tl args ftl st i m
  = Ok {| chapters := chapters st
                      ++ [whole_file_chapter (span_title args ftl i m)
                            (current_time st) m];
          current_time := (current_time st + duration (probed m))%float |}.
Proof. intros Hp. unfold chapter_step. rewrite Hp. reflexivity. Qed.

Lemma chapter_loop_whole tl args ftl :
  preserve_existing_chapters args = false ->
  forall fms i st,
    chapter_loop tl args ftl i fms st
    = Ok {| chapters := chapters st
                        ++ whole_spans args ftl (current_time st) i fms;
            current_time := fold_left PrimFloat.add (durations fms)
                              (current_time st) |}.
Proof.
  intros Hp fms. induction fms as [|m fms IH]; intros i st; simpl.
  - rewrite app_nil_r. destruct st; reflexivity.
  - rewrite chapter_step_whole by exact Hp. simpl.
    rewrite IH. simpl. rewrite <- app_assoc. reflexivity.
Qed.

Lemma generate_chapters_whole tl args ftl fms :
  preserve_existing_chapters args = false ->
  generate_chapters tl args ftl fms = Ok (whole_spans args ftl 0%float 1 fms).
Proof.
  intros Hp. unfold generate_chapters.
  rewrite chapter_loop_whole by exact Hp. reflexivity.
Qed.

Lemma whole_spans_length args ftl fms : forall t i,
  length (whole_spans args ftl t i fms) = length fms.
Proof. induction fms as [|m fms IH]; intros t i; simpl; [|rewrite IH]; reflexivity. Qed.

(** The [k]-th span runs between two consecutive running sums. *)
Lemma whole_spans_lookup args ftl fms : forall t i k c,
  whole_spans args ftl t i fms !! k = Some c ->
  exists m, fms !! k = Some m
    /\ ch_title c = span_title args ftl (i + k) m
    /\ ch_start c = fold_left PrimFloat.add (take k (durations fms)) t
    /\ ch_end c = fold_left PrimFloat.add (take (S k) (durations fms)) t.
Proof.
  induction fms as [|m fms IH]; intros t i k c H; simpl in H.
  - discriminate.
  - destruct k as [|k].
    + injection H as <-. exists m. rewrite Nat.add_0_r. repeat split.
    + simpl in H. destruct (IH _ _ _ _ H) as (m' & Hm & Ht & Hs & He).
      exists m'. rewrite <- Nat.add_succ_comm. repeat split; assumption.
Qed.

Lemma prefix_sum_all (ds : list float) : prefix_sum ds (length ds) = total ds.
Proof. unfold prefix_sum, total. rewrite firstn_all. reflexivity. Qed.

(** C1. For every non-empty list of N tracks with durations d1..dN, combining
    without [preserve_existing_chapters] never raises and yields exactly N
    spans; the i-th span starts at the prefix sum d1+..+d(i-1) and ends at
    d1+..+di; the first span starts at 0; adjacent spans meet exactly; the
    last span ends at the sum of all durations; and a track of duration zero
    still has its own span, of zero length: its start is not below its end,
    and the two compare equal whenever the start is a number. *)
Theorem combine_whole_file_spans tl args ftl (fms : list file_meta) :
  preserve_existing_chapters args = false ->
  fms <> [] ->
  exists cs : list chapter,
    generate_chapters tl args ftl fms = Ok cs
    /\ length cs = length fms
    /\ (forall i c, cs !! i = Some c ->
          ch_start c = prefix_sum (durations fms) i
          /\ ch_end c = prefix_sum (durations fms) (S i))
    /\ (exists c0, head cs = Some c0 /\ ch_start c0 = 0%float)
    /\ (forall i c c', cs !! i = Some c -> cs !! S i = Some c' ->
          ch_end c = ch_start c')
    /\ (exists cN, last cs = Some cN /\ ch_end cN = total (durations fms))
    /\ (forall i m, fms !! i = Some m ->
          (duration (probed m) =? 0)%float = true ->
          exists c, cs !! i = Some c
            /\ (ch_start c <? ch_end c)%float = false
            /\ ((ch_start c =? ch_start c)%float = true ->
                (ch_end c =? ch_start c)%float = true)).
Proof.
  intros Hp Hne. exists (whole_spans args ftl 0%float 1 fms).
  pose proof (whole_spans_length args ftl fms 0%float 1) as Hlen.
  assert (Hlook : forall i c, whole_spans args ftl 0%float 1 fms !! i = Some c ->
            ch_start c = prefix_sum (durations fms) i
            /\ ch_end c = prefix_sum (durations fms) (S i)).
  { intros i c H. destruct (whole_spans_lookup _ _ _ _ _ _ _ H) as (m & _ & _ & Hs & He).
    split; assumption. }
  split; [apply generate_chapters_whole; exact Hp|].
  split; [exact Hlen|]. split; [exact Hlook|]. split; [|split; [|split]].
  - destruct fms as [|m fms]; [contradiction|]. simpl. eexists. split; reflexivity.
  - intros i c c' H H'. destruct (Hlook _ _ H) as [_ ->].
    destruct (Hlook _ _ H') as [-> _]. reflexivity.
  - destruct (last (whole_spans args ftl 0%float 1 fms)) as [cN|] eqn:Hlast.
    + exists cN. split; [reflexivity|].
      rewrite last_lookup in Hlast. destruct (Hlook _ _ Hlast) as [_ ->].
      rewrite Hlen. replace (S (Nat.pred (length fms))) with (length fms).
      * rewrite <- (length_map (fun m => duration (probed m)) fms).
        apply prefix_sum_all.
      * destruct fms; [contradiction|simpl; lia].
    + apply last_None in Hlast. apply (f_equal length) in Hlast.
      rewrite Hlen in Hlast. destruct fms; [contradiction|discriminate].
  - intros i m Hm Hz.
    destruct (lookup_lt_is_Some_2 (whole_spans args ftl 0%float 1 fms) i) as [c Hc].
    { rewrite Hlen. eapply lookup_lt_Some. exact Hm. }
    exists c. split; [exact Hc|].
    destruct (whole_spans_lookup _ _ _ _ _ _ _ Hc) as (m' & Hm' & _ & Hs & He).
    assert (m' = m) by congruence. subst m'.
    assert (Hd : durations fms !! i = Some (duration (probed m))).
    { unfold durations. rewrite list_lookup_fmap, Hm. reflexivity. }
    rewrite (take_S_r _ _ _ Hd), fold_add_snoc, <- Hs in He. rewrite He.
    split; [apply add_zero_not_above; exact Hz|apply add_zero_equal; exact Hz].
Qed.

(** The theorem at three tracks of 2.0 s, 1.5 s, 2.5 s. *)
Lemma combine_whole_file_spans_witness :
  preserve_existing_chapters (Samples.pattern_args false) = false
  /\ Samples.three_tracks <> []
  /\ exists cs : list chapter,
       generate_chapters Samples.plain_machine (Samples.pattern_args false) []
         Samples.three_tracks = Ok cs
       /\ length cs = length Samples.three_tracks
       /\ (forall i c, cs !! i = Some c ->
             ch_start c = prefix_sum (durations Samples.three_tracks) i
             /\ ch_end c = prefix_sum (durations Samples.three_tracks) (S i))
       /\ (exists c0, head cs = Some c0 /\ ch_start c0 = 0%float)
       /\ (forall i c c', cs !! i = Some c -> cs !! S i = Some c' ->
             ch_end c = ch_start c')
       /\ (exists cN, last cs = Some cN
             /\ ch_end cN = total (durations Samples.three_tracks))
       /\ (forall i m, Samples.three_tracks !! i = Some m ->
             (duration (probed m) =? 0)%float = true ->
             exists c, cs !! i = Some c
               /\ (ch_start c <? ch_end c)%float = false
               /\ ((ch_start c =? ch_start c)%float = true ->
                   (ch_end c =? ch_start c)%float = true)).
Proof.
  split; [reflexivity|]. split; [discriminate|].
  apply (combine_whole_file_spans Samples.plain_machine
           (Samples.pattern_args false) [] Samples.three_tracks);
    [reflexivity|discriminate].
Defined.

(** The scenario of the specification: starts 0, 2.0, 3.5 and ends 2.0, 3.5,
    6.0, with the titles derived from the file names. *)
Example combine_three_tracks :
  generate_chapters Samples.plain_machine (Samples.pattern_args false) []
    Samples.three_tracks
  = Ok [ {| ch_title := "Chapter 1"; ch_start := 0; ch_end := 2 |};
         {| ch_title := "Chapter 2"; ch_start := 2; ch_end := 3.5 |};
         {| ch_title := "Chapter 3"; ch_start := 3.5; ch_end := 6 |} ].
Proof. vm_compute. reflexivity. Qed.

(** A silent track keeps its span: 2.0 s, 0 s, 1.5 s give three spans. *)
Example combine_with_silent_track :
  generate_chapters Samples.plain_machine (Samples.pattern_args false) []
    Samples.tracks_with_silence
  = Ok [ {| ch_title := "Chapter 1"; ch_start := 0; ch_end := 2 |};
         {| ch_title := "Chapter 2"; ch_start := 2; ch_end := 2 |};
         {| ch_title := "Chapter 3"; ch_start := 2; ch_end := 3.5 |} ].
Proof. vm_compute. reflexivity. Qed.

(** ** C2: the span invariant *)



(** The span of a track is [[start, start + duration]]. *)
Lemma whole_spans_extent args ftl fms t i k c m :
  whole_spans args ftl t i fms !! k = Some c ->
  fms !! k = Some m ->
  ch_end c = (ch_start c + duration (probed m))%float.
Proof.
  intros Hc Hm.
  destruct (whole_spans_lookup _ _ _ _ _ _ _ Hc) as (m' & Hm' & _ & Hs & He).
  assert (m' = m) by congruence. subst m'.
  assert (Hd : durations fms !! k = Some (duration (probed m))).
  { unfold durations. rewrite list_lookup_fmap, Hm. reflexivity. }
  rewrite (take_S_r _ _ _ Hd), fold_add_snoc, <- Hs in He. exact He.
Qed.

(** With [preserve_existing_chapters], a turn of the loop on a file whose
    probe returns [found] appends the shifted chapters, or the whole-file
    span when there are none. *)
Lemma chapter_step_kept tl args ftl st i m found :
  preserve_existing_chapters args = true ->
  fst (extract_existing_chapters tl (file_path m)) = Ok found ->
  chapter_step tl args ftl st i m
  = Ok {| chapters :=
            chapters st
            ++ match found with
               | [] => [whole_file_chapter (span_title args ftl i m)
                          (current_time st) m]
               | cs => map (offset_chapter tl (span_title args ftl i m)
                              (current_time st)) cs
               end;
          current_time := (current_time st + duration (probed m))%float |}.
Proof.
  intros Hp Hx. unfold chapter_step. rewrite Hp, Hx. simpl.
  destruct found; reflexivity.
Qed.






(** ** C6: the title deriver *)

(** Greedy repetition hands the longest run to a continuation that accepts
    what follows it. *)
Lemma star_k_greedy p s k r :
  k (drop_while p s) = Some r -> star_k p s k = Some r.
Proof.
  induction s as [|c s IH]; simpl; intros H; [exact H|].
  destruct (p c); [rewrite (IH H); reflexivity|exact H].
Qed.

(** What follows the token alternatives of the first pattern. *)
Lemma run_separators_digits s :
  run true (Cat (Star is_sep) (Cat (Star is_digit) (Star is_sep))) s Some
  = Some (drop_while is_sep (drop_while is_digit (drop_while is_sep s))).
Proof.
  simpl. apply star_k_greedy. apply star_k_greedy. apply star_k_greedy.
  reflexivity.
Qed.

(** A literal matched without regard to case is a lower-case word found at
    the head of the text once that is lower-cased. *)
Lemma match_lit_after_word (word : string) : forall s,
  lower word = word -> match_lit true word s = after_word word s.
Proof.
  unfold after_word.
  induction word as [|a word IH]; intros s Hword; [reflexivity|].
  rewrite lower_cons in Hword. injection Hword as Ha Hword.
  destruct s as [|c s]; [reflexivity|].
  cbn [match_lit String.length take_str drop_str]. rewrite lower_cons.
  cbn [String.eqb]. rewrite Ha. unfold ch_eqb.
  rewrite (Ascii.eqb_sym a (to_lower c)).
  destruct (Ascii.eqb (to_lower c) a); [|reflexivity].
  cbn [andb]. apply (IH s Hword).
Qed.

(** The first [re.sub] is the token stripper of the specification. *)
Lemma sub_chapter_prefix s :
  sub_prefix true chapter_prefix_re s = strip_token s.
Proof.
  unfold sub_prefix, chapter_prefix_re, strip_token, after_token.
  cbn [run].
  rewrite <- !match_lit_after_word by reflexivity.
  destruct (match_lit true "chapter" s) as [r|] eqn:H1.
  { change (star_k is_sep r _) with
      (run true (Cat (Star is_sep) (Cat (Star is_digit) (Star is_sep))) r Some).
    rewrite run_separators_digits. reflexivity. }
  destruct (match_lit true "ch" s) as [r|] eqn:H2.
  { change (star_k is_sep r _) with
      (run true (Cat (Star is_sep) (Cat (Star is_digit) (Star is_sep))) r Some).
    rewrite run_separators_digits. reflexivity. }
  destruct (match_lit true "part" s) as [r|] eqn:H3.
  { change (star_k is_sep r _) with
      (run true (Cat (Star is_sep) (Cat (Star is_digit) (Star is_sep))) r Some).
    rewrite run_separators_digits. reflexivity. }
  destruct (match_lit true "pt" s) as [r|] eqn:H4.
  { change (star_k is_sep r _) with
      (run true (Cat (Star is_sep) (Cat (Star is_digit) (Star is_sep))) r Some).
    rewrite run_separators_digits. reflexivity. }
  reflexivity.
Qed.

(** The second [re.sub] strips a leading digit run and its separators. *)
Lemma sub_leading_number s :
  sub_prefix false leading_number_re s = strip_number s.
Proof.
  unfold sub_prefix, leading_number_re, strip_number. cbn [run].
  destruct s as [|c s]; [reflexivity|].
  destruct (is_digit c) eqn:Hc; [|reflexivity].
  rewrite (star_k_greedy is_digit s _ (drop_while is_sep (drop_while is_digit s))).
  - simpl. rewrite Hc. reflexivity.
  - apply star_k_greedy. reflexivity.
Qed.

(** The two [str.replace] calls turn every underscore and hyphen into a
    space. *)
Lemma replace_separators s :
  replace_char "-" " " (replace_char "_" " " s) = separators_to_spaces s.
Proof.
  unfold replace_char, separators_to_spaces.
  induction s as [|c s IH]; simpl; [reflexivity|]. rewrite IH. f_equal.
  destruct (ch_eqb c "_") eqn:H1; simpl; [reflexivity|].
  destruct (ch_eqb c "-"); reflexivity.
Qed.

(** *** Splitting on white space and joining with one space *)

(** What [join] puts after a first word. *)
Lemma join_cons (w : string) l :
  join " " (w :: l)
  = w +:+ match l with
          | [] => EmptyString
          | _ :: _ => " " +:+ join " " l
          end.
Proof. destruct l; cbn [join]; [rewrite append_empty_r|]; reflexivity. Qed.

Lemma split_from_word (s : string) : forall w,
  truthy w = true -> exists x l, split_from w s = x :: l.
Proof.
  induction s as [|c s IH]; intros w Hw; cbn [split_from].
  - rewrite Hw. eexists _, _. reflexivity.
  - destruct (is_space c).
    + rewrite Hw. eexists _, _. reflexivity.
    + apply IH, truthy_snoc.
Qed.

Lemma join_split_from (s : string) :
  (forall w, truthy w = true ->
     join " " (split_from w s) = w +:+ collapse_from true false s)
  /\ (forall gap, join " " (split_from EmptyString s) = collapse_from false gap s)
  /\ match split_from EmptyString s with
     | [] => EmptyString
     | _ :: _ => " " +:+ join " " (split_from EmptyString s)
     end = collapse_from true true s.
Proof.
  induction s as [|c s (IHw & IH0 & IHt)]; cbn [split_from collapse_from].
  - split; [|split; reflexivity].
    intros w Hw. rewrite Hw. cbn [join]. rewrite append_empty_r. reflexivity.
  - destruct (is_space c) eqn:Hc.
    + split; [|split].
      * intros w Hw. rewrite Hw, join_cons, IHt. reflexivity.
      * intros gap. cbn [truthy]. apply IH0.
      * cbn [truthy]. exact IHt.
    + assert (Hone : truthy (String c EmptyString) = true) by reflexivity.
      split; [|split].
      * intros w Hw. rewrite (IHw _ (truthy_snoc w c)).
        cbn [andb]. rewrite append_assoc. reflexivity.
      * intros gap. change (EmptyString +:+ String c EmptyString)
          with (String c EmptyString).
        rewrite (IHw _ Hone). reflexivity.
      * change (EmptyString +:+ String c EmptyString) with (String c EmptyString).
        destruct (split_from_word s (String c EmptyString) Hone) as (x & l & E).
        rewrite E, <- E, (IHw _ Hone). reflexivity.
Qed.

(** Splitting on white space and joining the words with one space
    collapses the white space. *)
Lemma join_split_collapses s : join " " (split_ws s) = collapse_whitespace s.
Proof. apply (proj1 (proj2 (join_split_from s)) false). Qed.

(** *** Title case *)





(** *** Stripping *)







Lemma title_from_truthy b s : truthy s = true -> truthy (title_from b s) = true.
Proof.
  destruct s as [|c s]; [discriminate|]. intros _. cbn [title_from].
  destruct b; [reflexivity|]. unfold to_title.
  destruct (is_lower c); [reflexivity|].
  destruct (code c =? 223)%nat; reflexivity.
Qed.

(** A derived title is never empty. *)
Lemma derive_chapter_title_not_empty file_path index existing_title :
  truthy (derive_chapter_title file_path index existing_title) = true.
Proof.
  unfold derive_chapter_title.
  destruct (truthy (strip existing_title)) eqn:H; [exact H|].
  match goal with |- context [if truthy ?c then _ else _] =>
    destruct (truthy c) eqn:Hc end.
  - apply title_from_truthy. exact Hc.
  - reflexivity.
Qed.

(** The file stem as [derive_chapter_title] cleans it. *)
Lemma derive_chapter_title_cleaned file_path :
  join " " (split_ws
    (replace_char "-" " "
       (replace_char "_" " "
          (sub_prefix false leading_number_re
             (sub_prefix true chapter_prefix_re (path_stem file_path))))))
  = cleaned_stem (path_stem file_path).
Proof.
  unfold cleaned_stem.
  rewrite sub_chapter_prefix, sub_leading_number, replace_separators.
  apply join_split_collapses.
Qed.




(** Titles that title-casing changes: a lower-case name, letters with
    accents, a letter after an apostrophe, capitals inside a word, and a
    sharp s at the head of a word. *)
Example derive_chapter_title_cases :
  derive_chapter_title "01 - the_awakening.m4b" 1 "" = "The Awakening"
  /\ derive_chapter_title Samples.cafe_elan 2 ""
     = "Caf" +:+ Samples.e_acute +:+ " " +:+ Samples.E_acute +:+ "lan"
  /\ derive_chapter_title "PT2-o'neil's STORY.m4b" 3 "" = "O'Neil'S Story"
  /\ derive_chapter_title (Samples.sharp_s +:+ "eta.m4b") 4 "" = "Sseta"
  /\ derive_chapter_title "  .m4b" 5 "  " = "Chapter 5".
Proof. repeat split; vm_compute; reflexivity. Qed.

(** The top-level script's deriver tests the existing title without
    stripping it and numbers the derived title. *)
Example derive_chapter_title_script_cases :
  derive_chapter_title_script "Chapter_03_The_Awakening" 3 ""
  = "Chapter 3: The Awakening"
  /\ derive_chapter_title_script "09" 9 "" = "Chapter 9"
  /\ derive_chapter_title_script "x" 1 " Existing " = " Existing "
  /\ derive_chapter_title_script "x" 1 " " = " ".
Proof. repeat split; vm_compute; reflexivity. Qed.

(** ** C7: the side-channel document *)











(** The sample document, line by line: the empty author and the absent
    narrator and year have no line, and 1.9996 s is written as 1999 ms. *)
Example sample_document :
  document Samples.sample_chapters Samples.sample_book
  = unlines [ ";FFMETADATA1"; "title=My Book"; "artist=A. Writer";
              "album=My Book"; "genre=Audiobook"; "comment=A test"; "";
              "[CHAPTER]"; "TIMEBASE=1/1000"; "START=0"; "END=1999";
              "title=Intro"; "";
              "[CHAPTER]"; "TIMEBASE=1/1000"; "START=1999"; "END=3500";
              "title=The End"; "" ].
Proof. vm_compute. reflexivity. Qed.

(** Truncation against rounding and against rounding down, as [int] has
    it: 3.5 ms and 3.9 ms give 3, and -1.5 ms gives -1. *)
Example truncation_cases :
  py_int (0.0035 * 1000)%float = Ok 3%Z
  /\ py_int (0.0039 * 1000)%float = Ok 3%Z
  /\ py_int (-0.0015 * 1000)%float = Ok (-1)%Z
  /\ truncated_ms 0.0035 = 3%Z
  /\ truncated_ms 0.0039 = 3%Z
  /\ truncated_ms (-0.0015) = (-1)%Z.
Proof. repeat split; vm_compute; reflexivity. Qed.

(** ** C8: decoding embedded chapters *)

(** A readable entry decodes, and its title is the tag title or, without
    one, "Chapter n+1" for the [n] chapters decoded before it. *)
Lemma chapter_of_json_readable tl n item :
  readable tl item ->
  exists c, chapter_of_json tl n item = Ok c
    /\ ec_title c = default (JStr ("Chapter " +:+ str_nat (n + 1))) (tag_title item).
Proof.
  intros (members & st & en & -> & Hs & He & Ht).
  unfold chapter_of_json, tag_title. rewrite Hs, He. simpl.
  destruct Ht as [-> | [tags ->]]; simpl; eexists; split; reflexivity.
Qed.

(** Only a readable entry decodes. *)
Lemma chapter_of_json_decoded tl n item c :
  chapter_of_json tl n item = Ok c -> readable tl item.
Proof.
  unfold chapter_of_json, readable.
  destruct item as [ | | | | |members]; try discriminate.
  destruct (py_float tl (default (JNum 0) (obj_get "start_time" members)))
    as [st|e] eqn:Hs; [|discriminate].
  destruct (py_float tl (default (JNum 0) (obj_get "end_time" members)))
    as [en|e] eqn:He; [|discriminate].
  cbn [bind]. intros H. exists members, st, en.
  split; [reflexivity|]. split; [exact Hs|]. split; [exact He|].
  destruct (obj_get "tags" members) as [[ | | | | |tags]|];
    try discriminate H; [right; eexists; reflexivity|left; reflexivity].
Qed.

Lemma chapters_of_json_readable tl items : forall acc,
  Forall (readable tl) items ->
  exists chs,
    chapters_of_json tl items acc = Ok (acc ++ chs)
    /\ length chs = length items
    /\ forall i item, items !! i = Some item ->
         exists c, chs !! i = Some c
           /\ ec_title c
              = default (JStr ("Chapter " +:+ str_nat (length acc + i + 1)))
                        (tag_title item).
Proof.
  induction items as [|item items IH]; intros acc H; simpl.
  - exists []. rewrite app_nil_r. repeat split. intros i item Hi. discriminate.
  - apply Forall_cons in H as [Hr H].
    destruct (chapter_of_json_readable tl (length acc) item Hr) as (c & Hc & Htitle).
    rewrite Hc. simpl.
    destruct (IH (acc ++ [c]) H) as (chs & Hchs & Hlen & Htitles).
    exists (c :: chs). rewrite Hchs, <- app_assoc. simpl.
    split; [reflexivity|]. split; [rewrite Hlen; reflexivity|].
    intros [|i] item' Hi; simpl in Hi.
    + injection Hi as <-. exists c. split; [reflexivity|].
      rewrite Nat.add_0_r. exact Htitle.
    + destruct (Htitles i item' Hi) as (c' & Hc' & Ht').
      exists c'. split; [exact Hc'|]. rewrite Ht', length_app. simpl.
      replace (length acc + 1 + i + 1) with (length acc + S i + 1) by lia.
      reflexivity.
Qed.

(** An entry that is not readable stops the decoding with its exception. *)
Lemma chapters_of_json_unreadable tl items : forall acc,
  ~ Forall (readable tl) items ->
  exists e, chapters_of_json tl items acc = Raise e.
Proof.
  induction items as [|item items IH]; intros acc H.
  - exfalso. apply H. constructor.
  - cbn [chapters_of_json].
    destruct (chapter_of_json tl (length acc) item) as [c|e] eqn:Hc.
    + cbn [bind]. apply IH. intros Hitems. apply H.
      constructor; [exact (chapter_of_json_decoded _ _ _ _ Hc)|exact Hitems].
    + exists e. reflexivity.
Qed.

(** C8, as the program has it. [extract_existing_chapters] returns the
    empty list, with a warning, when the probe exits with a non-zero status
    and when its output is not JSON, and the empty list when the container
    has no chapters (no [chapters] member, or an empty one). It raises when
    the probe cannot be run (the exception of [subprocess.run]) and when
    the output is JSON of another shape: a value that is not an object, a
    [chapters] member that cannot be iterated, an entry that is not
    readable (not an object, a time that is not a number, tags that are not
    an object). When the probe lists chapters it can read, it returns one
    chapter per entry, in order, and the title of the entry at 0-based
    index i is its tag title or, when it has none, "Chapter {i+1}". *)
Theorem extract_existing_chapters_recovers tl path :
  (forall rc, ffprobe_chapters tl path = ProbeExit rc ->
     extract_existing_chapters tl path
     = (Ok [], [(WARNING, "Could not extract chapters from " +:+ path)]))
  /\ (forall out, ffprobe_chapters tl path = ProbeNotJson out ->
        extract_existing_chapters tl path
        = (Ok [], [(WARNING, "Could not extract chapters from " +:+ path)]))
  /\ (forall e, ffprobe_chapters tl path = ProbeRaises e ->
        fst (extract_existing_chapters tl path) = Raise e)
  /\ (forall data, ffprobe_chapters tl path = ProbeJson data ->
        (forall members, data <> JObj members) ->
        exists msg,
          fst (extract_existing_chapters tl path) = Raise (AttributeError msg))
  /\ (forall members,
        ffprobe_chapters tl path = ProbeJson (JObj members) ->
        obj_get "chapters" members = None
        \/ obj_get "chapters" members = Some (JArr []) ->
        fst (extract_existing_chapters tl path) = Ok [])
  /\ (forall members v,
        ffprobe_chapters tl path = ProbeJson (JObj members) ->
        obj_get "chapters" members = Some v ->
        (v = JNull \/ (exists b, v = JBool b) \/ (exists x, v = JNum x)) ->
        exists msg,
          fst (extract_existing_chapters tl path) = Raise (TypeError msg))
  /\ (forall members items,
        ffprobe_chapters tl path = ProbeJson (JObj members) ->
        obj_get "chapters" members = Some (JArr items) ->
        ~ Forall (readable tl) items ->
        exists e, fst (extract_existing_chapters tl path) = Raise e)
  /\ (forall members items,
        ffprobe_chapters tl path = ProbeJson (JObj members) ->
        obj_get "chapters" members = Some (JArr items) ->
        Forall (readable tl) items ->
        exists chs,
          fst (extract_existing_chapters tl path) = Ok chs
          /\ length chs = length items
          /\ forall i item, items !! i = Some item ->
               exists c, chs !! i = Some c
                 /\ ec_title c
                    = default (JStr ("Chapter " +:+ str_nat (i + 1)))
                              (tag_title item)).
Proof.
  unfold extract_existing_chapters.
  split; [|split; [|split; [|split; [|split; [|split; [|split]]]]]].
  - intros rc ->. reflexivity.
  - intros out ->. reflexivity.
  - intros e ->. reflexivity.
  - intros data -> Hdata.
    destruct data as [ | | | | |members];
      try (eexists; reflexivity). exfalso. exact (Hdata members eq_refl).
  - intros members -> [-> | ->]; reflexivity.
  - intros members v -> -> [-> | [[b ->] | [x ->]]]; eexists; reflexivity.
  - intros members items -> -> H. cbn [default py_iter bind fst].
    apply chapters_of_json_unreadable. exact H.
  - intros members items -> -> H. simpl.
    destruct (chapters_of_json_readable tl items [] H) as (chs & Hchs & Hlen & Ht).
    exists chs. split; [exact Hchs|]. split; [exact Hlen|]. exact Ht.
Qed.

(** The theorem at a probe that exits with status 1, at one that prints
    text that is not JSON, at a file without chapters, and at a file with
    two chapters of which the second has no title. *)
Lemma extract_existing_chapters_recovers_witness :
  fst (extract_existing_chapters Samples.failing_machine "/work/broken.m4b") = Ok []
  /\ fst (extract_existing_chapters Samples.failing_machine "/work/garbled.m4b")
     = Ok []
  /\ fst (extract_existing_chapters Samples.failing_machine "/work/plain.m4b")
     = Ok []
  /\ exists chs,
       fst (extract_existing_chapters Samples.chaptered_machine "/work/part1.m4b")
       = Ok chs
       /\ length chs = length Samples.two_embedded_items
       /\ forall i item, Samples.two_embedded_items !! i = Some item ->
            exists c, chs !! i = Some c
              /\ ec_title c
                 = default (JStr ("Chapter " +:+ str_nat (i + 1)))
                           (tag_title item).
Proof.
  split; [|split; [|split]].
  - rewrite (proj1 (extract_existing_chapters_recovers
                      Samples.failing_machine "/work/broken.m4b") 1%Z eq_refl).
    reflexivity.
  - rewrite (proj1 (proj2 (extract_existing_chapters_recovers
                             Samples.failing_machine "/work/garbled.m4b"))
               "<html>" eq_refl).
    reflexivity.
  - apply (proj1 (proj2 (proj2 (proj2 (proj2 (extract_existing_chapters_recovers
                                   Samples.failing_machine "/work/plain.m4b"))))) []).
    + reflexivity.
    + left. reflexivity.
  - apply (proj2 (proj2 (proj2 (proj2 (proj2 (proj2 (proj2
             (extract_existing_chapters_recovers
                Samples.chaptered_machine "/work/part1.m4b")))))))
             [("chapters", JArr Samples.two_embedded_items)]
             Samples.two_embedded_items).
    + reflexivity.
    + reflexivity.
    + repeat constructor.
      * exists [("start_time", JNum 1); ("end_time", JNum 2);
                ("tags", JObj [("title", JStr "Intro")])], 1%float, 2%float.
        repeat split. right. eexists. reflexivity.
      * exists [("start_time", JNum 5); ("end_time", JNum 6)], 5%float, 6%float.
        repeat split. left. reflexivity.
Defined.

(** C8 fails as stated: a probe that cannot be started and output that is
    JSON of another shape (a list, a [chapters] member that is a number, a
    start time that is not a number) make the decoder raise; nothing is
    returned. *)
Lemma probe_failures_that_raise :
  fst (extract_existing_chapters Samples.misshapen_machine "/work/absent.m4b")
  = Raise (FileNotFoundError "No such file or directory: 'ffprobe'")
  /\ fst (extract_existing_chapters Samples.misshapen_machine "/work/list.m4b")
     = Raise (AttributeError "object has no attribute 'get'")
  /\ fst (extract_existing_chapters Samples.misshapen_machine "/work/count.m4b")
     = Raise (TypeError "object is not iterable")
  /\ fst (extract_existing_chapters Samples.misshapen_machine "/work/na.m4b")
     = Raise (ValueError "could not convert string to float").
Proof. repeat split; vm_compute; reflexivity. Qed.

(** The chapters decoded from the sample file: the second one is untitled
    and gets its number. *)
Example extract_two_embedded :
  extract_existing_chapters Samples.chaptered_machine "/work/part1.m4b"
  = (Ok (Samples.chaptered_embedded "/work/part1.m4b"), []).
Proof. vm_compute. reflexivity. Qed.

(** ** C5: exit codes *)

Lemma main_convert lib args :
  Cli.command args = Some "convert" -> (1 <= Cli.jobs args)%Z ->
  Cli.main lib args
  = match Cli.convert_all_to_m4b lib with
    | Cli.Returns (successful, total) =>
        if ((successful =? total) || negb (successful =? 0))%nat then 0%Z else 1%Z
    | Cli.Interrupted => 130%Z
    | Cli.Throws _ => 1%Z
    end.
Proof.
  intros Hc Hj. unfold Cli.main, Cli.cmd_convert. rewrite Hc. simpl.
  destruct (Cli.jobs args <? 1)%Z eqn:H; [apply Z.ltb_lt in H; lia|].
  destruct (Cli.convert_all_to_m4b lib) as [[s t]| |]; try reflexivity.
  destruct (s =? t)%nat; [reflexivity|]. destruct (s =? 0)%nat; reflexivity.
Qed.

Lemma main_combine lib args :
  Cli.command args = Some "combine" ->
  Cli.opt_truthy (Cli.csv args) = true
  \/ (Cli.opt_truthy (Cli.pattern args) = true
      /\ Cli.opt_truthy (Cli.output args) = true) ->
  Cli.main lib args
  = match Cli.combine_m4b_files lib with
    | Cli.Returns success => if success then 0%Z else 1%Z
    | Cli.Interrupted => 130%Z
    | Cli.Throws _ => 1%Z
    end.
Proof.
  intros Hc Hv. unfold Cli.main, Cli.cmd_combine. rewrite Hc. simpl.
  destruct Hv as [-> | [-> ->]]; simpl.
  - destruct (Cli.combine_m4b_files lib) as [[]| |]; reflexivity.
  - rewrite !andb_false_r.
    destruct (Cli.combine_m4b_files lib) as [[]| |]; reflexivity.
Qed.

Lemma main_generate_csv lib args :
  Cli.command args = Some "generate-csv" ->
  Cli.main lib args
  = match Cli.generate_csv_from_folder lib with
    | Cli.Returns success => if success then 0%Z else 1%Z
    | Cli.Interrupted => 130%Z
    | Cli.Throws _ => 1%Z
    end.
Proof.
  intros Hc. unfold Cli.main, Cli.cmd_generate_csv. rewrite Hc. simpl.
  destruct (Cli.generate_csv_from_folder lib) as [[]| |]; reflexivity.
Qed.

(** The exit code is 130 only when a library call was interrupted. *)
Lemma main_130_interrupted lib args :
  Cli.main lib args = 130%Z ->
  Cli.convert_all_to_m4b lib = Cli.Interrupted
  \/ Cli.combine_m4b_files lib = Cli.Interrupted
  \/ Cli.generate_csv_from_folder lib = Cli.Interrupted.
Proof.
  unfold Cli.main, Cli.cmd_convert, Cli.cmd_combine, Cli.cmd_generate_csv.
  destruct (Cli.command args) as [cmd|]; [|discriminate].
  destruct (negb (truthy cmd)); [discriminate|].
  destruct (String.eqb cmd "convert").
  { destruct (Cli.jobs args <? 1)%Z; [discriminate|].
    destruct (Cli.convert_all_to_m4b lib) as [[s t]| |]; try discriminate.
    - destruct (s =? t)%nat; [discriminate|]. destruct (s =? 0)%nat; discriminate.
    - intros _. left. reflexivity. }
  destruct (String.eqb cmd "combine").
  { destruct (_ && _); [discriminate|]. destruct (_ && _); [discriminate|].
    destruct (Cli.combine_m4b_files lib) as [[]| |]; try discriminate.
    intros _. right. left. reflexivity. }
  destruct (String.eqb cmd "generate-csv"); [|discriminate].
  destruct (Cli.generate_csv_from_folder lib) as [[]| |]; try discriminate.
  intros _. right. right. reflexivity.
Qed.

(** C5, as the program has it. [combine] and [generate-csv] exit with 0
    exactly when the operation succeeded and with 1 when it failed;
    [convert] exits with 0 when every file was converted and also when only
    some were, and with 1 only when none of a non-empty batch was (or when
    the job count is below 1); [combine] called without a manifest and
    without a pattern or an output exits with 1. Under each of the three
    commands an escaping exception gives 1 and a user interrupt gives the
    distinguished code 130, which nothing else gives; no other code is
    returned. *)
Theorem cli_exit_codes lib args :
  (Cli.command args = Some "convert" -> (1 <= Cli.jobs args)%Z ->
   Cli.main lib args
   = match Cli.convert_all_to_m4b lib with
     | Cli.Returns (successful, total) =>
         if ((successful =? total) || negb (successful =? 0))%nat
         then 0%Z else 1%Z
     | Cli.Interrupted => 130%Z
     | Cli.Throws _ => 1%Z
     end)
  /\ (Cli.command args = Some "convert" -> (1 <= Cli.jobs args)%Z ->
      forall successful total,
        Cli.convert_all_to_m4b lib = Cli.Returns (successful, total) ->
        (Cli.main lib args = 0%Z <-> successful = total \/ 0 < successful)
        /\ (Cli.main lib args = 1%Z <-> successful <> total /\ successful = 0))
  /\ (Cli.command args = Some "convert" -> (Cli.jobs args < 1)%Z ->
      Cli.main lib args = 1%Z)
  /\ (Cli.command args = Some "combine" ->
      Cli.opt_truthy (Cli.csv args) = true
      \/ (Cli.opt_truthy (Cli.pattern args) = true
          /\ Cli.opt_truthy (Cli.output args) = true) ->
      Cli.main lib args
      = match Cli.combine_m4b_files lib with
        | Cli.Returns success => if success then 0%Z else 1%Z
        | Cli.Interrupted => 130%Z
        | Cli.Throws _ => 1%Z
        end)
  /\ (Cli.command args = Some "combine" ->
      Cli.opt_truthy (Cli.csv args) = false ->
      Cli.opt_truthy (Cli.pattern args) = false
      \/ Cli.opt_truthy (Cli.output args) = false ->
      Cli.main lib args = 1%Z)
  /\ (Cli.command args = Some "combine" ->
      forall success, Cli.combine_m4b_files lib = Cli.Returns success ->
      (Cli.main lib args = 0%Z -> success = true)
      /\ (success = false -> Cli.main lib args = 1%Z))
  /\ (Cli.command args = Some "generate-csv" ->
      Cli.main lib args
      = match Cli.generate_csv_from_folder lib with
        | Cli.Returns success => if success then 0%Z else 1%Z
        | Cli.Interrupted => 130%Z
        | Cli.Throws _ => 1%Z
        end)
  /\ (Cli.command args = None -> Cli.main lib args = 1%Z)
  /\ (Cli.main lib args = 130%Z ->
      Cli.convert_all_to_m4b lib = Cli.Interrupted
      \/ Cli.combine_m4b_files lib = Cli.Interrupted
      \/ Cli.generate_csv_from_folder lib = Cli.Interrupted)
  /\ (Cli.main lib args = 0%Z \/ Cli.main lib args = 1%Z
      \/ Cli.main lib args = 130%Z).
Proof.
  split; [|split; [|split; [|split; [|split; [|split; [|split; [|split; [|split]]]]]]]].
  - apply main_convert.
  - intros Hc Hj s t Hr. rewrite (main_convert lib args Hc Hj), Hr.
    destruct (s =? t)%nat eqn:Hst; simpl.
    + apply Nat.eqb_eq in Hst. split; split; try discriminate; intuition lia.
    + apply Nat.eqb_neq in Hst. destruct (s =? 0)%nat eqn:H0; simpl.
      * apply Nat.eqb_eq in H0. split; split; try discriminate; intuition lia.
      * apply Nat.eqb_neq in H0. split; split; try discriminate; intuition lia.
  - intros Hc Hj. unfold Cli.main, Cli.cmd_convert. rewrite Hc. simpl.
    destruct (Cli.jobs args <? 1)%Z eqn:H; [reflexivity|].
    apply Z.ltb_ge in H. lia.
  - apply main_combine.
  - intros Hc Hcsv Hv. unfold Cli.main, Cli.cmd_combine. rewrite Hc, Hcsv. simpl.
    destruct Hv as [-> | ->]; simpl; [reflexivity|].
    destruct (negb (Cli.opt_truthy (Cli.pattern args))); reflexivity.
  - intros Hc success Hr.
    assert (Hmain : Cli.main lib args = 1%Z
                    \/ Cli.main lib args = if success then 0%Z else 1%Z).
    { unfold Cli.main, Cli.cmd_combine. rewrite Hc, Hr. simpl.
      destruct (_ && _); [left; reflexivity|].
      destruct (_ && _); [left; reflexivity|]. right. reflexivity. }
    split.
    + destruct success; [reflexivity|]. destruct Hmain as [-> | ->]; discriminate.
    + intros ->. destruct Hmain as [-> | ->]; reflexivity.
  - apply main_generate_csv.
  - intros Hc. unfold Cli.main. rewrite Hc. reflexivity.
  - apply main_130_interrupted.
  - unfold Cli.main, Cli.cmd_convert, Cli.cmd_combine, Cli.cmd_generate_csv.
    destruct (Cli.command args) as [cmd|]; [|right; left; reflexivity].
    destruct (negb (truthy cmd)); [right; left; reflexivity|].
    destruct (String.eqb cmd "convert").
    { destruct (Cli.jobs args <? 1)%Z; [right; left; reflexivity|].
      destruct (Cli.convert_all_to_m4b lib) as [[s t]| |]; auto.
      destruct (s =? t)%nat; auto. destruct (s =? 0)%nat; auto. }
    destruct (String.eqb cmd "combine").
    { destruct (_ && _); auto. destruct (_ && _); auto.
      destruct (Cli.combine_m4b_files lib) as [[]| |]; auto. }
    destruct (String.eqb cmd "generate-csv"); auto.
    destruct (Cli.generate_csv_from_folder lib) as [[]| |]; auto.
Qed.

(** The theorem at [convert] with one job and 3 files of 5 converted. *)
Lemma cli_exit_codes_witness :
  Cli.command Samples.convert_cli = Some "convert"
  /\ (1 <= Cli.jobs Samples.convert_cli)%Z
  /\ Cli.convert_all_to_m4b Samples.partial_library = Cli.Returns (3, 5)
  /\ (Cli.main Samples.partial_library Samples.convert_cli = 0%Z
      <-> 3 = 5 \/ 0 < 3)
  /\ (Cli.main Samples.partial_library Samples.convert_cli = 1%Z
      <-> 3 <> 5 /\ 3 = 0).
Proof.
  split; [reflexivity|]. split; [simpl; lia|]. split; [reflexivity|].
  apply (proj1 (proj2 (cli_exit_codes Samples.partial_library Samples.convert_cli))
           eq_refl ltac:(simpl; lia) 3 5 eq_refl).
Defined.

(** C5 fails as stated: a batch in which 2 files of 5 failed exits with 0,
    as tests/test_cli.py expects ("Partial success still returns 0"). *)
Lemma partial_failure_exits_zero :
  Cli.convert_all_to_m4b Samples.partial_library = Cli.Returns (3, 5)
  /\ 3 <> 5
  /\ Cli.main Samples.partial_library Samples.convert_cli = 0%Z.
Proof. repeat split. lia. Qed.

(** An interrupt and an escaping exception under each of the three
    commands. *)
Example interrupts_and_exceptions :
  let interrupted :=
    {| Cli.convert_all_to_m4b := Cli.Interrupted;
       Cli.combine_m4b_files := Cli.Interrupted;
       Cli.generate_csv_from_folder := Cli.Interrupted |} in
  let failing :=
    {| Cli.convert_all_to_m4b := Cli.Throws "disk full";
       Cli.combine_m4b_files := Cli.Throws "disk full";
       Cli.generate_csv_from_folder := Cli.Throws "disk full" |} in
  let run lib cmd :=
    Cli.main lib {| Cli.command := Some cmd; Cli.jobs := 1;
                    Cli.pattern := Some "*.m4b"; Cli.output := Some "out.m4b";
                    Cli.csv := None |} in
  map (run interrupted) ["convert"; "combine"; "generate-csv"]
  = [130%Z; 130%Z; 130%Z]
  /\ map (run failing) ["convert"; "combine"; "generate-csv"]
     = [1%Z; 1%Z; 1%Z].
Proof. split; reflexivity. Qed.

(** ** C9: the outcomes of the manifest parser *)

(** *** The directive block *)

(** Splitting at the first separator is cutting at its position. *)
Lemma split_once_index c (s : string) :
  split_once c s = (take_str (index_of c s) s, drop_str (S (index_of c s)) s).
Proof.
  induction s as [|a s IH]; [reflexivity|].
  cbn [split_once index_of]. destruct (ch_eqb a c); [reflexivity|].
  rewrite IH. reflexivity.
Qed.

Lemma leading_count_le {A} (p : A -> bool) l : leading_count p l <= length l.
Proof.
  induction l as [|x l IH]; [reflexivity|]. cbn [leading_count length].
  destruct (p x); lia.
Qed.

Lemma leading_count_all {A} (p : A -> bool) l :
  forallb p l = true -> leading_count p l = length l.
Proof.
  induction l as [|x l IH]; [reflexivity|]. cbn [forallb leading_count length].
  intros H. apply andb_true_iff in H as [-> H]. rewrite (IH H). reflexivity.
Qed.

Lemma leading_count_app {A} (p : A -> bool) (a b : list A) :
  leading_count p (a ++ b)
  = if forallb p a then length a + leading_count p b else leading_count p a.
Proof.
  induction a as [|x a IH]; [reflexivity|].
  cbn [app leading_count forallb length]. destruct (p x); [|reflexivity].
  cbn [andb]. rewrite IH. destruct (forallb p a); reflexivity.
Qed.

Lemma forallb_negb_existsb {A} (p : A -> bool) l :
  forallb (fun x => negb (p x)) l = negb (existsb p l).
Proof.
  induction l as [|x l IH]; [reflexivity|]. cbn [forallb existsb].
  rewrite IH. destruct (p x); reflexivity.
Qed.

Lemma existsb_rev {A} (p : A -> bool) l : existsb p (rev l) = existsb p l.
Proof.
  induction l as [|x l IH]; [reflexivity|]. cbn [rev existsb].
  rewrite existsb_app, IH. cbn [existsb]. rewrite orb_false_r. apply orb_comm.
Qed.

(** Where the table begins, one line at a time. *)
Lemma data_start_step (raw : string) (block : list string) i d :
  (if existsb is_directive block
   then S i + (length block
               - leading_count (fun line => negb (is_directive line)) (rev block))
   else if is_directive raw then S i else d)
  = if existsb is_directive (raw :: block)
    then i + (length (raw :: block)
              - leading_count (fun line => negb (is_directive line))
                  (rev (raw :: block)))
    else d.
Proof.
  cbn [existsb rev length]. rewrite leading_count_app, forallb_negb_existsb, existsb_rev.
  pose proof (leading_count_le (fun line => negb (is_directive line)) (rev block)) as Hle.
  rewrite length_rev in Hle |- *.
  destruct (existsb is_directive block) eqn:Hb; cbn [negb].
  - rewrite orb_true_r.
    assert (Hlt : leading_count (fun line => negb (is_directive line)) (rev block)
                  < length block).
    { destruct (Nat.eq_dec
                  (leading_count (fun line => negb (is_directive line)) (rev block))
                  (length block)) as [E|E]; [|lia].
      exfalso.
      assert (Hall : forallb (fun line => negb (is_directive line)) (rev block) = false)
        by (rewrite forallb_negb_existsb, existsb_rev, Hb; reflexivity).
      clear Hle Hb. revert E Hall. rewrite <- (length_rev block).
      generalize (rev block). intros l. induction l as [|x l IH]; [discriminate|].
      cbn [leading_count forallb length]. destruct (negb (is_directive x)); [|discriminate].
      cbn [andb]. intros E. apply IH. lia. }
    lia.
  - rewrite orb_false_r. cbn [leading_count].
    destruct (is_directive raw); cbn [negb]; [lia|reflexivity].
Qed.

(** The loop over the leading lines reads the directives of the leading
    block and leaves the table's first line after the last of them. *)
Lemma directives_loop_block lines : forall i m d,
  directives_loop i lines m d
  = (foldl read_directive m (leading_block lines),
     if existsb is_directive (leading_block lines)
     then i + (length (leading_block lines)
               - leading_count (fun line => negb (is_directive line))
                   (rev (leading_block lines)))
     else d).
Proof.
  induction lines as [|raw rest IH]; intros i m d; [reflexivity|].
  cbn [directives_loop].
  destruct (startswith_char "#" (strip raw)) eqn:Hc.
  - assert (Hblock : leading_block (raw :: rest) = raw :: leading_block rest)
      by (cbn [leading_block]; unfold is_comment; rewrite Hc; reflexivity).
    rewrite Hblock. cbn [foldl].
    assert (Hdir : is_directive raw
                   = match separator raw with Some _ => true | None => false end)
      by (unfold is_directive, is_comment; rewrite Hc; reflexivity).
    rewrite <- data_start_step.
    unfold read_directive, directive_key, directive_value. rewrite Hdir.
    unfold separator.
    destruct (contains_char "," (strip raw)) eqn:Hcomma.
    + rewrite split_once_index, IH. reflexivity.
    + destruct (contains_char ":" (strip raw)) eqn:Hcolon.
      * rewrite split_once_index, IH. reflexivity.
      * rewrite IH. reflexivity.
  - assert (Hdir : is_directive raw = false)
      by (unfold is_directive, is_comment; rewrite Hc; reflexivity).
    destruct (truthy (strip raw)) eqn:Ht.
    + assert (Hblock : leading_block (raw :: rest) = [])
        by (cbn [leading_block]; unfold is_comment, is_blank;
            rewrite Hc, Ht; reflexivity).
      rewrite Hblock. reflexivity.
    + assert (Hblock : leading_block (raw :: rest) = raw :: leading_block rest)
        by (cbn [leading_block]; unfold is_comment, is_blank;
            rewrite Hc, Ht; reflexivity).
      rewrite Hblock. cbn [foldl]. rewrite <- data_start_step.
      unfold read_directive at 2. rewrite Hdir. cbn [andb].
      rewrite IH. reflexivity.
Qed.

Lemma directives_loop_start lines :
  directives_loop 0 lines ∅ 0
  = (foldl read_directive ∅ (leading_block lines), data_start lines).
Proof.
  rewrite directives_loop_block. f_equal. unfold data_start.
  destruct (existsb is_directive (leading_block lines)) eqn:Hb; [reflexivity|].
  rewrite leading_count_all, length_rev; [lia|].
  rewrite forallb_negb_existsb, existsb_rev, Hb. reflexivity.
Qed.

(** The directives and the first line of the table are those of the loop. *)
Lemma manifest_directives_loop tl csv_file :
  manifest_directives tl csv_file
  = fst (directives_loop 0 (manifest_lines tl csv_file) ∅ 0).
Proof. rewrite directives_loop_start. reflexivity. Qed.

Lemma manifest_rest_loop tl csv_file :
  manifest_rest tl csv_file
  = drop (snd (directives_loop 0 (manifest_lines tl csv_file) ∅ 0))
         (manifest_lines tl csv_file).
Proof. rewrite directives_loop_start. reflexivity. Qed.

(** [parse_csv_input] on a manifest that exists, in the vocabulary of the
    claims. *)
Lemma parse_csv_input_unfold tl csv_file :
  path_exists tl (abspath tl csv_file) = true ->
  parse_csv_input tl csv_file
  = match manifest_rest tl csv_file with
    | [] => (Raise (ValueError "No data rows found in CSV file"), [])
    | _ :: _ =>
        match manifest_data tl csv_file with
        | [] => (Raise (ValueError "No non-empty data rows found in CSV file"), [])
        | _ :: _ =>
            match rows_loop tl (abspath tl csv_file) (manifest_header tl csv_file)
                    (manifest_records tl csv_file) [] [] with
            | (Raise e, lg) => (Raise e, lg)
            | (Ok [], lg) =>
                (Raise (ValueError "No valid M4B files found in CSV"), lg)
            | (Ok file_list, lg) =>
                (Ok (file_list, manifest_directives tl csv_file), lg)
            end
        end
    end.
Proof.
  intros Hex. unfold parse_csv_input. rewrite Hex. cbn [negb].
  rewrite directives_loop_start.
  unfold manifest_header, manifest_records, manifest_table, manifest_data,
    manifest_rest, manifest_directives, manifest_lines.
  destruct (drop (data_start (read_lines tl (abspath tl csv_file)))
              (read_lines tl (abspath tl csv_file))) as [|x rest] eqn:Hrest;
    [reflexivity|].
  destruct (filter (fun line => truthy (strip line) = true) (x :: rest))
    as [|y data] eqn:Hdata; reflexivity.
Qed.

(** *** The dict of a record *)












(** *** The loop over the records *)











(** The sample manifest: two rows are kept, two are skipped with a warning
    each, and the row after the skipped ones is still read. *)
Example parse_mixed_manifest :
  parse_csv_input Samples.mixed_machine "mixed.csv"
  = (Ok ([ {| me_file := "/work/a.m4b"; me_title := "First" |};
           {| me_file := "/work/b.m4b"; me_title := "Last" |} ],
         {["title" := "Mixed"]}),
     [(WARNING, "File not found: /work/gone.m4b");
      (WARNING, "Skipping non-M4B file: /work/notes.txt")]).
Proof. vm_compute. reflexivity. Qed.

(** The two fatal conditions, each with its message. *)
Example parse_fatal_conditions :
  parse_csv_input Samples.filtered_machine "e.csv"
  = (Raise (ValueError "No data rows found in CSV file"), [])
  /\ parse_csv_input Samples.filtered_machine "f.csv"
     = (Raise (ValueError "No valid M4B files found in CSV"),
        [(WARNING, "File not found: /work/gone.m4b")]).
Proof. split; vm_compute; reflexivity. Qed.

(** The parser example of the specification. *)
Example parse_book_manifest :
  parse_csv_input Samples.book_machine "book.csv"
  = (Ok ([ {| me_file := "/work/a.m4b"; me_title := "Intro" |} ],
         {["title" := "My Book"]}), []).
Proof. vm_compute. reflexivity. Qed.

(** A record shorter than the header stops the parser with an
    [AttributeError], valid file or not. *)
Example parse_short_record :
  fst (parse_csv_input Samples.short_machine "s.csv") = Raise none_strip.
Proof. vm_compute. reflexivity. Qed.

(** A quoted field that runs over two lines makes one record of them: the
    records are those of the reader, not the lines. *)
Example parse_quoted_manifest :
  parse_csv_input Samples.quoted_machine "q.csv"
  = (Ok ([ {| me_file := "/work/a.m4b";
              me_title := "Part" +:+ nl +:+ "one" |} ], ∅), []).
Proof. vm_compute. reflexivity. Qed.

(** ** C3: the order of the combined files *)

Section SortFacts.
Context {A K : Type} (key : A -> K) (lt : K -> K -> bool).
Hypothesis lt_asym : forall a b, lt a b = true -> lt b a = false.

Lemma insert_stable_perm x (l : list A) : insert_stable key lt x l ≡ₚ x :: l.
Proof.
  induction l as [|y l IH]; simpl; [reflexivity|].
  destruct (lt (key y) (key x)); [|reflexivity].
  rewrite IH. apply Permutation_swap.
Qed.

Lemma sort_by_perm (l : list A) : sort_by key lt l ≡ₚ l.
Proof.
  induction l as [|x l IH]; simpl; [reflexivity|].
  rewrite insert_stable_perm, IH. reflexivity.
Qed.

Lemma insert_stable_head x (l : list A) :
  exists rest, insert_stable key lt x l = x :: rest
    \/ (exists y l', l = y :: l' /\ lt (key y) (key x) = true
                     /\ insert_stable key lt x l = y :: rest).
Proof.
  destruct l as [|y l]; simpl.
  - exists []. left. reflexivity.
  - destruct (lt (key y) (key x)) eqn:H.
    + exists (insert_stable key lt x l). right. exists y, l.
      split; [reflexivity|]. split; [exact H|reflexivity].
    + exists (y :: l). left. reflexivity.
Qed.

Lemma insert_stable_in_order x (l : list A) :
  in_orderb key lt l = true -> in_orderb key lt (insert_stable key lt x l) = true.
Proof using lt_asym.
  induction l as [|y l IH]; intros Hl; [reflexivity|].
  cbn [insert_stable]. destruct (lt (key y) (key x)) eqn:Hyx.
  - assert (Htail : in_orderb key lt l = true).
    { destruct l; [reflexivity|]. simpl in Hl. apply andb_true_iff in Hl. tauto. }
    specialize (IH Htail).
    destruct (insert_stable_head x l) as [rest [Hx | (z & l' & -> & Hzx & Hz)]].
    + rewrite Hx in IH |- *. cbn [in_orderb] in IH |- *.
      rewrite (lt_asym _ _ Hyx). exact IH.
    + rewrite Hz in IH |- *. cbn [in_orderb] in Hl, IH |- *.
      apply andb_true_iff in Hl as [Hzy _]. rewrite Hzy. exact IH.
  - cbn [in_orderb] in Hl |- *. rewrite Hyx. exact Hl.
Qed.

Lemma sort_by_in_order (l : list A) : in_orderb key lt (sort_by key lt l) = true.
Proof using lt_asym.
  induction l as [|x l IH]; [reflexivity|].
  apply insert_stable_in_order. exact IH.
Qed.

(** A list that is already in order is left as it is. *)
Lemma sort_by_in_order_id (l : list A) :
  in_orderb key lt l = true -> sort_by key lt l = l.
Proof.
  induction l as [|x l IH]; intros Hl; [reflexivity|].
  cbn [sort_by foldr]. fold (sort_by key lt l).
  assert (Htail : in_orderb key lt l = true).
  { destruct l; [reflexivity|]. simpl in Hl. apply andb_true_iff in Hl. tauto. }
  rewrite (IH Htail). destruct l as [|y l]; [reflexivity|].
  simpl in Hl |- *. apply andb_true_iff in Hl as [Hyx _].
  apply negb_true_iff in Hyx. rewrite Hyx. reflexivity.
Qed.

End SortFacts.

Lemma str_lt_asym a : forall b, str_lt a b = true -> str_lt b a = false.
Proof.
  induction a as [|x a IH]; intros [|y b]; simpl; try reflexivity; try discriminate.
  destruct (code x <? code y)%nat eqn:Hxy, (code y <? code x)%nat eqn:Hyx;
    try reflexivity; try discriminate.
  - apply Nat.ltb_lt in Hxy, Hyx. lia.
  - apply IH.
Qed.

Lemma item_eqb_sym x y : item_eqb x y = item_eqb y x.
Proof.
  destruct x, y; simpl; try reflexivity.
  - apply N.eqb_sym.
  - apply String.eqb_sym.
Qed.

Lemma item_lt_asym x y : item_lt x y = true -> item_lt y x = false.
Proof.
  destruct x, y; simpl; try reflexivity; try discriminate.
  - intros H. apply N.ltb_lt in H. apply N.ltb_ge. lia.
  - apply str_lt_asym.
Qed.

Lemma key_lt_asym a : forall b, key_lt a b = true -> key_lt b a = false.
Proof.
  induction a as [|x a IH]; intros [|y b]; simpl; try reflexivity; try discriminate.
  rewrite (item_eqb_sym y x). destruct (item_eqb x y); [apply IH|apply item_lt_asym].
Qed.

(** *** The sort of Python, through the keys *)

Section PySortFacts.
Context {A K : Type} (key : A -> result K) (lt : K -> K -> bool).

(** When no key raises, the decorated list pairs every element, in order,
    with its key. *)
Lemma with_keys_ok (l : list A) : forall kxs,
  with_keys key l = Ok kxs ->
  map snd kxs = l /\ Forall (fun kx => key (snd kx) = Ok (fst kx)) kxs.
Proof.
  induction l as [|x l IH]; intros kxs; cbn [with_keys].
  - intros [= <-]. split; [reflexivity|constructor].
  - destruct (key x) as [k|e] eqn:Hk; [|discriminate]. cbn [bind].
    destruct (with_keys key l) as [kxs'|e]; [|discriminate]. cbn [bind].
    intros [= <-]. destruct (IH kxs' eq_refl) as [Hl Hall].
    split; [cbn; rewrite Hl; reflexivity|].
    constructor; [exact Hk|exact Hall].
Qed.

(** The exception of the sort is that of the first key that raises. *)
Lemma with_keys_raise (l : list A) e :
  with_keys key l = Raise e ->
  exists before x after,
    l = before ++ x :: after
    /\ key x = Raise e
    /\ Forall (fun y => exists k, key y = Ok k) before.
Proof.
  induction l as [|x l IH]; cbn [with_keys]; [discriminate|].
  destruct (key x) as [k|e'] eqn:Hk.
  - cbn [bind]. destruct (with_keys key l) as [kxs'|e'] eqn:Hl; [discriminate|].
    cbn [bind]. intros [= ->].
    destruct (IH eq_refl) as (before & y & after & -> & Hy & Hbefore).
    exists (x :: before), y, after. split; [reflexivity|]. split; [exact Hy|].
    constructor; [exists k; exact Hk|exact Hbefore].
  - cbn [bind]. intros [= ->]. exists [], x, l.
    split; [reflexivity|]. split; [exact Hk|constructor].
Qed.

Lemma with_keys_defined (l : list A) (value : A -> K) :
  Forall (fun x => key x = Ok (value x)) l ->
  with_keys key l = Ok (map (fun x => (value x, x)) l).
Proof.
  induction 1 as [|x l Hx _ IH]; [reflexivity|].
  cbn [with_keys map]. rewrite Hx, IH. reflexivity.
Qed.

End PySortFacts.

(** Sorting the decorated list and dropping the keys is sorting by the
    key. *)
Lemma insert_stable_decorated {A K} (value : A -> K) (lt : K -> K -> bool) x l :
  insert_stable fst lt (value x, x) (map (fun y => (value y, y)) l)
  = map (fun y => (value y, y)) (insert_stable value lt x l).
Proof.
  induction l as [|y l IH]; [reflexivity|].
  cbn [map insert_stable fst]. destruct (lt (value y) (value x)); [|reflexivity].
  rewrite IH. reflexivity.
Qed.

Lemma sort_by_decorated {A K} (value : A -> K) (lt : K -> K -> bool) (l : list A) :
  map snd (sort_by fst lt (map (fun y => (value y, y)) l)) = sort_by value lt l.
Proof.
  assert (H : sort_by fst lt (map (fun y => (value y, y)) l)
              = map (fun y => (value y, y)) (sort_by value lt l)).
  { induction l as [|x l IH]; [reflexivity|].
    cbn [map sort_by foldr]. fold (sort_by fst lt (map (fun y => (value y, y)) l)).
    fold (sort_by value lt l). rewrite IH. apply insert_stable_decorated. }
  rewrite H, map_map. cbn [snd]. apply map_id.
Qed.

(** A file whose key is defined has the key [file_key] gives it. *)
Lemma sortable_key f k : natural_sort_key (basename f) = Ok k -> sortable f.
Proof. unfold sortable, file_key. intros ->. reflexivity. Qed.

(** When the sort returns, every file has a key and the result is the
    stable sort by these keys. *)
Lemma natural_sort_ok files sorted :
  natural_sort files = Ok sorted ->
  Forall sortable files /\ sorted = sort_by file_key key_lt files.
Proof.
  unfold natural_sort, py_sort.
  destruct (with_keys _ files) as [kxs|e] eqn:Hkeys; [|discriminate].
  cbn [bind]. intros [= <-].
  destruct (with_keys_ok _ _ _ Hkeys) as [Hfiles Hall].
  assert (Hsortable : Forall sortable files).
  { rewrite <- Hfiles. apply Forall_fmap. eapply Forall_impl; [exact Hall|].
    intros [k f] Hk. exact (sortable_key f k Hk). }
  split; [exact Hsortable|].
  rewrite (with_keys_defined _ files file_key Hsortable) in Hkeys.
  injection Hkeys as <-. apply sort_by_decorated.
Qed.

(** The sort returns when every file has a key. *)
Lemma natural_sort_sortable files :
  Forall sortable files ->
  natural_sort files = Ok (sort_by file_key key_lt files).
Proof.
  intros H. unfold natural_sort, py_sort.
  rewrite (with_keys_defined _ files file_key H). cbn [bind].
  rewrite sort_by_decorated. reflexivity.
Qed.

(** The sort raises the exception of the first file without a key. *)
Lemma natural_sort_raise files e :
  natural_sort files = Raise e ->
  exists before f after,
    files = before ++ f :: after
    /\ natural_sort_key (basename f) = Raise e
    /\ Forall sortable before.
Proof.
  unfold natural_sort, py_sort.
  destruct (with_keys _ files) as [kxs|e'] eqn:Hkeys; [discriminate|].
  cbn [bind]. intros [= ->].
  destruct (with_keys_raise _ _ _ Hkeys) as (before & f & after & -> & Hf & Hb).
  exists before, f, after. split; [reflexivity|]. split; [exact Hf|].
  eapply Forall_impl; [exact Hb|]. intros g [k Hk]. exact (sortable_key g k Hk).
Qed.

(** What [combine_m4b_files] has read when it reaches the transcoder. *)
Lemma combine_plan_inv tl args p lg :
  combine_plan tl args = (Ok (Some p), lg) ->
  exists inp lg1 first rest total lg2 chs,
    select_files tl args = (Ok (Some inp), lg1)
    /\ probe_loop tl (m4b_files inp) [] 0%float = (Some (first :: rest, total), lg2)
    /\ generate_chapters tl args (file_title_list inp) (first :: rest) = Ok chs
    /\ plan_files p = m4b_files inp
    /\ plan_chapters p = chs
    /\ plan_output_file p = abspath tl (default EmptyString (out_file inp))
    /\ plan_output_metadata p
       = determine_output_metadata (book_title inp) (csv_metadata inp) first.
Proof.
  unfold combine_plan.
  destruct (select_files tl args) as [[[inp|]|e] lg1]; try discriminate.
  destruct (probe_loop tl (m4b_files inp) [] 0%float) as [[[fms total]|] lg2]
    eqn:Hprobe; try discriminate.
  destruct fms as [|first rest]; try discriminate.
  destruct (generate_chapters tl args (file_title_list inp) (first :: rest))
    as [chs|e] eqn:Hchs; [|discriminate].
  cbn [bind].
  destruct (create_chapter_metadata chs _ _) as [mdfile|e]; [|discriminate].
  cbn [bind]. intros [= <- <-].
  exists inp, lg1, first, rest, total, lg2, chs.
  repeat split; first [assumption | reflexivity].
Qed.

Lemma select_files_inv tl args inp lg :
  select_files tl args = (Ok (Some inp), lg) ->
  exists inp0,
    load_inputs tl args = (Ok (Some inp0), lg)
    /\ natural_sort (m4b_files inp0) = Ok (m4b_files inp)
    /\ file_title_list inp = file_title_list inp0
    /\ csv_metadata inp = csv_metadata inp0
    /\ out_file inp = out_file inp0
    /\ book_title inp = book_title inp0
    /\ opt_truthy (out_file inp0) = true.
Proof.
  unfold select_files. destruct (negb (ffmpeg_available tl)); [discriminate|].
  destruct (load_inputs tl args) as [[[inp0|]|e] lg0]; try discriminate.
  destruct (m4b_files inp0) eqn:Hfiles; [discriminate|].
  destruct (opt_truthy (out_file inp0)) eqn:Hout; cbn [negb]; [|discriminate].
  rewrite <- Hfiles.
  destruct (natural_sort (m4b_files inp0)) as [sorted|e] eqn:Hsort; [|discriminate].
  intros [= <- <-]. exists inp0.
  repeat split; first [assumption | reflexivity].
Qed.

Lemma load_inputs_csv_inv tl args inp lg :
  opt_truthy (csv_file args) = true ->
  load_inputs tl args = (Ok (Some inp), lg) ->
  exists entries directives,
    parse_csv_input tl (default EmptyString (csv_file args))
    = (Ok (entries, directives), lg)
    /\ m4b_files inp = map me_file entries
    /\ file_title_list inp = entries
    /\ csv_metadata inp = directives
    /\ out_file inp = match directives !! "output_path" with
                      | Some p => Some p
                      | None => output_file args
                      end
    /\ book_title inp = match directives !! "title" with
                        | Some t => if negb (opt_truthy (title args))
                                    then Some t else title args
                        | None => title args
                        end.
Proof.
  intros Hcsv. unfold load_inputs. rewrite Hcsv.
  destruct (parse_csv_input tl (default EmptyString (csv_file args)))
    as [[[entries directives]|e] lg0].
  - intros [= <- <-]. exists entries, directives. repeat split.
  - destruct e; discriminate.
Qed.

(** The probe loop pairs every file, in order, with its probed metadata. *)
Lemma probe_loop_files tl files : forall acc t fms total lg,
  probe_loop tl files acc t = (Some (fms, total), lg) ->
  exists new,
    fms = acc ++ new
    /\ Forall2 (fun f m => file_path m = f
                           /\ get_audio_metadata tl f = Some (probed m))
               files new.
Proof.
  induction files as [|f files IH]; intros acc t fms total lg; cbn [probe_loop].
  - intros [= <- _ _]. exists []. rewrite app_nil_r. split; [reflexivity|constructor].
  - destruct (get_audio_metadata tl f) as [metadata|] eqn:Hf; [|discriminate].
    intros H. destruct (IH _ _ _ _ _ H) as (new & -> & Hnew).
    eexists (_ :: new). rewrite <- app_assoc. split; [reflexivity|].
    constructor; [split; [reflexivity|exact Hf]|exact Hnew].
Qed.

(** The files the probe loop returns are the files it was given. *)
Lemma probed_files_paths tl files fms total lg :
  probe_loop tl files [] 0%float = (Some (fms, total), lg) ->
  map file_path fms = files.
Proof.
  intros H. destruct (probe_loop_files _ _ _ _ _ _ _ H) as (new & -> & Hpairs).
  simpl. clear H. induction Hpairs as [|f m files new [Hf _] _ IH]; [reflexivity|].
  simpl. rewrite Hf, IH. reflexivity.
Qed.

(** C3, as the program has it. When the input comes from a CSV manifest,
    the files are combined in the natural-sort order of their base names:
    the list handed to the transcoder is the stable sort of the manifest's
    valid rows by [natural_sort_key(basename)]. It holds the same files as
    the manifest, no file is directly followed by one with a smaller key,
    and it is the manifest's row order exactly when the rows are already in
    natural order. The chapters follow the files: without
    [preserve_existing_chapters] the k-th chapter is the span of the k-th
    file of that list. *)
Theorem combine_files_in_natural_order tl args p lg :
  opt_truthy (csv_file args) = true ->
  combine_plan tl args = (Ok (Some p), lg) ->
  exists entries directives lg',
    parse_csv_input tl (default EmptyString (csv_file args))
    = (Ok (entries, directives), lg')
    /\ natural_sort (map me_file entries) = Ok (plan_files p)
    /\ plan_files p ≡ₚ map me_file entries
    /\ natural_order (plan_files p) = true
    /\ (plan_files p = map me_file entries
        <-> natural_order (map me_file entries) = true)
    /\ (preserve_existing_chapters args = false ->
        exists fms, map file_path fms = plan_files p
          /\ plan_chapters p = whole_spans args entries 0%float 1 fms).
Proof.
  intros Hcsv Hplan.
  destruct (combine_plan_inv _ _ _ _ Hplan)
    as (inp & lg1 & first & rest & total & lg2 & chs
        & Hsel & Hprobe & Hgen & Hfiles & Hchs & _).
  destruct (select_files_inv _ _ _ _ Hsel) as (inp0 & Hload & Hsort & Hftl & _).
  destruct (load_inputs_csv_inv _ _ _ _ Hcsv Hload)
    as (entries & directives & Hparse & Hrows & Hentries & _).
  exists entries, directives, lg1.
  split; [exact Hparse|].
  split; [rewrite Hfiles, <- Hrows; exact Hsort|].
  destruct (natural_sort_ok _ _ Hsort) as [_ Hsorted].
  split; [rewrite Hfiles, Hsorted, Hrows; apply sort_by_perm|].
  split; [rewrite Hfiles, Hsorted; apply sort_by_in_order, key_lt_asym|].
  split; [rewrite Hfiles, Hsorted, Hrows; split|].
  - intros H. rewrite <- H. apply sort_by_in_order, key_lt_asym.
  - apply sort_by_in_order_id.
  - intros Hp. exists (first :: rest). split.
    + rewrite Hfiles. apply (probed_files_paths _ _ _ _ _ Hprobe).
    + rewrite Hchs. rewrite Hftl, Hentries in Hgen.
      rewrite (generate_chapters_whole _ _ _ _ Hp) in Hgen.
      injection Hgen as <-. reflexivity.
Qed.

(** The theorem at a manifest that lists [b.m4b] before [a.m4b]. *)
Lemma combine_files_in_natural_order_witness :
  opt_truthy (csv_file (Samples.csv_args (Some "rev.csv") None None)) = true
  /\ exists p lg,
       combine_plan Samples.reversed_machine
         (Samples.csv_args (Some "rev.csv") None None) = (Ok (Some p), lg)
       /\ exists entries directives lg',
            parse_csv_input Samples.reversed_machine "rev.csv"
            = (Ok (entries, directives), lg')
            /\ natural_sort (map me_file entries) = Ok (plan_files p)
            /\ plan_files p ≡ₚ map me_file entries
            /\ natural_order (plan_files p) = true
            /\ (plan_files p = map me_file entries
                <-> natural_order (map me_file entries) = true)
            /\ (preserve_existing_chapters
                  (Samples.csv_args (Some "rev.csv") None None) = false ->
                exists fms, map file_path fms = plan_files p
                  /\ plan_chapters p
                     = whole_spans (Samples.csv_args (Some "rev.csv") None None)
                         entries 0%float 1 fms).
Proof.
  split; [reflexivity|].
  destruct (combine_plan Samples.reversed_machine
              (Samples.csv_args (Some "rev.csv") None None))
    as [[[p|]|e] lg] eqn:Hplan; try (vm_compute in Hplan; discriminate Hplan).
  exists p, lg. split; [reflexivity|].
  apply (combine_files_in_natural_order Samples.reversed_machine
           (Samples.csv_args (Some "rev.csv") None None) p lg eq_refl Hplan).
Defined.

(** C3 fails as stated: a manifest whose rows are [b.m4b], [a.m4b] is
    combined as [a.m4b], [b.m4b], and the chapters follow that order. *)
Lemma manifest_order_not_kept :
  exists p lg,
    combine_plan Samples.reversed_machine
      (Samples.csv_args (Some "rev.csv") None None) = (Ok (Some p), lg)
    /\ map me_file (valid_entries Samples.reversed_machine "rev.csv")
       = ["/work/b.m4b"; "/work/a.m4b"]
    /\ plan_files p = ["/work/a.m4b"; "/work/b.m4b"]
    /\ map ch_title (plan_chapters p) = ["First half last"; "Second half first"]
    /\ plan_files p
       <> map me_file (valid_entries Samples.reversed_machine "rev.csv").
Proof.
  destruct (combine_plan Samples.reversed_machine
              (Samples.csv_args (Some "rev.csv") None None))
    as [[[p|]|e] lg] eqn:Hplan; try (vm_compute in Hplan; discriminate Hplan).
  exists p, lg. split; [reflexivity|].
  vm_compute in Hplan. injection Hplan as <- <-.
  repeat split; try (vm_compute; reflexivity). vm_compute. discriminate.
Qed.

(** ** C4: where the book metadata comes from *)

(** A directive is stored only with a non-empty value. *)
Lemma directives_loop_truthy lines : forall i metadata data_start_idx,
  (forall k v, metadata !! k = Some v -> truthy v = true) ->
  forall k v,
    fst (directives_loop i lines metadata data_start_idx) !! k = Some v ->
    truthy v = true.
Proof.
  induction lines as [|raw lines IH]; intros i metadata idx Hm; cbn [directives_loop].
  - exact Hm.
  - destruct (startswith_char "#" (strip raw)).
    + destruct (contains_char "," (strip raw)).
      * destruct (split_once "," (tail_str (strip raw))) as [key value].
        apply IH. destruct (truthy (lower (strip key)) && truthy (strip value))
          eqn:Hkv; [|exact Hm].
        apply andb_true_iff in Hkv as [_ Hv]. intros k v.
        destruct (decide (lower (strip key) = k)) as [->|Hne].
        -- rewrite lookup_insert_eq. intros [= <-]. exact Hv.
        -- rewrite lookup_insert_ne by exact Hne. apply Hm.
      * destruct (contains_char ":" (strip raw)).
        -- destruct (split_once ":" (tail_str (strip raw))) as [key value].
           apply IH. destruct (truthy (lower (strip key)) && truthy (strip value))
             eqn:Hkv; [|exact Hm].
           apply andb_true_iff in Hkv as [_ Hv]. intros k v.
           destruct (decide (lower (strip key) = k)) as [->|Hne].
           ++ rewrite lookup_insert_eq. intros [= <-]. exact Hv.
           ++ rewrite lookup_insert_ne by exact Hne. apply Hm.
        -- apply IH. exact Hm.
    + destruct (truthy (strip raw)); [exact Hm|apply IH; exact Hm].
Qed.

Lemma parse_csv_input_directives tl csv_file entries directives lg :
  parse_csv_input tl csv_file = (Ok (entries, directives), lg) ->
  directives = manifest_directives tl csv_file.
Proof.
  destruct (path_exists tl (abspath tl csv_file)) eqn:Hex.
  - rewrite (parse_csv_input_unfold _ _ Hex).
    destruct (manifest_rest tl csv_file); [discriminate|].
    destruct (manifest_data tl csv_file); [discriminate|].
    destruct (rows_loop _ _ _ _ _ _) as [[[|]|] ?]; try discriminate.
    intros [= _ <- _]. reflexivity.
  - unfold parse_csv_input. rewrite Hex. discriminate.
Qed.

Lemma parsed_directives_truthy tl csv_file entries directives lg k v :
  parse_csv_input tl csv_file = (Ok (entries, directives), lg) ->
  directives !! k = Some v -> truthy v = true.
Proof.
  intros Hparse. rewrite (parse_csv_input_directives _ _ _ _ _ Hparse).
  rewrite manifest_directives_loop. apply directives_loop_truthy.
  intros k' v'. rewrite lookup_empty. discriminate.
Qed.

(** The entries of [output_metadata]. *)
Lemma determine_output_metadata_lookup ttl (directives : gmap string string) first :
  let md := determine_output_metadata ttl directives first in
  let book :=
    opt_or ttl (opt_or (directives !! "title")
                  (or_else (album (probed first)) "Combined Audiobook")) in
  md !! "title" = Some book
  /\ md !! "album" = Some book
  /\ md !! "artist"
     = Some (opt_or (directives !! "author") (artist (probed first)))
  /\ md !! "author" = Some (default EmptyString (directives !! "author"))
  /\ md !! "narrator" = Some (default EmptyString (directives !! "narrator"))
  /\ md !! "genre" = Some (default "Audiobook" (directives !! "genre"))
  /\ md !! "year" = Some (default EmptyString (directives !! "year"))
  /\ md !! "description" = Some (default EmptyString (directives !! "description")).
Proof. unfold determine_output_metadata. repeat split; reflexivity. Qed.

Lemma opt_or_truthy a b : opt_truthy a = true -> opt_or a b = default EmptyString a.
Proof. destruct a as [s|]; simpl; [|discriminate]. intros ->. reflexivity. Qed.

Lemma opt_or_falsy a b : opt_truthy a = false -> opt_or a b = b.
Proof. destruct a as [s|]; simpl; [|reflexivity]. intros ->. reflexivity. Qed.

(** The title of the book, from the variables the input block leaves. *)
Lemma book_title_precedence caller (directives : gmap string string) fallback :
  (forall v, directives !! "title" = Some v -> truthy v = true) ->
  opt_or (match directives !! "title" with
          | Some t => if negb (opt_truthy caller) then Some t else caller
          | None => caller
          end)
         (opt_or (directives !! "title") fallback)
  = if opt_truthy caller then default EmptyString caller
    else match directives !! "title" with
         | Some t => t
         | None => fallback
         end.
Proof.
  intros Hd. destruct (opt_truthy caller) eqn:Hc.
  - destruct (directives !! "title"); cbn [negb]; apply opt_or_truthy; exact Hc.
  - destruct (directives !! "title") as [t|] eqn:Ht; cbn [negb].
    + simpl. rewrite (Hd t eq_refl). reflexivity.
    + rewrite (opt_or_falsy _ _ Hc). reflexivity.
Qed.

Lemma load_inputs_pattern_inv tl args inp lg :
  opt_truthy (csv_file args) = false ->
  load_inputs tl args = (Ok (Some inp), lg) ->
  csv_metadata inp = ∅
  /\ out_file inp = output_file args
  /\ book_title inp = title args.
Proof.
  intros Hcsv. unfold load_inputs. rewrite Hcsv.
  destruct (negb (opt_truthy (input_pattern args))); [discriminate|].
  intros [= <- _]. repeat split.
Qed.

(** C4, as the program has it. Let [directives] be the manifest's
    directives (none without a manifest) and [first] the probed metadata of
    the first combined file. The title (and the album) of the book is the
    caller's title if given, else the manifest's title directive, else the
    first file's album tag, else "Combined Audiobook". The output path is
    the manifest's output_path directive if there is one, and the caller's
    argument otherwise: here the manifest comes before the caller, and there
    is no tag and no default behind them. The artist is the manifest's
    author, else the first file's artist tag; the genre is the manifest's,
    else "Audiobook"; author, narrator, year and description come from the
    manifest alone. *)
Theorem combine_metadata_precedence tl args p lg :
  combine_plan tl args = (Ok (Some p), lg) ->
  exists (directives : gmap string string) (first : audio_meta),
    (if opt_truthy (csv_file args)
     then exists entries lg',
            parse_csv_input tl (default EmptyString (csv_file args))
            = (Ok (entries, directives), lg')
     else directives = ∅)
    /\ (exists f0, head (plan_files p) = Some f0
                   /\ get_audio_metadata tl f0 = Some first)
    /\ plan_output_metadata p !! "title"
       = Some (if opt_truthy (title args) then default EmptyString (title args)
               else match directives !! "title" with
                    | Some t => t
                    | None => if truthy (album first) then album first
                              else "Combined Audiobook"
                    end)
    /\ plan_output_metadata p !! "album" = plan_output_metadata p !! "title"
    /\ plan_output_file p
       = abspath tl (match directives !! "output_path" with
                     | Some o => o
                     | None => default EmptyString (output_file args)
                     end)
    /\ plan_output_metadata p !! "artist"
       = Some (match directives !! "author" with
               | Some a => a
               | None => artist first
               end)
    /\ plan_output_metadata p !! "genre"
       = Some (default "Audiobook" (directives !! "genre"))
    /\ plan_output_metadata p !! "author"
       = Some (default EmptyString (directives !! "author"))
    /\ plan_output_metadata p !! "narrator"
       = Some (default EmptyString (directives !! "narrator"))
    /\ plan_output_metadata p !! "year"
       = Some (default EmptyString (directives !! "year"))
    /\ plan_output_metadata p !! "description"
       = Some (default EmptyString (directives !! "description")).
Proof.
  intros Hplan.
  destruct (combine_plan_inv _ _ _ _ Hplan)
    as (inp & lg1 & first & rest & total & lg2 & chs
        & Hsel & Hprobe & _ & Hfiles & _ & Hout & Hmd).
  destruct (select_files_inv _ _ _ _ Hsel)
    as (inp0 & Hload & _ & _ & Hcsvmd & Hof & Hbt & _).
  destruct (probe_loop_files _ _ _ _ _ _ _ Hprobe) as (new & Hnew & Hpairs).
  simpl in Hnew. subst new.
  assert (Hfirst : exists f0, head (plan_files p) = Some f0
                     /\ get_audio_metadata tl f0 = Some (probed first)).
  { rewrite Hfiles. inversion Hpairs as [|f0 ? ? ? [_ Hf0] _ Heq]; subst.
    exists f0. split; [reflexivity|exact Hf0]. }
  destruct (determine_output_metadata_lookup (book_title inp) (csv_metadata inp) first)
    as (Htitle & Halbum & Hartist & Hauthor & Hnarrator & Hgenre & Hyear & Hdesc).
  assert (Hrest : forall directives,
            csv_metadata inp = directives ->
            (forall k v, directives !! k = Some v -> truthy v = true) ->
            out_file inp = match directives !! "output_path" with
                           | Some o => Some o
                           | None => output_file args
                           end ->
            book_title inp = match directives !! "title" with
                             | Some t => if negb (opt_truthy (title args))
                                         then Some t else title args
                             | None => title args
                             end ->
            plan_output_metadata p !! "title"
            = Some (if opt_truthy (title args) then default EmptyString (title args)
                    else match directives !! "title" with
                         | Some t => t
                         | None => if truthy (album (probed first))
                                   then album (probed first)
                                   else "Combined Audiobook"
                         end)
            /\ plan_output_metadata p !! "album" = plan_output_metadata p !! "title"
            /\ plan_output_file p
               = abspath tl (match directives !! "output_path" with
                             | Some o => o
                             | None => default EmptyString (output_file args)
                             end)
            /\ plan_output_metadata p !! "artist"
               = Some (match directives !! "author" with
                       | Some a => a
                       | None => artist (probed first)
                       end)
            /\ plan_output_metadata p !! "genre"
               = Some (default "Audiobook" (directives !! "genre"))
            /\ plan_output_metadata p !! "author"
               = Some (default EmptyString (directives !! "author"))
            /\ plan_output_metadata p !! "narrator"
               = Some (default EmptyString (directives !! "narrator"))
            /\ plan_output_metadata p !! "year"
               = Some (default EmptyString (directives !! "year"))
            /\ plan_output_metadata p !! "description"
               = Some (default EmptyString (directives !! "description"))).
  { intros directives Hd Htruthy Ho Hb. rewrite Hmd, Hout, Ho, Hd in *.
    rewrite Htitle, Halbum, Hartist, Hgenre, Hauthor, Hnarrator, Hyear, Hdesc.
    rewrite Hb. rewrite (book_title_precedence _ _ _ (Htruthy "title")).
    split; [reflexivity|]. split; [reflexivity|].
    split; [destruct (directives !! "output_path"); reflexivity|].
    split; [|repeat split].
    destruct (directives !! "author") as [a|] eqn:Ha; [|reflexivity].
    simpl. rewrite (Htruthy _ _ Ha). reflexivity. }
  destruct (opt_truthy (csv_file args)) eqn:Hcsv.
  - destruct (load_inputs_csv_inv _ _ _ _ Hcsv Hload)
      as (entries & directives & Hparse & _ & _ & Hd & Ho & Hb).
    exists directives, (probed first).
    split; [exists entries, lg1; exact Hparse|]. split; [exact Hfirst|].
    apply Hrest.
    + rewrite Hcsvmd. exact Hd.
    + intros k v. apply (parsed_directives_truthy _ _ _ _ _ _ _ Hparse).
    + rewrite Hof. exact Ho.
    + rewrite Hbt. exact Hb.
  - destruct (load_inputs_pattern_inv _ _ _ _ Hcsv Hload) as (Hd & Ho & Hb).
    exists ∅, (probed first). split; [reflexivity|]. split; [exact Hfirst|].
    apply Hrest.
    + rewrite Hcsvmd. exact Hd.
    + intros k v. rewrite lookup_empty. discriminate.
    + rewrite Hof, lookup_empty. exact Ho.
    + rewrite Hbt, lookup_empty. exact Hb.
Qed.

(** The theorem at the manifest with a title and an output path, called
    with an output path and a title of the caller's own. *)
Lemma combine_metadata_precedence_witness :
  exists p lg,
    combine_plan Samples.reversed_machine
      (Samples.csv_args (Some "rev.csv") (Some "/out/caller.m4b")
         (Some "Caller's Title")) = (Ok (Some p), lg)
    /\ plan_output_metadata p !! "title" = Some "Caller's Title"
    /\ plan_output_file p = "/out/from_csv.m4b".
Proof.
  destruct (combine_plan Samples.reversed_machine
              (Samples.csv_args (Some "rev.csv") (Some "/out/caller.m4b")
                 (Some "Caller's Title")))
    as [[[p|]|e] lg] eqn:Hplan; try (vm_compute in Hplan; discriminate Hplan).
  exists p, lg. split; [reflexivity|].
  destruct (combine_metadata_precedence Samples.reversed_machine
              (Samples.csv_args (Some "rev.csv") (Some "/out/caller.m4b")
                 (Some "Caller's Title")) p lg Hplan)
    as (directives & first & Hd & _ & Htitle & _ & Hout & _).
  split; [exact Htitle|].
  destruct Hd as (entries & lg' & Hparse). vm_compute in Hparse.
  injection Hparse as _ <- _. exact Hout.
Defined.

(** C4 fails as stated for the output path: with a caller's output path
    and an output_path directive, the directive is used. *)
Lemma csv_output_path_beats_caller :
  exists p lg,
    combine_plan Samples.reversed_machine
      (Samples.csv_args (Some "rev.csv") (Some "/out/caller.m4b") None)
    = (Ok (Some p), lg)
    /\ output_file (Samples.csv_args (Some "rev.csv") (Some "/out/caller.m4b") None)
       = Some "/out/caller.m4b"
    /\ manifest_directives Samples.reversed_machine "rev.csv" !! "output_path"
       = Some "/out/from_csv.m4b"
    /\ plan_output_file p = "/out/from_csv.m4b"
    /\ plan_output_file p <> "/out/caller.m4b".
Proof.
  destruct (combine_plan Samples.reversed_machine
              (Samples.csv_args (Some "rev.csv") (Some "/out/caller.m4b") None))
    as [[[p|]|e] lg] eqn:Hplan; try (vm_compute in Hplan; discriminate Hplan).
  exists p, lg. split; [reflexivity|].
  vm_compute in Hplan. injection Hplan as <- <-.
  repeat split; try (vm_compute; reflexivity). vm_compute. discriminate.
Qed.

(** The title chain, level by level, on the same manifest and on a plain
    pattern. *)
Example title_sources :
  (forall first,
     determine_output_metadata (Some "Caller") {["title" := "Manifest"]} first
       !! "title" = Some "Caller")
  /\ (forall first,
        determine_output_metadata None {["title" := "Manifest"]} first
          !! "title" = Some "Manifest")
  /\ determine_output_metadata None ∅ (Samples.track "/work/a.m4b" 1)
       !! "title" = Some "Combined Audiobook"
  /\ determine_output_metadata (Some "") ∅
       {| file_path := "/work/a.m4b"; start_offset := 0;
          probed := Samples.probed_file 1 "" "Album Tag" |}
       !! "title" = Some "Album Tag".
Proof. repeat split. Qed.

(** ** C10: outputs that are already there *)

(** A file whose output exists is not converted: the world stays as it is
    and the file is reported as unsuccessful. *)
Lemma process_existing_output sv jb w input_file :
  output_exists sv jb (Converter.fs w) input_file = true ->
  Converter.process_single_file sv jb w input_file = (Ok false, w).
Proof.
  unfold output_exists, Converter.process_single_file.
  destruct (Converter.output_path_of sv jb input_file) as [out|e]; [|discriminate].
  intros H. apply bool_decide_eq_true in H as [content ->]. reflexivity.
Qed.

(** A run of the converter on an output that is not there keeps every file
    at hand, and records at most one run of the transcoder, onto that
    output. *)
Lemma convert_to_m4b_frame sv w input_file output_file success w' :
  Converter.fs w !! output_file = None ->
  Converter.convert_to_m4b sv w input_file output_file = (success, w') ->
  (forall p c, Converter.fs w !! p = Some c -> Converter.fs w' !! p = Some c)
  /\ (Converter.invocations w' = Converter.invocations w
      \/ Converter.invocations w'
         = Converter.invocations w ++ [(input_file, output_file)])
  /\ (success = true -> Converter.invocations w'
                        = Converter.invocations w ++ [(input_file, output_file)]).
Proof.
  intros Hnone. unfold Converter.convert_to_m4b.
  destruct (negb (Converter.makedirs_ok sv (dirname output_file))).
  { intros [= <- <-]. split; [tauto|]. split; [left; reflexivity|discriminate]. }
  destruct (Converter.ffmpeg sv (Converter.fs w) input_file output_file)
    as [exit_ok written].
  set (w1 := {| Converter.fs := _; Converter.invocations := _ |}).
  assert (Hfs : forall p c, Converter.fs w !! p = Some c ->
                            Converter.fs w1 !! p = Some c).
  { intros p c Hp. subst w1. cbn [Converter.fs].
    destruct written as [content|]; [|exact Hp].
    rewrite lookup_insert_ne; [exact Hp|]. intros ->. congruence. }
  intros H.
  assert (w' = w1) as ->.
  { destruct exit_ok; [destruct (Converter.fs w1 !! output_file)|];
      injection H as _ <-; reflexivity. }
  split; [exact Hfs|]. split; [right; reflexivity|reflexivity].
Qed.

Lemma process_single_file_frame sv jb w input_file success w' :
  Converter.process_single_file sv jb w input_file = (Ok success, w') ->
  (forall p c, Converter.fs w !! p = Some c -> Converter.fs w' !! p = Some c)
  /\ (exists new, Converter.invocations w' = Converter.invocations w ++ new
        /\ forall i o, (i, o) ∈ new -> Converter.fs w !! o = None)
  /\ (output_exists sv jb (Converter.fs w) input_file = true ->
      success = false /\ w' = w).
Proof.
  intros H. split; [|split].
  - revert H. unfold Converter.process_single_file.
    destruct (Converter.output_path_of sv jb input_file) as [out|e]; [|discriminate].
    destruct (Converter.fs w !! Converter.path_str out) eqn:Hout.
    + intros [= _ <-]. tauto.
    + destruct (Converter.convert_to_m4b sv w _ _) as [s w1] eqn:Hc.
      intros [= _ <-]. apply (convert_to_m4b_frame _ _ _ _ _ _ Hout Hc).
  - revert H. unfold Converter.process_single_file.
    destruct (Converter.output_path_of sv jb input_file) as [out|e]; [|discriminate].
    destruct (Converter.fs w !! Converter.path_str out) eqn:Hout.
    + intros [= _ <-]. exists []. rewrite app_nil_r. split; [reflexivity|].
      intros i o Hin. apply elem_of_nil in Hin. contradiction.
    + destruct (Converter.convert_to_m4b sv w _ _) as [s w1] eqn:Hc.
      intros [= _ <-].
      destruct (convert_to_m4b_frame _ _ _ _ _ _ Hout Hc) as (_ & [Hi|Hi] & _).
      * exists []. rewrite app_nil_r. split; [exact Hi|].
        intros i o Hin. apply elem_of_nil in Hin. contradiction.
      * eexists. split; [exact Hi|]. intros i o Hin.
        apply list_elem_of_singleton in Hin. injection Hin as -> ->. exact Hout.
  - intros Hex. rewrite (process_existing_output _ _ _ _ Hex) in H.
    injection H as <- <-. split; reflexivity.
Qed.

(** Files at hand stay at hand, so an output that exists goes on existing. *)
Lemma with_existing_output_mono sv jb (files files' : gmap string string) inputs :
  (forall p c, files !! p = Some c -> files' !! p = Some c) ->
  length (with_existing_output sv jb files inputs)
  <= length (with_existing_output sv jb files' inputs).
Proof.
  intros Hsub. unfold with_existing_output.
  induction inputs as [|f inputs IH]; [reflexivity|].
  rewrite !filter_cons.
  destruct (decide (output_exists sv jb files f = true)) as [H|H].
  - assert (H' : output_exists sv jb files' f = true).
    { unfold output_exists in *.
      destruct (Converter.output_path_of sv jb f) as [out|e]; [|discriminate].
      apply bool_decide_eq_true in H as [c Hc]. apply bool_decide_eq_true.
      exists c. apply Hsub. exact Hc. }
    destruct (decide (output_exists sv jb files' f = true)); [|contradiction].
    simpl. lia.
  - destruct (decide (output_exists sv jb files' f = true)); simpl; lia.
Qed.

(** The loop over the batch: files at hand are kept, the transcoder only
    writes outputs that were not there at the start, and no file whose
    output was there at the start counts as converted. *)
Lemma convert_loop_frame sv jb inputs : forall n w n' w',
  Converter.convert_loop sv jb inputs n w = (Ok n', w') ->
  (forall p c, Converter.fs w !! p = Some c -> Converter.fs w' !! p = Some c)
  /\ (exists new, Converter.invocations w' = Converter.invocations w ++ new
        /\ forall i o, (i, o) ∈ new -> Converter.fs w !! o = None)
  /\ n' + length (with_existing_output sv jb (Converter.fs w) inputs)
     <= n + length inputs.
Proof.
  induction inputs as [|f inputs IH]; intros n w n' w'; cbn [Converter.convert_loop].
  - intros [= <- <-]. split; [tauto|]. split; [|simpl; lia].
    exists []. rewrite app_nil_r. split; [reflexivity|].
    intros i o Hin. apply elem_of_nil in Hin. contradiction.
  - destruct (Converter.process_single_file sv jb w f) as [[success|e] w1] eqn:Hf;
      [|discriminate].
    intros Hloop.
    destruct (process_single_file_frame _ _ _ _ _ _ Hf) as (Hfs1 & (new1 & Hi1 & Hn1) & Hskip).
    destruct (IH _ _ _ _ Hloop) as (Hfs2 & (new2 & Hi2 & Hn2) & Hcount).
    split; [intros p c Hp; apply Hfs2, Hfs1, Hp|]. split.
    + exists (new1 ++ new2). rewrite Hi2, Hi1, app_assoc. split; [reflexivity|].
      intros i o Hin. apply elem_of_app in Hin as [Hin|Hin]; [apply (Hn1 i o Hin)|].
      specialize (Hn2 i o Hin).
      destruct (Converter.fs w !! o) as [c|] eqn:Ho; [|reflexivity].
      rewrite (Hfs1 _ _ Ho) in Hn2. discriminate.
    + pose proof (with_existing_output_mono sv jb _ _ inputs Hfs1) as Hmono.
      unfold with_existing_output in *. rewrite filter_cons.
      destruct (decide (output_exists sv jb (Converter.fs w) f = true)) as [Hex|Hex].
      * destruct (Hskip Hex) as [-> ->]. simpl. lia.
      * destruct success; simpl; lia.
Qed.

(** C10. A file whose computed output path already exists is not
    converted: [process_single_file] runs no transcoder, leaves every file
    as it is and reports failure. In the batch (one worker), every file that
    was there at the start is unchanged at the end, every run of the
    transcoder wrote an output that was not there at the start, and the
    files whose output was there at the start are part of the total and not
    of the successes: [successful + #pre-existing <= total]. *)
Theorem existing_outputs_count_as_failures sv jb w successful total w' :
  Converter.ffmpeg_ok sv = true ->
  Converter.convert_all_to_m4b sv jb w = (Ok (successful, total), w') ->
  (forall input_file,
     output_exists sv jb (Converter.fs w) input_file = true ->
     Converter.process_single_file sv jb w input_file = (Ok false, w))
  /\ total = length (Converter.audio_files_of sv jb)
  /\ (forall p c, Converter.fs w !! p = Some c -> Converter.fs w' !! p = Some c)
  /\ (exists new, Converter.invocations w' = Converter.invocations w ++ new
        /\ forall i o, (i, o) ∈ new -> Converter.fs w !! o = None)
  /\ successful
     + length (with_existing_output sv jb (Converter.fs w)
                 (Converter.audio_files_of sv jb))
     <= total.
Proof.
  intros Hok. unfold Converter.convert_all_to_m4b. rewrite Hok. cbn [negb].
  intros H. split; [intros f; apply process_existing_output|].
  destruct (Converter.audio_files_of sv jb) as [|f files] eqn:Hfiles.
  - injection H as <- <- <-. split; [reflexivity|]. split; [tauto|].
    split; [|simpl; lia]. exists []. rewrite app_nil_r. split; [reflexivity|].
    intros i o Hin. apply elem_of_nil in Hin. contradiction.
  - destruct (Converter.convert_loop sv jb (f :: files) 0 w) as [[n|e] w1] eqn:Hloop;
      [|discriminate].
    injection H as <- <- <-.
    destruct (convert_loop_frame _ _ _ _ _ _ _ Hloop) as (Hfs & Hinv & Hcount).
    split; [reflexivity|]. split; [exact Hfs|]. split; [exact Hinv|exact Hcount].
Qed.

(** The theorem at a batch of two files, the output of one of which is
    already there. *)
Lemma existing_outputs_count_as_failures_witness :
  Converter.ffmpeg_ok Samples.studio = true
  /\ exists w',
       Converter.convert_all_to_m4b Samples.studio Samples.flat_job Samples.disk
       = (Ok (1, 2), w')
       /\ 2 = length (Converter.audio_files_of Samples.studio Samples.flat_job)
       /\ (forall p c, Converter.fs Samples.disk !! p = Some c ->
                       Converter.fs w' !! p = Some c)
       /\ 1 + length (with_existing_output Samples.studio Samples.flat_job
                        (Converter.fs Samples.disk)
                        (Converter.audio_files_of Samples.studio Samples.flat_job))
          <= 2.
Proof.
  split; [reflexivity|].
  exists (snd (Converter.convert_all_to_m4b Samples.studio Samples.flat_job
                 Samples.disk)).
  assert (H : Converter.convert_all_to_m4b Samples.studio Samples.flat_job
                Samples.disk
              = (Ok (1, 2),
                 snd (Converter.convert_all_to_m4b Samples.studio Samples.flat_job
                        Samples.disk)))
    by (vm_compute; reflexivity).
  split; [exact H|].
  destruct (existing_outputs_count_as_failures Samples.studio Samples.flat_job
              Samples.disk 1 2 _ eq_refl H) as (_ & Ht & Hfs & _ & Hc).
  split; [exact Ht|]. split; [exact Hfs|exact Hc].
Defined.

(** The sample batch: [a.mp3] is skipped and counted as a failure, its old
    output is untouched, and only [b.mp3] reaches the transcoder. *)
Example convert_sample_batch :
  fst (Converter.convert_all_to_m4b Samples.studio Samples.flat_job Samples.disk)
  = Ok (1, 2)
  /\ Converter.fs (snd (Converter.convert_all_to_m4b Samples.studio
                          Samples.flat_job Samples.disk)) !! "/out/a.m4b"
     = Some "old m4b"
  /\ Converter.invocations
       (snd (Converter.convert_all_to_m4b Samples.studio Samples.flat_job
               Samples.disk))
     = [("/in/b.mp3", "/out/b.m4b")]
  /\ with_existing_output Samples.studio Samples.flat_job
       (Converter.fs Samples.disk)
       (Converter.audio_files_of Samples.studio Samples.flat_job)
     = ["/in/a.mp3"].
Proof. repeat split; vm_compute; reflexivity. Qed.

(** ** The sort key *)

Lemma all_digits_snoc s c :
  all_digits (s +:+ String c EmptyString) = all_digits s && is_digit c.
Proof.
  induction s as [|x s IH].
  - simpl. rewrite andb_true_r. reflexivity.
  - rewrite append_cons. simpl. rewrite IH, andb_assoc. reflexivity.
Qed.

Lemma no_digits_snoc s c :
  no_digits (s +:+ String c EmptyString) = no_digits s && negb (is_digit c).
Proof.
  induction s as [|x s IH].
  - simpl. rewrite andb_true_r. reflexivity.
  - rewrite append_cons. simpl. rewrite IH, andb_assoc. reflexivity.
Qed.

Lemma all_digits_isdigit s : all_digits s = true -> all_isdigit s = true.
Proof.
  induction s as [|c s IH]; [reflexivity|]. cbn [all_digits all_isdigit].
  intros H. apply andb_true_iff in H as [Hc Hs].
  unfold isdigit_char. rewrite Hc, (IH Hs). reflexivity.
Qed.

Lemma digit_run_all s : all_digits s = true -> digit_run s = String.length s.
Proof.
  induction s as [|c s IH]; [reflexivity|]. cbn [all_digits digit_run String.length].
  intros H. apply andb_true_iff in H as [-> Hs]. rewrite (IH Hs). reflexivity.
Qed.

Lemma no_digits_digit_run s : no_digits s = true -> digit_run s = 0.
Proof.
  destruct s as [|c s]; [reflexivity|]. cbn [no_digits digit_run].
  destruct (is_digit c); [discriminate|reflexivity].
Qed.

Lemma no_digits_not_all_digits s :
  truthy s = true -> no_digits s = true -> all_digits s = false.
Proof.
  destruct s as [|c s]; [discriminate|]. cbn [no_digits all_digits].
  destruct (is_digit c); [discriminate|reflexivity].
Qed.

(** A run of digits becomes its number, when it becomes anything. *)
Lemma key_of_piece_digits d k :
  truthy d = true -> all_digits d = true ->
  key_of_piece d = Ok k -> k = KInt (int_of_digits d).
Proof.
  intros Hd Hall. unfold key_of_piece, isdigit, int_of_str.
  rewrite Hd, (all_digits_isdigit _ Hall), Hall. cbn [andb negb].
  destruct (max_str_digits <? digit_run d)%nat; cbn [bind]; [discriminate|].
  intros [= <-]. reflexivity.
Qed.

(** A text without ASCII digits becomes its lower-case form, when it
    becomes anything. *)
Lemma key_of_piece_text p k :
  no_digits p = true -> key_of_piece p = Ok k -> k = KStr (lower p).
Proof.
  intros Hp. unfold key_of_piece, int_of_str.
  destruct (isdigit p) eqn:Hd; [|intros [= <-]; reflexivity].
  unfold isdigit in Hd. apply andb_true_iff in Hd as [Hne _].
  rewrite (no_digits_digit_run _ Hp), (no_digits_not_all_digits _ Hne Hp).
  cbn [negb bind]. change (max_str_digits <? 0)%nat with false. discriminate.
Qed.

Lemma key_of_pieces_cons p rest k :
  key_of_pieces (p :: rest) = Ok k ->
  exists x ks, key_of_piece p = Ok x /\ key_of_pieces rest = Ok ks /\ k = x :: ks.
Proof.
  cbn [key_of_pieces]. destruct (key_of_piece p) as [x|e]; [|discriminate].
  cbn [bind]. destruct (key_of_pieces rest) as [ks|e]; [|discriminate].
  cbn [bind]. intros [= <-]. exists x, ks. repeat split.
Qed.

(** The pieces of the split alternate: text, digits, text, ... *)
Lemma split_digits_alternate s : forall (cur : string) (in_digits : bool) k,
  (if in_digits then truthy cur && all_digits cur else no_digits cur) = true ->
  key_of_pieces (split_digits_from cur in_digits s) = Ok k ->
  alternates (negb in_digits) k = true.
Proof.
  induction s as [|c s IH]; intros cur in_digits k Hcur; cbn [split_digits_from].
  - destruct in_digits; intros Hk.
    + apply andb_true_iff in Hcur as [Hne Hall].
      apply key_of_pieces_cons in Hk as (x & ks & Hx & Hks & ->).
      rewrite (key_of_piece_digits _ _ Hne Hall Hx).
      apply key_of_pieces_cons in Hks as (y & ks' & Hy & Hks' & ->).
      rewrite (key_of_piece_text EmptyString _ eq_refl Hy).
      cbn in Hks'. injection Hks' as <-. reflexivity.
    + apply key_of_pieces_cons in Hk as (x & ks & Hx & Hks & ->).
      rewrite (key_of_piece_text _ _ Hcur Hx).
      cbn in Hks. injection Hks as <-. reflexivity.
  - destruct (Bool.eqb (is_digit c) in_digits) eqn:Hc.
    + apply Bool.eqb_prop in Hc. apply IH. rewrite <- Hc in Hcur |- *.
      destruct (is_digit c) eqn:Hd.
      * apply andb_true_iff in Hcur as [_ Hall].
        rewrite truthy_snoc, all_digits_snoc, Hall, Hd. reflexivity.
      * rewrite no_digits_snoc, Hcur, Hd. reflexivity.
    + apply Bool.eqb_false_iff in Hc. intros Hk.
      apply key_of_pieces_cons in Hk as (x & ks & Hx & Hks & ->).
      assert (Hnext : alternates (negb (is_digit c)) ks = true).
      { apply (IH (String c EmptyString) (is_digit c)); [|exact Hks].
        destruct (is_digit c) eqn:Hd.
        - cbn. rewrite Hd. reflexivity.
        - cbn. rewrite Hd. reflexivity. }
      destruct in_digits.
      * apply andb_true_iff in Hcur as [Hne Hall].
        rewrite (key_of_piece_digits _ _ Hne Hall Hx). cbn [alternates negb andb].
        destruct (is_digit c); [congruence|exact Hnext].
      * rewrite (key_of_piece_text _ _ Hcur Hx). cbn [alternates negb andb].
        destruct (is_digit c); [exact Hnext|congruence].
Qed.

Lemma natural_sort_key_alternates filename k :
  natural_sort_key filename = Ok k -> alternates true k = true.
Proof. apply (split_digits_alternate filename EmptyString false). reflexivity. Qed.

Lemma file_key_alternates f : sortable f -> alternates true (file_key f) = true.
Proof. apply natural_sort_key_alternates. Qed.

(** On two keys of the same shape Python's comparison raises nothing and
    is the comparison of the model. *)
Lemma alternating_keys_comparable a : forall b text_next,
  alternates text_next a = true -> alternates text_next b = true ->
  py_key_lt a b = Some (key_lt a b).
Proof.
  induction a as [|x a IH]; intros [|y b] text_next Ha Hb; try reflexivity.
  cbn [py_key_lt key_lt]. destruct x, y, text_next; simpl in Ha, Hb;
    try discriminate.
  - destruct (item_eqb (KInt n) (KInt n0)); [|reflexivity].
    apply (IH b true); assumption.
  - destruct (item_eqb (KStr s) (KStr s0)); [|reflexivity].
    apply (IH b false); assumption.
Qed.

(** Sorting by [natural_sort_key] never compares a number with a text. *)
Lemma natural_keys_comparable f g :
  sortable f -> sortable g ->
  py_key_lt (file_key f) (file_key g) = Some (key_lt (file_key f) (file_key g)).
Proof.
  intros Hf Hg.
  apply (alternating_keys_comparable _ _ true); apply file_key_alternates;
    assumption.
Qed.

(** The natural sort of the specification's example, and a name the sort
    stops at: its key has no number for a superscript two. *)
Example natural_sort_example :
  natural_sort ["file2.mp3"; "file10.mp3"; "file1.mp3"]
  = Ok ["file1.mp3"; "file2.mp3"; "file10.mp3"]
  /\ natural_sort ["b.m4b"; Samples.superscript_two +:+ "1.m4b"; "a.m4b"]
     = Raise (ValueError ("invalid literal for int() with base 10: '"
                          +:+ Samples.superscript_two +:+ "'")).
Proof. split; vm_compute; reflexivity. Qed.

(* ===================================================================== *)
(** * Part III. Further properties of the code                           *)
(* ===================================================================== *)

(** ** The manifest parser: what every successful parse guarantees *)

(** A property of the pairs the directive loop stores holds of the whole
    dict when it holds of what was there before. *)
Lemma directives_loop_invariant (P : string -> string -> Prop) :
  (forall key value,
     truthy (lower (strip key)) = true -> truthy (strip value) = true ->
     P (lower (strip key)) (strip value)) ->
  forall lines i metadata data_start_idx,
    (forall k v, metadata !! k = Some v -> P k v) ->
    forall k v,
      fst (directives_loop i lines metadata data_start_idx) !! k = Some v ->
      P k v.
Proof.
  intros Hstore lines.
  assert (Hins : forall key value (metadata : gmap string string),
            (forall k v, metadata !! k = Some v -> P k v) ->
            forall k v,
              (if truthy (lower (strip key)) && truthy (strip value)
               then <[lower (strip key) := strip value]> metadata
               else metadata) !! k = Some v -> P k v).
  { intros key value metadata Hm k v.
    destruct (truthy (lower (strip key)) && truthy (strip value)) eqn:Hkv;
      [|apply Hm].
    apply andb_true_iff in Hkv as [Hk Hv].
    destruct (decide (lower (strip key) = k)) as [<-|Hne].
    - rewrite lookup_insert_eq. intros [= <-]. apply Hstore; assumption.
    - rewrite lookup_insert_ne by exact Hne. apply Hm. }
  induction lines as [|raw lines IH]; intros i metadata idx Hm;
    cbn [directives_loop].
  - exact Hm.
  - destruct (startswith_char "#" (strip raw)).
    + destruct (contains_char "," (strip raw)).
      * destruct (split_once "," (tail_str (strip raw))) as [key value].
        apply IH, Hins, Hm.
      * destruct (contains_char ":" (strip raw)).
        -- destruct (split_once ":" (tail_str (strip raw))) as [key value].
           apply IH, Hins, Hm.
        -- apply IH, Hm.
    + destruct (truthy (strip raw)); [exact Hm|apply IH, Hm].
Qed.

(** X1. Every directive a successful parse returns is normalised: its key
    is not empty, is in lower case and has no blank at either end, and its
    value is not empty and has no blank at either end. *)
Theorem parsed_directives_normalised tl csv_file entries directives lg k v :
  parse_csv_input tl csv_file = (Ok (entries, directives), lg) ->
  directives !! k = Some v ->
  truthy k = true /\ lower k = k /\ strip k = k
  /\ truthy v = true /\ strip v = v.
Proof.
  intros Hparse. rewrite (parse_csv_input_directives _ _ _ _ _ Hparse).
  rewrite manifest_directives_loop.
  apply (directives_loop_invariant
           (fun k v => truthy k = true /\ lower k = k /\ strip k = k
                       /\ truthy v = true /\ strip v = v)).
  - intros key value Hk Hv. split; [exact Hk|]. split; [apply lower_idem|].
    split; [rewrite strip_lower, strip_idem; reflexivity|].
    split; [exact Hv|apply strip_idem].
  - intros k' v'. rewrite lookup_empty. discriminate.
Qed.

(** The theorem at the manifest [#title,My Book]. *)
Lemma parsed_directives_normalised_witness :
  truthy "title" = true /\ lower "title" = "title" /\ strip "title" = "title"
  /\ truthy "My Book" = true /\ strip "My Book" = "My Book".
Proof.
  apply (parsed_directives_normalised Samples.book_machine "book.csv"
           [ {| me_file := "/work/a.m4b"; me_title := "Intro" |} ]
           {["title" := "My Book"]} [] "title" "My Book");
    vm_compute; reflexivity.
Defined.

(** The key of a directive is lower-cased with its accents. *)
Example directive_key_accents :
  fst (directives_loop 0
         [Samples.ln ("# " +:+ Samples.E_acute +:+ "DITEUR , Gallimard ")] ∅ 0)
  = {[Samples.e_acute +:+ "diteur" := "Gallimard"]}.
Proof. vm_compute. reflexivity. Qed.

(** What the row loop keeps: every entry it appends names an existing file
    with an accepted extension and carries a trimmed title; every record it
    logs is a warning; a record gives at most one entry or one warning. *)
Lemma rows_loop_invariant tl csv fieldnames records :
  forall file_list lg entries lg',
    rows_loop tl csv fieldnames records file_list lg = (Ok entries, lg') ->
    (Forall (fun e => path_exists tl (me_file e) = true
                      /\ accepted_suffix (lower (path_suffix (me_file e))) = true
                      /\ strip (me_title e) = me_title e) file_list ->
     Forall (fun e => path_exists tl (me_file e) = true
                      /\ accepted_suffix (lower (path_suffix (me_file e))) = true
                      /\ strip (me_title e) = me_title e) entries)
    /\ (Forall (fun r => fst r = WARNING) lg ->
        Forall (fun r => fst r = WARNING) lg')
    /\ length entries + length lg'
       <= length file_list + length lg + length records.
Proof.
  induction records as [|record rest IH]; intros file_list lg entries lg' H;
    cbn [rows_loop] in H.
  - injection H as <- <-. repeat split; [tauto|tauto|simpl; lia].
  - destruct (dict_row fieldnames record !! "file") as [[file|]|];
      [|discriminate|discriminate].
    destruct (truthy (strip file)); cbn [negb] in H.
    2: { destruct (IH _ _ _ _ H) as (H1 & H2 & H3).
         repeat split; [exact H1|exact H2|simpl; lia]. }
    set (p := abspath tl (if negb (isabs (strip file))
                          then path_join (dirname csv) (strip file)
                          else strip file)) in *.
    destruct (path_exists tl p) eqn:Hex; cbn [negb] in H.
    2: { destruct (IH _ _ _ _ H) as (H1 & H2 & H3).
         split; [exact H1|]. split.
         - intros Hlg. apply H2, Forall_app. split; [exact Hlg|].
           repeat constructor.
         - rewrite length_app in H3. simpl in *. lia. }
    destruct (accepted_suffix (lower (path_suffix p))) eqn:Hacc; cbn [negb] in H.
    2: { destruct (IH _ _ _ _ H) as (H1 & H2 & H3).
         split; [exact H1|]. split.
         - intros Hlg. apply H2, Forall_app. split; [exact Hlg|].
           repeat constructor.
         - rewrite length_app in H3. simpl in *. lia. }
    destruct (default (Some EmptyString) (dict_row fieldnames record !! "title"))
      as [t|]; [|discriminate].
    destruct (IH _ _ _ _ H) as (H1 & H2 & H3).
    split; [|split; [exact H2|]].
    + intros Hfl. apply H1, Forall_app. split; [exact Hfl|].
      constructor; [|constructor]. cbn [me_file me_title].
      split; [exact Hex|]. split; [exact Hacc|apply strip_idem].
    + rewrite length_app in H3. simpl in *. lia.
Qed.

(** X2. Whatever the manifest holds, a parse that succeeds returns at
    least one entry; every entry names a file that exists and has the
    extension [.m4b] or [.m4a] in any case; every title is trimmed; the log
    holds warnings only; and entries and warnings together are no more than
    the records read. *)
Theorem parsed_entries_are_valid tl csv_file entries directives lg :
  parse_csv_input tl csv_file = (Ok (entries, directives), lg) ->
  entries <> []
  /\ Forall (fun e => path_exists tl (me_file e) = true
                      /\ accepted_suffix (lower (path_suffix (me_file e))) = true
                      /\ strip (me_title e) = me_title e) entries
  /\ Forall (fun r => fst r = WARNING) lg
  /\ length entries + length lg <= length (manifest_records tl csv_file).
Proof.
  destruct (path_exists tl (abspath tl csv_file)) eqn:Hex.
  2: { unfold parse_csv_input. rewrite Hex. discriminate. }
  rewrite (parse_csv_input_unfold _ _ Hex).
  destruct (manifest_rest tl csv_file); [discriminate|].
  destruct (manifest_data tl csv_file); [discriminate|].
  destruct (rows_loop _ _ _ _ _ _) as [[[|e es]|] lg0] eqn:Hrows;
    try discriminate.
  intros [= <- _ <-].
  destruct (rows_loop_invariant _ _ _ _ _ _ _ _ Hrows) as (H1 & H2 & H3).
  split; [discriminate|]. split; [apply H1; constructor|].
  split; [apply H2; constructor|]. simpl in H3. simpl. lia.
Qed.

(** The theorem at the manifest with a missing file and a text file. *)
Lemma parsed_entries_are_valid_witness :
  let entries := [ {| me_file := "/work/a.m4b"; me_title := "First" |};
                   {| me_file := "/work/b.m4b"; me_title := "Last" |} ] in
  let lg := [(WARNING, "File not found: /work/gone.m4b");
             (WARNING, "Skipping non-M4B file: /work/notes.txt")] in
  entries <> []
  /\ Forall (fun e => path_exists Samples.mixed_machine (me_file e) = true
                      /\ accepted_suffix (lower (path_suffix (me_file e))) = true
                      /\ strip (me_title e) = me_title e) entries
  /\ Forall (fun r => fst r = WARNING) lg
  /\ length entries + length lg
     <= length (manifest_records Samples.mixed_machine "mixed.csv").
Proof.
  apply (parsed_entries_are_valid Samples.mixed_machine "mixed.csv" _
           {["title" := "Mixed"]}).
  vm_compute. reflexivity.
Defined.

(** The directive loop does not read past the first line that is neither
    blank nor a [#] line, and the index it returns is within what it read. *)
Lemma directives_loop_stops pre line post :
  startswith_char "#" (strip line) = false ->
  truthy (strip line) = true ->
  forall i metadata data_start_idx,
    directives_loop i (pre ++ line :: post) metadata data_start_idx
    = directives_loop i pre metadata data_start_idx.
Proof.
  intros Hhash Hline.
  induction pre as [|raw pre IH]; intros i metadata idx.
  - cbn [app directives_loop]. rewrite Hhash, Hline. reflexivity.
  - cbn [app directives_loop].
    destruct (startswith_char "#" (strip raw)).
    + destruct (contains_char "," (strip raw)).
      * destruct (split_once "," (tail_str (strip raw))) as [key value]. apply IH.
      * destruct (contains_char ":" (strip raw)).
        -- destruct (split_once ":" (tail_str (strip raw))) as [key value].
           apply IH.
        -- apply IH.
    + destruct (truthy (strip raw)); [reflexivity|apply IH].
Qed.

Lemma directives_loop_index lines : forall i metadata data_start_idx,
  data_start_idx <= i ->
  snd (directives_loop i lines metadata data_start_idx) <= i + length lines.
Proof.
  induction lines as [|raw lines IH]; intros i metadata idx Hidx;
    cbn [directives_loop length].
  - simpl. lia.
  - destruct (startswith_char "#" (strip raw)).
    + destruct (contains_char "," (strip raw)).
      * destruct (split_once "," (tail_str (strip raw))) as [key value].
        etransitivity; [apply IH; lia|lia].
      * destruct (contains_char ":" (strip raw)).
        -- destruct (split_once ":" (tail_str (strip raw))) as [key value].
           etransitivity; [apply IH; lia|lia].
        -- etransitivity; [apply IH; lia|lia].
    + destruct (truthy (strip raw)); [simpl; lia|].
      etransitivity; [apply IH; lia|lia].
Qed.

(** X3. The directives end at the first line that is neither blank nor a
    [#] line: what the loop returns does not depend on that line or on
    anything after it (a [#] line further down is data, not a directive),
    and that line is always part of the CSV data that is read next. *)
Theorem directives_end_at_first_data_line pre line post :
  startswith_char "#" (strip line) = false ->
  truthy (strip line) = true ->
  directives_loop 0 (pre ++ line :: post) ∅ 0 = directives_loop 0 pre ∅ 0
  /\ exists skipped,
       drop (snd (directives_loop 0 (pre ++ line :: post) ∅ 0))
            (pre ++ line :: post)
       = skipped ++ line :: post.
Proof.
  intros Hhash Hline.
  rewrite (directives_loop_stops _ _ _ Hhash Hline). split; [reflexivity|].
  pose proof (directives_loop_index pre 0 ∅ 0 (le_n 0)) as Hidx.
  simpl in Hidx.
  exists (drop (snd (directives_loop 0 pre ∅ 0)) pre).
  rewrite drop_app_le by exact Hidx. reflexivity.
Qed.

(** The theorem at a manifest whose fourth line looks like a directive. *)
Lemma directives_end_at_first_data_line_witness :
  let pre := [Samples.ln "#title,My Book"; Samples.ln ""] in
  let line := Samples.ln "file,title" in
  let post := [Samples.ln "#author,Nobody"; Samples.ln "a.m4b,Intro"] in
  directives_loop 0 (pre ++ line :: post) ∅ 0 = directives_loop 0 pre ∅ 0
  /\ exists skipped,
       drop (snd (directives_loop 0 (pre ++ line :: post) ∅ 0))
            (pre ++ line :: post)
       = skipped ++ line :: post.
Proof.
  apply (directives_end_at_first_data_line
           [Samples.ln "#title,My Book"; Samples.ln ""]
           (Samples.ln "file,title")
           [Samples.ln "#author,Nobody"; Samples.ln "a.m4b,Intro"]);
    reflexivity.
Defined.
(** ** [combine_m4b_files]: the probe loop and the chapter loop *)

(** The probe loop stops at the first file whose probe fails. *)
Lemma probe_loop_fails tl files : forall acc t,
  Exists (fun f => get_audio_metadata tl f = None) files ->
  exists before g after,
    files = before ++ g :: after
    /\ Forall (fun f => is_Some (get_audio_metadata tl f)) before
    /\ get_audio_metadata tl g = None
    /\ probe_loop tl files acc t
       = (None, [(ERROR, "Could not extract metadata from " +:+ g)]).
Proof.
  induction files as [|f files IH]; intros acc t Hex.
  - inversion Hex.
  - cbn [probe_loop]. destruct (get_audio_metadata tl f) as [metadata|] eqn:Hf.
    + assert (Hex' : Exists (fun f => get_audio_metadata tl f = None) files).
      { inversion Hex as [? ? H|? ? H]; subst; [congruence|exact H]. }
      destruct (IH (acc ++ [{| file_path := f; start_offset := t;
                               probed := metadata |}])
                   (t + duration metadata)%float Hex')
        as (before & g & after & -> & Hb & Hg & Hloop).
      exists (f :: before), g, after. split; [reflexivity|].
      split; [constructor; [rewrite Hf; eexists; reflexivity|exact Hb]|].
      split; [exact Hg|exact Hloop].
    + exists [], f, files. repeat split; [constructor|exact Hf].
Qed.

(** X4. When the probe of any selected file fails, [combine_m4b_files]
    returns [False] before any chapter is made: it stops at the first such
    file, in the order of the sorted list, and its last log record is the
    error that names that file. *)
Theorem failed_probe_stops_combine tl args inp lg f :
  select_files tl args = (Ok (Some inp), lg) ->
  f ∈ m4b_files inp ->
  get_audio_metadata tl f = None ->
  exists before g after,
    m4b_files inp = before ++ g :: after
    /\ Forall (fun f => is_Some (get_audio_metadata tl f)) before
    /\ get_audio_metadata tl g = None
    /\ combine_plan tl args
       = (Ok None, lg ++ [(ERROR, "Could not extract metadata from " +:+ g)]).
Proof.
  intros Hsel Hin Hf.
  assert (Hex : Exists (fun f => get_audio_metadata tl f = None) (m4b_files inp)).
  { apply Exists_exists. exists f. split; [exact Hin|exact Hf]. }
  destruct (probe_loop_fails tl _ [] 0%float Hex)
    as (before & g & after & Hfiles & Hb & Hg & Hloop).
  exists before, g, after. repeat split; try assumption.
  unfold combine_plan. rewrite Hsel, Hloop. reflexivity.
Qed.

(** The theorem at three files the second of which cannot be probed. *)
Lemma failed_probe_stops_combine_witness :
  exists before g after,
    ["/work/chapter1.m4b"; "/work/chapter2.m4b"; "/work/chapter3.m4b"]
    = before ++ g :: after
    /\ Forall (fun f => is_Some (get_audio_metadata Samples.unprobed_machine f))
         before
    /\ get_audio_metadata Samples.unprobed_machine g = None
    /\ combine_plan Samples.unprobed_machine (Samples.pattern_args false)
       = (Ok None, [] ++ [(ERROR, "Could not extract metadata from " +:+ g)]).
Proof.
  apply (failed_probe_stops_combine Samples.unprobed_machine
           (Samples.pattern_args false)
           {| m4b_files := ["/work/chapter1.m4b"; "/work/chapter2.m4b";
                            "/work/chapter3.m4b"];
              file_title_list :=
                [ {| me_file := "/work/chapter1.m4b"; me_title := EmptyString |};
                  {| me_file := "/work/chapter2.m4b"; me_title := EmptyString |};
                  {| me_file := "/work/chapter3.m4b"; me_title := EmptyString |} ];
              csv_metadata := ∅;
              out_file := Some "/out/book.m4b";
              book_title := None |} [] "/work/chapter2.m4b").
  - vm_compute. reflexivity.
  - apply elem_of_cons. right. apply elem_of_cons. left. reflexivity.
  - reflexivity.
Defined.

(** The probe loop records, for each file, the sum of the durations before
    it, and returns the sum of all of them; it logs nothing when it ends. *)
Lemma probe_loop_offsets tl files : forall acc t fms tot lg,
  probe_loop tl files acc t = (Some (fms, tot), lg) ->
  exists new,
    fms = acc ++ new
    /\ tot = fold_left PrimFloat.add (durations new) t
    /\ (forall k m, new !! k = Some m ->
          start_offset m = fold_left PrimFloat.add (take k (durations new)) t)
    /\ lg = [].
Proof.
  induction files as [|f files IH]; intros acc t fms tot lg; cbn [probe_loop].
  - intros [= <- <- <-]. exists []. rewrite app_nil_r.
    repeat split. intros k m H. discriminate H.
  - destruct (get_audio_metadata tl f) as [metadata|]; [|discriminate].
    intros H. destruct (IH _ _ _ _ _ H) as (new & -> & -> & Hoff & ->).
    eexists (_ :: new). rewrite <- app_assoc.
    split; [reflexivity|]. split; [reflexivity|]. split; [|reflexivity].
    intros [|k] m Hm.
    + injection Hm as <-. reflexivity.
    + apply (Hoff k m Hm).
Qed.

(** X5. The two running sums of [combine_m4b_files] agree. The probe loop
    gives every file the sum of the durations before it as [start_offset]
    and returns the sum of all durations as [total_duration]; without
    [preserve_existing_chapters] the chapter loop, which sums again, starts
    the chapter of each file at that file's [start_offset], ends it one
    duration later, and ends the last chapter at [total_duration]. *)
Theorem offsets_agree_with_chapters tl args ftl files fms tot lg :
  probe_loop tl files [] 0%float = (Some (fms, tot), lg) ->
  preserve_existing_chapters args = false ->
  tot = total (durations fms)
  /\ exists cs,
       generate_chapters tl args ftl fms = Ok cs
       /\ (forall k m, fms !! k = Some m ->
             start_offset m = prefix_sum (durations fms) k
             /\ exists c, cs !! k = Some c
                  /\ ch_start c = start_offset m
                  /\ ch_end c = (start_offset m + duration (probed m))%float)
       /\ (forall cN, last cs = Some cN -> ch_end cN = tot).
Proof.
  intros Hprobe Hp.
  destruct (probe_loop_offsets _ _ _ _ _ _ _ Hprobe) as (new & Hfms & Htot & Hoff & _).
  simpl in Hfms. subst new. split; [exact Htot|].
  exists (whole_spans args ftl 0%float 1 fms).
  pose proof (whole_spans_length args ftl fms 0%float 1) as Hlen.
  split; [apply generate_chapters_whole; exact Hp|]. split.
  - intros k m Hm. split; [apply (Hoff k m Hm)|].
    destruct (lookup_lt_is_Some_2 (whole_spans args ftl 0%float 1 fms) k) as [c Hc].
    { rewrite Hlen. eapply lookup_lt_Some. exact Hm. }
    exists c. split; [exact Hc|].
    pose proof (whole_spans_extent _ _ _ _ _ _ _ _ Hc Hm) as He.
    destruct (whole_spans_lookup _ _ _ _ _ _ _ Hc) as (_ & _ & _ & Hs & _).
    rewrite He, Hs, (Hoff k m Hm). split; reflexivity.
  - intros cN Hlast. rewrite last_lookup in Hlast.
    destruct (whole_spans_lookup _ _ _ _ _ _ _ Hlast) as (_ & _ & _ & _ & ->).
    rewrite Hlen, Htot. unfold total.
    rewrite take_ge; [reflexivity|].
    unfold durations. rewrite length_map. lia.
Qed.

(** The theorem at the three files of 2.0 s, 1.5 s and 2.5 s. *)
Lemma offsets_agree_with_chapters_witness :
  exists fms tot,
    probe_loop Samples.plain_machine
      ["/work/chapter1.m4b"; "/work/chapter2.m4b"; "/work/chapter3.m4b"]
      [] 0%float = (Some (fms, tot), [])
    /\ tot = total (durations fms)
    /\ exists cs,
         generate_chapters Samples.plain_machine (Samples.pattern_args false) [] fms
         = Ok cs
         /\ (forall k m, fms !! k = Some m ->
               start_offset m = prefix_sum (durations fms) k
               /\ exists c, cs !! k = Some c
                    /\ ch_start c = start_offset m
                    /\ ch_end c = (start_offset m + duration (probed m))%float)
         /\ (forall cN, last cs = Some cN -> ch_end cN = tot).
Proof.
  eexists _, _. split; [vm_compute; reflexivity|].
  eapply (offsets_agree_with_chapters Samples.plain_machine
            (Samples.pattern_args false) []
            ["/work/chapter1.m4b"; "/work/chapter2.m4b"; "/work/chapter3.m4b"]);
    [vm_compute; reflexivity|reflexivity].
Defined.
Lemma truthy_append_l (a b : string) : truthy a = true -> truthy (a +:+ b) = true.
Proof. destruct a; [discriminate|reflexivity]. Qed.

Lemma span_title_truthy args ftl i m : truthy (span_title args ftl i m) = true.
Proof.
  unfold span_title, or_else.
  destruct (truthy (csv_title_for args ftl (file_path m))) eqn:E; [exact E|].
  apply derive_chapter_title_not_empty.
Qed.

(** A turn of the chapter loop that does not raise appends at least one
    chapter, and every chapter it appends has a title. *)
Lemma chapter_step_titled tl args ftl st i m st' :
  chapter_step tl args ftl st i m = Ok st' ->
  exists new,
    chapters st' = chapters st ++ new
    /\ 1 <= length new
    /\ Forall (fun c => truthy (ch_title c) = true) new.
Proof.
  unfold chapter_step.
  change (or_else (csv_title_for args ftl (file_path m))
            (derive_chapter_title (file_path m) i (meta_title (probed m))))
    with (span_title args ftl i m).
  pose proof (span_title_truthy args ftl i m) as Ht.
  destruct (preserve_existing_chapters args).
  - destruct (fst (extract_existing_chapters tl (file_path m))) as [found|e];
      cbn [bind]; [|discriminate].
    destruct found as [|c found]; intros [= <-]; cbn [chapters].
    + eexists. split; [reflexivity|]. split; [simpl; lia|].
      repeat constructor. exact Ht.
    + eexists. split; [reflexivity|]. split; [simpl; lia|].
      change (Forall (fun c => truthy (ch_title c) = true)
                (map (offset_chapter tl (span_title args ftl i m) (current_time st))
                     (c :: found))).
      generalize (c :: found). intros l.
      induction l as [|ec l IHl]; constructor; [|exact IHl].
      cbn [offset_chapter ch_title]. apply truthy_append_l. exact Ht.
  - cbn [bind]. intros [= <-]. cbn [chapters].
    eexists. split; [reflexivity|]. split; [simpl; lia|].
    repeat constructor. exact Ht.
Qed.

Lemma chapter_loop_titled tl args ftl fms : forall i st st',
  chapter_loop tl args ftl i fms st = Ok st' ->
  exists new,
    chapters st' = chapters st ++ new
    /\ length fms <= length new
    /\ Forall (fun c => truthy (ch_title c) = true) new.
Proof.
  induction fms as [|m fms IH]; intros i st st'; cbn [chapter_loop].
  - intros [= <-]. exists []. rewrite app_nil_r. repeat split; [simpl; lia|constructor].
  - destruct (chapter_step tl args ftl st i m) as [st1|e] eqn:Hstep;
      cbn [bind]; [|discriminate].
    intros Hloop.
    destruct (chapter_step_titled _ _ _ _ _ _ _ Hstep) as (new1 & H1 & Hl1 & Ht1).
    destruct (IH _ _ _ Hloop) as (new2 & H2 & Hl2 & Ht2).
    exists (new1 ++ new2). rewrite H2, H1, app_assoc. split; [reflexivity|].
    split; [rewrite length_app; simpl; lia|].
    apply Forall_app. split; assumption.
Qed.

(** X6. Whenever the chapter synthesis returns, with or without
    [preserve_existing_chapters] and with or without a manifest, every file
    is represented (there are at least as many chapters as files) and no
    chapter has an empty title. *)
Theorem every_file_gets_titled_chapters tl args ftl fms cs :
  generate_chapters tl args ftl fms = Ok cs ->
  length fms <= length cs
  /\ Forall (fun c => truthy (ch_title c) = true) cs.
Proof.
  unfold generate_chapters.
  destruct (chapter_loop tl args ftl 1 fms _) as [st|e] eqn:Hloop;
    cbn [bind]; [|discriminate].
  intros [= <-].
  destruct (chapter_loop_titled _ _ _ _ _ _ _ Hloop) as (new & -> & Hl & Ht).
  split; assumption.
Qed.

(** The theorem at a file with two embedded chapters followed by a file
    without any, the embedded chapters being kept. *)
Lemma every_file_gets_titled_chapters_witness :
  exists cs,
    generate_chapters Samples.chaptered_machine (Samples.pattern_args true) []
      Samples.chaptered_tracks = Ok cs
    /\ length Samples.chaptered_tracks <= length cs
    /\ Forall (fun c => truthy (ch_title c) = true) cs.
Proof.
  eexists. split; [vm_compute; reflexivity|].
  eapply (every_file_gets_titled_chapters Samples.chaptered_machine
            (Samples.pattern_args true) [] Samples.chaptered_tracks).
  vm_compute. reflexivity.
Defined.

(** ** [check_audio_compatibility] *)

(** X7. [check_audio_compatibility] answers [True] exactly when the list is
    not empty and every two files agree on codec, sample rate and channel
    count (it compares each file with the first only); bit rate, duration
    and tags play no part. *)
Theorem compatible_iff_all_agree (fms : list file_meta) :
  check_audio_compatibility fms = true
  <-> fms <> []
      /\ forall m1 m2, m1 ∈ fms -> m2 ∈ fms ->
           codec (probed m1) = codec (probed m2)
           /\ sample_rate (probed m1) = sample_rate (probed m2)
           /\ channels (probed m1) = channels (probed m2).
Proof.
  destruct fms as [|first rest]; cbn [check_audio_compatibility].
  { split; [discriminate|]. intros [H _]. contradiction. }
  rewrite forallb_forall. split.
  - intros Hall. split; [discriminate|].
    assert (Hfirst : forall m, m ∈ first :: rest ->
              codec (probed m) = codec (probed first)
              /\ sample_rate (probed m) = sample_rate (probed first)
              /\ channels (probed m) = channels (probed first)).
    { intros m Hm. apply elem_of_cons in Hm as [->|Hm]; [repeat split|].
      apply list_elem_of_In in Hm. specialize (Hall m Hm).
      apply andb_true_iff in Hall as [Hall Hch].
      apply andb_true_iff in Hall as [Hco Hsr].
      apply String.eqb_eq in Hco, Hsr. apply Z.eqb_eq in Hch.
      repeat split; assumption. }
    intros m1 m2 H1 H2.
    destruct (Hfirst m1 H1) as (-> & -> & ->).
    destruct (Hfirst m2 H2) as (-> & -> & ->). repeat split.
  - intros [_ Hall] m Hm. apply list_elem_of_In in Hm.
    destruct (Hall m first) as (-> & -> & ->).
    + apply elem_of_cons. right. exact Hm.
    + apply elem_of_cons. left. reflexivity.
    + rewrite !String.eqb_refl, Z.eqb_refl. reflexivity.
Qed.

(** ** [combine_m4b_files] and the manifest *)

(** X8. With a manifest, an input error of the parser (the manifest is
    missing, or a [ValueError]) makes [combine_m4b_files] return [False]
    with the error logged after the parser's warnings; any other exception
    of the parser, such as the [AttributeError] of a short record, is
    not caught and escapes. A manifest that does not exist is reported as
    "CSV file not found". *)
Theorem unusable_manifest_stops_combine tl args :
  ffmpeg_available tl = true ->
  opt_truthy (csv_file args) = true ->
  (forall e lg,
     parse_csv_input tl (default EmptyString (csv_file args)) = (Raise e, lg) ->
     combine_plan tl args
     = match e with
       | FileNotFoundError msg | ValueError msg =>
           (Ok None, lg ++ [(ERROR, "Error reading CSV file: " +:+ msg)])
       | _ => (Raise e, lg)
       end)
  /\ (path_exists tl (abspath tl (default EmptyString (csv_file args))) = false ->
      combine_plan tl args
      = (Ok None,
         [(ERROR, "Error reading CSV file: CSV file not found: "
                  +:+ abspath tl (default EmptyString (csv_file args)))])).
Proof.
  intros Hff Hcsv.
  assert (Hgen : forall e lg,
     parse_csv_input tl (default EmptyString (csv_file args)) = (Raise e, lg) ->
     combine_plan tl args
     = match e with
       | FileNotFoundError msg | ValueError msg =>
           (Ok None, lg ++ [(ERROR, "Error reading CSV file: " +:+ msg)])
       | _ => (Raise e, lg)
       end).
  { intros e lg Hparse. unfold combine_plan, select_files, load_inputs.
    rewrite Hff, Hcsv, Hparse. cbn [negb]. destruct e; reflexivity. }
  split; [exact Hgen|].
  intros Hex.
  rewrite (Hgen (FileNotFoundError
                   ("CSV file not found: "
                    +:+ abspath tl (default EmptyString (csv_file args)))) []).
  - reflexivity.
  - unfold parse_csv_input. rewrite Hex. reflexivity.
Qed.

(** The theorem at a manifest that is not there and at one with a short
    record. *)
Lemma unusable_manifest_stops_combine_witness :
  combine_plan Samples.book_machine (Samples.csv_args (Some "none.csv") None None)
  = (Ok None,
     [(ERROR, "Error reading CSV file: CSV file not found: /work/none.csv")])
  /\ combine_plan Samples.short_machine (Samples.csv_args (Some "s.csv") None None)
     = (Raise none_strip, []).
Proof.
  split.
  - apply (proj2 (unusable_manifest_stops_combine Samples.book_machine
                    (Samples.csv_args (Some "none.csv") None None)
                    eq_refl eq_refl)).
    reflexivity.
  - apply (proj1 (unusable_manifest_stops_combine Samples.short_machine
                    (Samples.csv_args (Some "s.csv") None None)
                    eq_refl eq_refl) none_strip []).
    vm_compute. reflexivity.
Defined.
Lemma chapter_loop_with_pattern tl args pat ftl fms : forall i st,
  chapter_loop tl (with_pattern args pat) ftl i fms st
  = chapter_loop tl args ftl i fms st.
Proof.
  induction fms as [|m fms IH]; intros i st; cbn [chapter_loop]; [reflexivity|].
  change (chapter_step tl (with_pattern args pat) ftl st i m)
    with (chapter_step tl args ftl st i m).
  destruct (chapter_step tl args ftl st i m); cbn [bind]; [apply IH|reflexivity].
Qed.

(** X9. When a manifest is given, [input_pattern] is ignored: whatever
    pattern is passed beside it, [combine_m4b_files] reads the same files,
    logs the same records and decides the same output, chapters and
    metadata. *)
Theorem pattern_ignored_with_manifest tl args pat :
  opt_truthy (csv_file args) = true ->
  combine_plan tl (with_pattern args pat) = combine_plan tl args.
Proof.
  intros Hcsv.
  assert (Hload : load_inputs tl (with_pattern args pat) = load_inputs tl args).
  { unfold load_inputs. cbn [with_pattern csv_file output_file title].
    rewrite Hcsv. reflexivity. }
  assert (Hsel : select_files tl (with_pattern args pat) = select_files tl args).
  { unfold select_files. rewrite Hload. cbn [with_pattern csv_file].
    rewrite Hcsv. reflexivity. }
  unfold combine_plan. rewrite Hsel.
  destruct (select_files tl args) as [[[inp|]|e] lg]; try reflexivity.
  destruct (probe_loop tl (m4b_files inp) [] 0%float) as [[[fms tot]|] lg2];
    try reflexivity.
  destruct fms as [|first rest]; [reflexivity|].
  unfold generate_chapters. rewrite chapter_loop_with_pattern. reflexivity.
Qed.

(** The theorem at the manifest that lists [b.m4b] before [a.m4b]. *)
Lemma pattern_ignored_with_manifest_witness :
  combine_plan Samples.reversed_machine
    (with_pattern (Samples.csv_args (Some "rev.csv") None None)
       (Some "/elsewhere/*.m4b"))
  = combine_plan Samples.reversed_machine
      (Samples.csv_args (Some "rev.csv") None None).
Proof.
  apply (pattern_ignored_with_manifest Samples.reversed_machine
           (Samples.csv_args (Some "rev.csv") None None)
           (Some "/elsewhere/*.m4b")).
  reflexivity.
Defined.
(** ** The converter: what a reported success stands for *)

(** A conversion that reports success has run the transcoder and left a
    file that is not empty at the output path. *)
Lemma convert_to_m4b_success sv w input_file output_file w' :
  Converter.convert_to_m4b sv w input_file output_file = (true, w') ->
  (exists c, Converter.fs w' !! output_file = Some c /\ truthy c = true)
  /\ Converter.invocations w'
     = Converter.invocations w ++ [(input_file, output_file)].
Proof.
  unfold Converter.convert_to_m4b.
  destruct (negb (Converter.makedirs_ok sv (dirname output_file)));
    [discriminate|].
  destruct (Converter.ffmpeg sv (Converter.fs w) input_file output_file)
    as [exit_ok written].
  set (w1 := {| Converter.fs := _; Converter.invocations := _ |}).
  destruct exit_ok; [|discriminate].
  destruct (Converter.fs w1 !! output_file) as [c|] eqn:Hc; [|discriminate].
  intros [= Ht <-]. split; [exists c; split; assumption|reflexivity].
Qed.

Lemma process_single_file_success sv jb w input_file w' :
  Converter.process_single_file sv jb w input_file = (Ok true, w') ->
  exists out,
    Converter.output_path_of sv jb input_file = Ok out
    /\ Converter.fs w !! Converter.path_str out = None
    /\ (exists c, Converter.fs w' !! Converter.path_str out = Some c
                  /\ truthy c = true)
    /\ (Converter.path_str (Converter.Path input_file), Converter.path_str out)
       ∈ Converter.invocations w'.
Proof.
  unfold Converter.process_single_file.
  destruct (Converter.output_path_of sv jb input_file) as [out|e]; [|discriminate].
  destruct (Converter.fs w !! Converter.path_str out) eqn:Hout; [discriminate|].
  destruct (Converter.convert_to_m4b sv w _ _) as [s w1] eqn:Hc.
  intros [= -> <-]. destruct (convert_to_m4b_success _ _ _ _ _ Hc) as [Hfile Hinv].
  exists out. split; [reflexivity|]. split; [exact Hout|].
  split; [exact Hfile|]. rewrite Hinv. apply elem_of_app. right.
  apply list_elem_of_singleton. reflexivity.
Qed.

(** The successes of the loop, named: one output per success, no output
    twice. *)
Lemma convert_loop_successes sv jb inputs : forall n w n' w',
  Converter.convert_loop sv jb inputs n w = (Ok n', w') ->
  exists outs : list string,
    n' = n + length outs /\ NoDup outs
    /\ forall o, o ∈ outs ->
         Converter.fs w !! o = None
         /\ (exists c, Converter.fs w' !! o = Some c /\ truthy c = true)
         /\ exists f out,
              f ∈ inputs
              /\ Converter.output_path_of sv jb f = Ok out
              /\ Converter.path_str out = o
              /\ (Converter.path_str (Converter.Path f), o)
                 ∈ Converter.invocations w'.
Proof.
  induction inputs as [|f inputs IH]; intros n w n' w';
    cbn [Converter.convert_loop].
  - intros [= <- <-]. exists []. split; [simpl; lia|]. split; [constructor|].
    intros o Ho. apply elem_of_nil in Ho. contradiction.
  - destruct (Converter.process_single_file sv jb w f) as [[success|e] w1] eqn:Hf;
      [|discriminate].
    intros Hloop.
    destruct (process_single_file_frame _ _ _ _ _ _ Hf) as (Hfs1 & _ & _).
    destruct (convert_loop_frame _ _ _ _ _ _ _ Hloop) as (Hfs2 & (new2 & Hi2 & _) & _).
    destruct (IH _ _ _ _ Hloop) as (outs & Hn & Hnd & Houts).
    assert (Hrest : forall o, o ∈ outs ->
              Converter.fs w !! o = None
              /\ (exists c, Converter.fs w' !! o = Some c /\ truthy c = true)
              /\ exists f0 out,
                   f0 ∈ f :: inputs
                   /\ Converter.output_path_of sv jb f0 = Ok out
                   /\ Converter.path_str out = o
                   /\ (Converter.path_str (Converter.Path f0), o)
                      ∈ Converter.invocations w').
    { intros o Ho. destruct (Houts o Ho) as (Hnone & Hfile & f0 & out & Hin & Hrestf).
      split; [|split; [exact Hfile|]].
      - destruct (Converter.fs w !! o) as [c|] eqn:Hc; [|reflexivity].
        rewrite (Hfs1 _ _ Hc) in Hnone. discriminate.
      - exists f0, out. split; [apply elem_of_cons; right; exact Hin|exact Hrestf]. }
    destruct success.
    + destruct (process_single_file_success _ _ _ _ _ Hf)
        as (out & Hout & Hnone & (c & Hc & Htc) & Hinv).
      exists (Converter.path_str out :: outs).
      split; [simpl; lia|]. split.
      * apply NoDup_cons. split; [|exact Hnd].
        intros Hin. destruct (Houts _ Hin) as (Hn1 & _). congruence.
      * intros o Ho. apply elem_of_cons in Ho as [->|Ho]; [|apply Hrest, Ho].
        split; [exact Hnone|]. split; [exists c; split; [apply Hfs2, Hc|exact Htc]|].
        exists f, out. split; [apply elem_of_cons; left; reflexivity|].
        split; [exact Hout|]. split; [reflexivity|].
        rewrite Hi2. apply elem_of_app. left. exact Hinv.
    + exists outs. split; [exact Hn|]. split; [exact Hnd|exact Hrest].
Qed.

(** X10. Every success [convert_all_to_m4b] counts (one worker) is backed
    by an output file of its own: there are [successful] pairwise different
    output paths, each computed for a file of the batch, each free when the
    batch started, each written by a run of the transcoder on that file,
    and each holding a file that is not empty when the batch ends. So two
    inputs that map to the same output path are never both counted. *)
Theorem successes_are_distinct_new_outputs sv jb w successful total w' :
  Converter.convert_all_to_m4b sv jb w = (Ok (successful, total), w') ->
  exists outs : list string,
    length outs = successful /\ NoDup outs
    /\ forall o, o ∈ outs ->
         Converter.fs w !! o = None
         /\ (exists c, Converter.fs w' !! o = Some c /\ truthy c = true)
         /\ exists f out,
              f ∈ Converter.audio_files_of sv jb
              /\ Converter.output_path_of sv jb f = Ok out
              /\ Converter.path_str out = o
              /\ (Converter.path_str (Converter.Path f), o)
                 ∈ Converter.invocations w'.
Proof.
  unfold Converter.convert_all_to_m4b.
  assert (Hnone : exists outs : list string,
            length outs = 0 /\ NoDup outs
            /\ forall o, o ∈ outs ->
                 Converter.fs w !! o = None
                 /\ (exists c, Converter.fs w !! o = Some c /\ truthy c = true)
                 /\ exists f out,
                      f ∈ Converter.audio_files_of sv jb
                      /\ Converter.output_path_of sv jb f = Ok out
                      /\ Converter.path_str out = o
                      /\ (Converter.path_str (Converter.Path f), o)
                         ∈ Converter.invocations w).
  { exists []. split; [reflexivity|]. split; [constructor|].
    intros o Ho. apply elem_of_nil in Ho. contradiction. }
  destruct (negb (Converter.ffmpeg_ok sv)).
  { intros [= <- _ <-]. exact Hnone. }
  destruct (Converter.audio_files_of sv jb) as [|f files] eqn:Hfiles.
  { intros [= <- _ <-]. exact Hnone. }
  clear Hnone.
  destruct (Converter.convert_loop sv jb (f :: files) 0 w) as [[n|e] w1] eqn:Hloop;
    [|discriminate].
  intros [= <- _ <-].
  destruct (convert_loop_successes _ _ _ _ _ _ _ Hloop) as (outs & Hn & Hnd & Houts).
  exists outs. split; [simpl in Hn; lia|]. split; [exact Hnd|exact Houts].
Qed.

(** The theorem at two inputs that map to the same output path. *)
Lemma successes_are_distinct_new_outputs_witness :
  exists w',
    Converter.convert_all_to_m4b Samples.twin_studio (Samples.twin_job false)
      Samples.empty_disk = (Ok (1, 2), w')
    /\ exists outs : list string,
         length outs = 1 /\ NoDup outs
         /\ forall o, o ∈ outs ->
              Converter.fs Samples.empty_disk !! o = None
              /\ (exists c, Converter.fs w' !! o = Some c /\ truthy c = true)
              /\ exists f out,
                   f ∈ Converter.audio_files_of Samples.twin_studio
                         (Samples.twin_job false)
                   /\ Converter.output_path_of Samples.twin_studio
                        (Samples.twin_job false) f = Ok out
                   /\ Converter.path_str out = o
                   /\ (Converter.path_str (Converter.Path f), o)
                      ∈ Converter.invocations w'.
Proof.
  eexists. split; [vm_compute; reflexivity|].
  eapply (successes_are_distinct_new_outputs Samples.twin_studio
            (Samples.twin_job false) Samples.empty_disk 1 2).
  vm_compute. reflexivity.
Defined.
(** ** The converter: where an output goes *)

Lemma contains_char_app c (a b : string) :
  contains_char c (a +:+ b) = contains_char c a || contains_char c b.
Proof.
  induction a as [|x a IH]; [reflexivity|].
  rewrite append_cons. cbn [contains_char]. rewrite IH, orb_assoc. reflexivity.
Qed.

(** A text without a slash is one component, unless it is empty or a dot. *)
Lemma parts_from_no_slash (s : string) : forall cur,
  contains_char slash s = false ->
  parts_from cur s
  = if truthy (cur +:+ s) && negb (String.eqb (cur +:+ s) ".")
    then [cur +:+ s] else [].
Proof.
  induction s as [|c s IH]; intros cur H; cbn [parts_from].
  - rewrite append_empty_r. reflexivity.
  - cbn [contains_char] in H. apply orb_false_iff in H as [Hc Hs].
    rewrite Hc, (IH _ Hs), append_assoc. reflexivity.
Qed.

(** The components of a path hold no slash and are neither empty nor a
    dot. *)
Lemma parts_from_wellformed (s : string) : forall cur,
  contains_char slash cur = false ->
  Forall (fun p => contains_char slash p = false /\ truthy p = true /\ p <> ".")
         (parts_from cur s).
Proof.
  assert (Hkeep : forall cur, contains_char slash cur = false ->
            Forall (fun p => contains_char slash p = false
                             /\ truthy p = true /\ p <> ".")
                   (if truthy cur && negb (String.eqb cur ".") then [cur] else [])).
  { intros cur Hcur. destruct (truthy cur) eqn:Ht; [|constructor].
    destruct (String.eqb cur ".") eqn:Hd; [constructor|].
    constructor; [|constructor]. split; [exact Hcur|]. split; [exact Ht|].
    intros ->. discriminate Hd. }
  induction s as [|c s IH]; intros cur Hcur; cbn [parts_from].
  - apply Hkeep, Hcur.
  - destruct (ch_eqb c slash) eqn:Hc.
    + apply Forall_app. split; [apply Hkeep, Hcur|apply IH; reflexivity].
    + apply IH. rewrite contains_char_app, Hcur. cbn [contains_char].
      rewrite Hc. reflexivity.
Qed.

Lemma last_Forall {A} (P : A -> Prop) (l : list A) d :
  Forall P l -> l <> [] -> P (List.last l d).
Proof.
  induction 1 as [|x l Hx Hl IH]; [contradiction|]. intros _.
  destruct l as [|y l]; [exact Hx|]. apply IH. discriminate.
Qed.

Lemma last_app_nonempty {A} (l1 l2 : list A) d :
  l2 <> [] -> List.last (l1 ++ l2) d = List.last l2 d.
Proof.
  intros H. induction l1 as [|x l1 IH]; [reflexivity|].
  cbn [app]. destruct (l1 ++ l2) eqn:E; [|exact IH].
  destruct l1; [contradiction|discriminate].
Qed.

(** The name of a parsed path: empty, or one well-formed component. *)
Lemma name_wellformed f :
  contains_char slash (Converter.name (Converter.Path f)) = false
  /\ Converter.name (Converter.Path f) <> ".".
Proof.
  unfold Converter.name, Converter.Path. cbn [Converter.parts].
  destruct (parts_from EmptyString f) as [|x l] eqn:E.
  - split; [reflexivity|discriminate].
  - pose proof (parts_from_wellformed f EmptyString eq_refl) as Hwf.
    rewrite E in Hwf.
    destruct (last_Forall _ (x :: l) EmptyString Hwf) as (H1 & _ & H3);
      [discriminate|]. split; assumption.
Qed.




(** [Path(x)] for a file name [x]. *)
Lemma Path_single x :
  contains_char slash x = false -> truthy x = true -> x <> "." ->
  Converter.Path x = {| Converter.anchored := false; Converter.parts := [x] |}.
Proof.
  intros Hx Ht Hd. unfold Converter.Path. rewrite (parts_from_no_slash _ _ Hx).
  change (EmptyString +:+ x) with x. rewrite Ht.
  destruct (String.eqb x ".") eqn:E; [apply String.eqb_eq in E; contradiction|].
  cbn [andb negb]. f_equal. destruct x as [|c x]; [discriminate|].
  cbn [contains_char] in Hx. apply orb_false_iff in Hx as [Hc _]. exact Hc.
Qed.


Lemma strip_parts_app pre : forall l rest,
  Converter.strip_parts pre l = Some rest -> l = pre ++ rest.
Proof.
  induction pre as [|a pre IH]; intros l rest; cbn [Converter.strip_parts].
  - intros [= ->]. reflexivity.
  - destruct l as [|b l]; [discriminate|].
    destruct (String.eqb a b) eqn:E; [|discriminate].
    apply String.eqb_eq in E. subst b. intros H. rewrite (IH _ _ H). reflexivity.
Qed.





(** ** The natural order *)

Lemma code_inj x y : code x = code y -> x = y.
Proof.
  unfold code. intros H.
  rewrite <- (ascii_nat_embedding x), <- (ascii_nat_embedding y), H. reflexivity.
Qed.

Lemma str_lt_irrefl a : str_lt a a = false.
Proof.
  induction a as [|x a IH]; [reflexivity|]. cbn [str_lt].
  rewrite Nat.ltb_irrefl. exact IH.
Qed.

Lemma str_lt_trans a : forall b c,
  str_lt a b = true -> str_lt b c = true -> str_lt a c = true.
Proof.
  induction a as [|x a IH]; intros [|y b] [|z c]; cbn [str_lt];
    try discriminate; try reflexivity.
  destruct (code x <? code y)%nat eqn:Hxy, (code y <? code x)%nat eqn:Hyx,
           (code y <? code z)%nat eqn:Hyz, (code z <? code y)%nat eqn:Hzy,
           (code x <? code z)%nat eqn:Hxz, (code z <? code x)%nat eqn:Hzx;
    try discriminate; try reflexivity;
    repeat match goal with
           | H : (_ <? _)%nat = true |- _ => apply Nat.ltb_lt in H
           | H : (_ <? _)%nat = false |- _ => apply Nat.ltb_ge in H
           end; try lia.
  apply IH.
Qed.

Lemma str_lt_total a : forall b,
  str_lt a b = false -> str_lt b a = false -> a = b.
Proof.
  induction a as [|x a IH]; intros [|y b]; cbn [str_lt];
    try discriminate; try reflexivity.
  destruct (code x <? code y)%nat eqn:Hxy, (code y <? code x)%nat eqn:Hyx;
    try discriminate.
  intros H1 H2. apply Nat.ltb_ge in Hxy, Hyx.
  rewrite (code_inj x y) by lia. rewrite (IH b H1 H2). reflexivity.
Qed.

Lemma item_eqb_eq x y : item_eqb x y = true <-> x = y.
Proof.
  destruct x, y; cbn [item_eqb]; split; try discriminate.
  - intros H. apply N.eqb_eq in H. congruence.
  - intros [= ->]. apply N.eqb_refl.
  - intros H. apply String.eqb_eq in H. congruence.
  - intros [= ->]. apply String.eqb_refl.
Qed.

Lemma item_lt_irrefl x : item_lt x x = false.
Proof. destruct x; cbn [item_lt]; [apply N.ltb_irrefl|apply str_lt_irrefl]. Qed.

Lemma item_lt_trans x y z :
  item_lt x y = true -> item_lt y z = true -> item_lt x z = true.
Proof.
  destruct x, y, z; cbn [item_lt]; try discriminate.
  - intros H1 H2. apply N.ltb_lt in H1, H2. apply N.ltb_lt. lia.
  - apply str_lt_trans.
Qed.

Lemma key_lt_irrefl a : key_lt a a = false.
Proof.
  induction a as [|x a IH]; [reflexivity|]. cbn [key_lt].
  rewrite (proj2 (item_eqb_eq x x) eq_refl). exact IH.
Qed.

(** The order on keys is transitive, whatever the keys. *)
Lemma key_lt_trans a : forall b c,
  key_lt a b = true -> key_lt b c = true -> key_lt a c = true.
Proof.
  induction a as [|x a IH]; intros [|y b] [|z c]; cbn [key_lt];
    try discriminate; try reflexivity.
  destruct (item_eqb x y) eqn:Exy.
  - apply item_eqb_eq in Exy. subst y.
    destruct (item_eqb x z); [apply IH|]. intros _ H. exact H.
  - intros Hxy. destruct (item_eqb y z) eqn:Eyz.
    + apply item_eqb_eq in Eyz. subst z. rewrite Exy. intros _. exact Hxy.
    + intros Hyz. pose proof (item_lt_trans _ _ _ Hxy Hyz) as Hxz.
      destruct (item_eqb x z) eqn:Exz; [|exact Hxz].
      apply item_eqb_eq in Exz. subst z.
      rewrite (item_lt_asym _ _ Hxy) in Hyz. discriminate.
Qed.

(** Two keys of the same shape are equal when neither is smaller. *)
Lemma alternating_keys_total a : forall b text_next,
  alternates text_next a = true -> alternates text_next b = true ->
  key_lt a b = false -> key_lt b a = false -> a = b.
Proof.
  induction a as [|x a IH]; intros [|y b] text_next Ha Hb; cbn [key_lt];
    try discriminate; try reflexivity.
  rewrite (item_eqb_sym y x).
  destruct (item_eqb x y) eqn:Exy.
  - apply item_eqb_eq in Exy. subst y. intros H1 H2. f_equal.
    destruct x, text_next; cbn [alternates negb andb] in Ha, Hb;
      try discriminate; eapply IH; eassumption.
  - intros H1 H2. exfalso.
    destruct x, y, text_next; cbn [alternates negb andb] in Ha, Hb;
      try discriminate; cbn [item_lt item_eqb] in *.
    + apply N.ltb_ge in H1, H2. apply N.eqb_neq in Exy. lia.
    + rewrite (str_lt_total _ _ H1 H2), String.eqb_refl in Exy. discriminate.
Qed.

(** The key of a file alternates, whether the file has one or not. *)
Lemma file_key_shape f : alternates true (file_key f) = true.
Proof.
  unfold file_key.
  destruct (natural_sort_key (basename f)) as [k|e] eqn:E; [|reflexivity].
  exact (natural_sort_key_alternates _ _ E).
Qed.

(** On file names, "does not sort after" is transitive. *)
Lemma not_after_trans f g h : not_after f g -> not_after g h -> not_after f h.
Proof.
  unfold not_after. intros Hfg Hgh.
  pose proof (file_key_shape f) as Sf.
  pose proof (file_key_shape g) as Sg.
  pose proof (file_key_shape h) as Sh.
  set (kf := file_key f) in *.
  set (kg := file_key g) in *.
  set (kh := file_key h) in *.
  destruct (key_lt kh kf) eqn:Hhf; [exfalso|reflexivity].
  destruct (key_lt kf kg) eqn:Hlt1.
  - destruct (key_lt kg kh) eqn:Hlt2.
    + pose proof (key_lt_trans _ _ _ Hlt1 Hlt2) as Hfh.
      rewrite (key_lt_asym _ _ Hfh) in Hhf. discriminate.
    + assert (kg = kh) as E
        by (apply (alternating_keys_total kg kh true); assumption).
      rewrite <- E in Hhf. rewrite (key_lt_asym _ _ Hlt1) in Hhf. discriminate.
  - assert (kf = kg) as E
      by (apply (alternating_keys_total kf kg true); assumption).
    rewrite E in Hhf. congruence.
Qed.

(** In a list that is in order, with a transitive order, an earlier element
    never sorts after a later one. *)
Lemma in_order_lookup (l : list string) :
  natural_order l = true ->
  forall i j f g, i < j -> l !! i = Some f -> l !! j = Some g -> not_after f g.
Proof.
  unfold natural_order.
  induction l as [|a l IH]; intros Hord i j f g Hij Hf Hg; [discriminate|].
  assert (Hhead : forall k h, l !! k = Some h -> not_after a h).
  { clear i j f g Hij Hf Hg IH. revert a Hord.
    induction l as [|b l IHl]; intros a Hord k h Hh; [discriminate|].
    cbn [in_orderb] in Hord. apply andb_true_iff in Hord as [Hab Hrest].
    apply negb_true_iff in Hab.
    destruct k as [|k].
    - injection Hh as <-. exact Hab.
    - apply (not_after_trans a b h); [exact Hab|].
      apply (IHl b Hrest k h Hh). }
  destruct j as [|j]; [lia|]. destruct i as [|i].
  - injection Hf as <-. apply (Hhead j g Hg).
  - apply (IH ltac:(destruct l as [|b l]; [reflexivity|];
                    cbn [in_orderb] in Hord;
                    apply andb_true_iff in Hord as [_ H]; exact H)
              i j f g); [lia|exact Hf|exact Hg].
Qed.

(** *** Names with a key *)

Lemma isdigit_char_cases c : isdigit_char c = is_digit c || is_superscript c.
Proof. destruct c as [[] [] [] [] [] [] [] []]; reflexivity. Qed.

Lemma digit_not_superscript c : is_digit c = true -> is_superscript c = false.
Proof. destruct c as [[] [] [] [] [] [] [] []]; try reflexivity; discriminate. Qed.

Lemma all_digits_chars (s : string) :
  forallb is_digit (list_ascii_of_string s) = all_digits s.
Proof. induction s as [|c s IH]; [reflexivity|]. cbn. rewrite IH. reflexivity. Qed.

Lemma all_isdigit_chars (s : string) :
  forallb (fun c => is_digit c || is_superscript c) (list_ascii_of_string s)
  = all_isdigit s.
Proof.
  induction s as [|c s IH]; [reflexivity|].
  cbn [list_ascii_of_string forallb all_isdigit].
  rewrite IH, isdigit_char_cases. reflexivity.
Qed.

Lemma length_chars (s : string) :
  length (list_ascii_of_string s) = String.length s.
Proof. induction s as [|c s IH]; [reflexivity|]. cbn. rewrite IH. reflexivity. Qed.

Lemma all_digits_no_superscript (s : string) :
  all_digits s = true -> existsb is_superscript (list_ascii_of_string s) = false.
Proof.
  induction s as [|c s IH]; [reflexivity|]. cbn [all_digits].
  intros H. apply andb_true_iff in H as [Hc Hs].
  cbn [list_ascii_of_string existsb].
  rewrite (digit_not_superscript _ Hc), (IH Hs). reflexivity.
Qed.

Lemma isdigit_superscript (s : string) :
  all_isdigit s = true -> all_digits s = false ->
  existsb is_superscript (list_ascii_of_string s) = true.
Proof.
  induction s as [|c s IH]; [discriminate|].
  cbn [all_isdigit all_digits list_ascii_of_string existsb].
  rewrite isdigit_char_cases. intros H. apply andb_true_iff in H as [Hc Hs].
  destruct (is_superscript c); [reflexivity|].
  rewrite orb_false_r in Hc. rewrite Hc. cbn [andb orb]. apply IH, Hs.
Qed.

(** A piece has a key element unless it is one of the pieces without. *)
Lemma key_of_piece_outcome piece :
  if no_key_piece piece
  then exists msg, key_of_piece piece = Raise (ValueError msg)
  else exists item, key_of_piece piece = Ok item.
Proof.
  unfold no_key_piece, key_of_piece, isdigit, int_of_str.
  rewrite all_isdigit_chars, all_digits_chars, length_chars.
  destruct (all_digits piece) eqn:D.
  - rewrite (all_digits_no_superscript _ D), (all_digits_isdigit _ D),
      (digit_run_all _ D).
    cbn [andb orb negb]. unfold max_str_digits.
    destruct piece as [|c piece].
    + cbn. eexists. reflexivity.
    + cbn [truthy]. destruct (4300 <? String.length (String c piece))%nat;
        cbn [bind]; eexists; reflexivity.
  - assert (T : truthy piece = true) by (destruct piece; [discriminate|reflexivity]).
    rewrite T. cbn [andb orb negb]. rewrite orb_false_r.
    destruct (all_isdigit piece) eqn:A.
    + rewrite (isdigit_superscript _ A D). cbn [andb].
      destruct (max_str_digits <? digit_run piece)%nat; cbn [bind];
        eexists; reflexivity.
    + cbn [andb]. eexists. reflexivity.
Qed.

Lemma key_of_pieces_outcome pieces :
  if forallb (fun piece => negb (no_key_piece piece)) pieces
  then exists k, key_of_pieces pieces = Ok k
  else exists msg, key_of_pieces pieces = Raise (ValueError msg).
Proof.
  induction pieces as [|p pieces IH]; cbn [forallb key_of_pieces].
  - exists []. reflexivity.
  - pose proof (key_of_piece_outcome p) as Hp.
    destruct (no_key_piece p); cbn [negb andb].
    + destruct Hp as [msg ->]. exists msg. reflexivity.
    + destruct Hp as [item ->]. cbn [bind].
      destruct (forallb _ pieces).
      * destruct IH as [k ->]. eexists. reflexivity.
      * destruct IH as [msg ->]. exists msg. reflexivity.
Qed.

(** [natural_sort_key] returns on the names with a key and raises a
    [ValueError] on every other name. *)
Lemma natural_sort_key_outcome name :
  if has_key name
  then exists k, natural_sort_key name = Ok k
  else exists msg, natural_sort_key name = Raise (ValueError msg).
Proof. apply key_of_pieces_outcome. Qed.

Lemma sortable_has_key f : sortable f <-> has_key (basename f) = true.
Proof.
  pose proof (natural_sort_key_outcome (basename f)) as H. unfold sortable.
  destruct (has_key (basename f)).
  - destruct H as [k Hk]. split; [reflexivity|]. intros _.
    exact (sortable_key f k Hk).
  - destruct H as [msg Hmsg]. rewrite Hmsg. split; discriminate.
Qed.

(** X12. The sort of [combine_m4b_files] (and of the CSV template) is a
    sort when it returns: the result holds the same files, no file sorts
    after a file that comes later in it, whatever the distance between the
    two, and no comparison it can make raises a [TypeError]. It returns
    exactly when every name has a key; otherwise it raises the
    [ValueError] of a file whose name has none: a piece of superscript
    digits, or a number of more than 4300 digits. *)
Theorem natural_sort_sorts (files : list string) :
  (forall sorted, natural_sort files = Ok sorted ->
     sorted ≡ₚ files
     /\ (forall i j f g, i < j ->
           sorted !! i = Some f -> sorted !! j = Some g -> not_after f g)
     /\ (forall f g, f ∈ files -> g ∈ files ->
           natural_sort_key (basename f) = Ok (file_key f)
           /\ natural_sort_key (basename g) = Ok (file_key g)
           /\ py_key_lt (file_key f) (file_key g)
              = Some (key_lt (file_key f) (file_key g))))
  /\ ((exists sorted, natural_sort files = Ok sorted)
      <-> Forall (fun f => has_key (basename f) = true) files)
  /\ (forall e, natural_sort files = Raise e ->
        exists before f after msg,
          files = before ++ f :: after
          /\ Forall (fun f' => has_key (basename f') = true) before
          /\ has_key (basename f) = false
          /\ natural_sort_key (basename f) = Raise e
          /\ e = ValueError msg).
Proof.
  split; [|split].
  - intros sorted Hsort. destruct (natural_sort_ok _ _ Hsort) as [Hall ->].
    split; [apply sort_by_perm|]. split.
    + apply in_order_lookup. apply sort_by_in_order, key_lt_asym.
    + intros f g Hf Hg. rewrite Forall_forall in Hall.
      pose proof (Hall f Hf) as Sf. pose proof (Hall g Hg) as Sg.
      split; [exact Sf|]. split; [exact Sg|].
      apply natural_keys_comparable; assumption.
  - split.
    + intros [sorted Hsort]. destruct (natural_sort_ok _ _ Hsort) as [Hall _].
      eapply Forall_impl; [exact Hall|]. intros f. apply sortable_has_key.
    + intros Hall. eexists. apply natural_sort_sortable.
      eapply Forall_impl; [exact Hall|]. intros f. apply sortable_has_key.
  - intros e Hraise.
    destruct (natural_sort_raise _ _ Hraise) as (before & f & after & -> & Hf & Hb).
    pose proof (natural_sort_key_outcome (basename f)) as Hout.
    destruct (has_key (basename f)) eqn:Hkey.
    + destruct Hout as [k Hk]. rewrite Hk in Hf. discriminate.
    + destruct Hout as [msg Hmsg]. exists before, f, after, msg.
      split; [reflexivity|]. split.
      * eapply Forall_impl; [exact Hb|]. intros g. apply sortable_has_key.
      * split; [exact Hkey|]. split; [exact Hf|]. congruence.
Qed.

(** The sort on names with accents, with a superscript and with a long
    number. *)
Example natural_sort_cases :
  natural_sort [Samples.E_acute +:+ "10.m4b"; Samples.e_acute +:+ "9.m4b"]
  = Ok [Samples.e_acute +:+ "9.m4b"; Samples.E_acute +:+ "10.m4b"]
  /\ has_key ("x" +:+ Samples.superscript_two +:+ ".m4b") = true
  /\ has_key (Samples.superscript_two +:+ "1.m4b") = false
  /\ has_key ("a1" +:+ Samples.superscript_two +:+ "2.m4b") = false.
Proof. repeat split; vm_compute; reflexivity. Qed.

(** *** Numbers inside names *)

Lemma split_digits_text (p : string) : forall cur rest,
  no_digits p = true ->
  split_digits_from cur false (p +:+ rest)
  = split_digits_from (cur +:+ p) false rest.
Proof.
  induction p as [|c p IH]; intros cur rest Hp.
  - rewrite append_empty_r. reflexivity.
  - cbn [no_digits] in Hp. apply andb_true_iff in Hp as [Hc Hp].
    apply negb_true_iff in Hc.
    rewrite append_cons. cbn [split_digits_from]. rewrite Hc. cbn [Bool.eqb].
    rewrite (IH _ _ Hp), append_assoc. reflexivity.
Qed.

Lemma split_digits_number (d : string) : forall cur rest,
  all_digits d = true ->
  split_digits_from cur true (d +:+ rest)
  = split_digits_from (cur +:+ d) true rest.
Proof.
  induction d as [|c d IH]; intros cur rest Hd.
  - rewrite append_empty_r. reflexivity.
  - cbn [all_digits] in Hd. apply andb_true_iff in Hd as [Hc Hd].
    rewrite append_cons. cbn [split_digits_from]. rewrite Hc. cbn [Bool.eqb].
    rewrite (IH _ _ Hd), append_assoc. reflexivity.
Qed.

(** The pieces of a name made of a text without digits, a number, and a
    rest that does not begin with a digit. *)
Lemma split_digits_text_number p d rest :
  no_digits p = true -> truthy d = true -> all_digits d = true ->
  starts_with_text rest = true ->
  exists pieces, split_digits (p +:+ d +:+ rest) = p :: d :: pieces
    /\ pieces = match rest with
                | EmptyString => [EmptyString]
                | String x rest' =>
                    split_digits_from (String x EmptyString) false rest'
                end.
Proof.
  intros Hp Hne Hall Hrest. eexists. split; [|reflexivity].
  unfold split_digits. rewrite (split_digits_text _ _ _ Hp).
  change (EmptyString +:+ p) with p.
  destruct d as [|c d]; [discriminate|].
  cbn [all_digits] in Hall. apply andb_true_iff in Hall as [Hc Hall].
  rewrite append_cons. cbn [split_digits_from]. rewrite Hc. cbn [Bool.eqb].
  f_equal. rewrite (split_digits_number _ _ _ Hall).
  change (String c EmptyString +:+ d) with (String c d).
  destruct rest as [|x rest']; [reflexivity|].
  cbn [starts_with_text] in Hrest. apply negb_true_iff in Hrest.
  cbn [split_digits_from]. rewrite Hrest. reflexivity.
Qed.

(** X13. Numbers inside names are compared by value. Take two names that
    agree on a leading text without digits and on what follows a number,
    and differ in that number only. When [natural_sort_key] returns a key
    for each, the keys are ordered as the two numbers are: the first is
    smaller exactly when its number is smaller, and numbers of equal value
    (leading zeros) make equal keys. *)
Theorem numbers_compare_by_value p d1 d2 rest k1 k2 :
  no_digits p = true ->
  truthy d1 = true -> all_digits d1 = true ->
  truthy d2 = true -> all_digits d2 = true ->
  starts_with_text rest = true ->
  natural_sort_key (p +:+ d1 +:+ rest) = Ok k1 ->
  natural_sort_key (p +:+ d2 +:+ rest) = Ok k2 ->
  key_lt k1 k2 = (int_of_digits d1 <? int_of_digits d2)%N
  /\ (int_of_digits d1 = int_of_digits d2 -> k1 = k2).
Proof.
  intros Hp Hn1 Hd1 Hn2 Hd2 Hrest.
  destruct (split_digits_text_number p d1 rest Hp Hn1 Hd1 Hrest) as (t1 & E1 & ->).
  destruct (split_digits_text_number p d2 rest Hp Hn2 Hd2 Hrest) as (t2 & E2 & ->).
  unfold natural_sort_key. rewrite E1, E2. intros H1 H2.
  apply key_of_pieces_cons in H1 as (x1 & r1 & Hx1 & H1 & ->).
  apply key_of_pieces_cons in H1 as (y1 & s1 & Hy1 & Hs1 & ->).
  apply key_of_pieces_cons in H2 as (x2 & r2 & Hx2 & H2 & ->).
  apply key_of_pieces_cons in H2 as (y2 & s2 & Hy2 & Hs2 & ->).
  rewrite Hx1 in Hx2. injection Hx2 as <-.
  rewrite Hs1 in Hs2. injection Hs2 as <-.
  rewrite (key_of_piece_digits _ _ Hn1 Hd1 Hy1), (key_of_piece_digits _ _ Hn2 Hd2 Hy2).
  split.
  - cbn [key_lt]. rewrite (proj2 (item_eqb_eq _ _) eq_refl).
    cbn [item_eqb item_lt].
    destruct (int_of_digits d1 =? int_of_digits d2)%N eqn:E; [|reflexivity].
    apply N.eqb_eq in E. rewrite E, N.ltb_irrefl. apply key_lt_irrefl.
  - intros ->. reflexivity.
Qed.

(** The theorem at [part2.m4b] and [part10.m4b], and at [part02.m4b]. *)
Lemma numbers_compare_by_value_witness :
  key_lt (file_key "part2.m4b") (file_key "part10.m4b") = true
  /\ key_lt (file_key "part10.m4b") (file_key "part2.m4b") = false
  /\ file_key "part02.m4b" = file_key "part2.m4b".
Proof.
  split; [|split].
  - apply (proj1 (numbers_compare_by_value "part" "2" "10" ".m4b" _ _
                    eq_refl eq_refl eq_refl eq_refl eq_refl eq_refl
                    eq_refl eq_refl)).
  - apply (proj1 (numbers_compare_by_value "part" "10" "2" ".m4b" _ _
                    eq_refl eq_refl eq_refl eq_refl eq_refl eq_refl
                    eq_refl eq_refl)).
  - apply (proj2 (numbers_compare_by_value "part" "02" "2" ".m4b" _ _
                    eq_refl eq_refl eq_refl eq_refl eq_refl eq_refl
                    eq_refl eq_refl)).
    reflexivity.
Defined.

(** *** Letter case *)

Lemma is_digit_to_lower c : is_digit (to_lower c) = is_digit c.
Proof. destruct c as [[] [] [] [] [] [] [] []]; reflexivity. Qed.

Lemma isdigit_char_to_lower c : isdigit_char (to_lower c) = isdigit_char c.
Proof. destruct c as [[] [] [] [] [] [] [] []]; reflexivity. Qed.

Lemma to_lower_isdigit c : isdigit_char c = true -> to_lower c = c.
Proof. destruct c as [[] [] [] [] [] [] [] []]; try reflexivity; discriminate. Qed.

Lemma lower_snoc (s : string) c :
  lower (s +:+ String c EmptyString) = lower s +:+ String (to_lower c) EmptyString.
Proof.
  induction s as [|x s IH]; [reflexivity|].
  rewrite append_cons, !lower_cons, append_cons, IH. reflexivity.
Qed.

Lemma all_isdigit_lower (s : string) : all_isdigit s = true -> lower s = s.
Proof.
  induction s as [|c s IH]; [reflexivity|]. cbn [all_isdigit].
  intros H. apply andb_true_iff in H as [Hc Hs].
  rewrite lower_cons, (to_lower_isdigit _ Hc), (IH Hs). reflexivity.
Qed.

Lemma all_isdigit_of_lower (s : string) : all_isdigit (lower s) = all_isdigit s.
Proof.
  induction s as [|c s IH]; [reflexivity|].
  rewrite lower_cons. cbn [all_isdigit]. rewrite isdigit_char_to_lower, IH.
  reflexivity.
Qed.

Lemma key_of_piece_lower (s : string) : key_of_piece (lower s) = key_of_piece s.
Proof.
  unfold key_of_piece, isdigit. rewrite truthy_lower, all_isdigit_of_lower.
  destruct (truthy s && all_isdigit s) eqn:E.
  - apply andb_true_iff in E as [_ E]. rewrite (all_isdigit_lower _ E). reflexivity.
  - rewrite lower_idem. reflexivity.
Qed.

Lemma key_of_pieces_lower pieces :
  key_of_pieces (map lower pieces) = key_of_pieces pieces.
Proof.
  induction pieces as [|p pieces IH]; [reflexivity|].
  cbn [map key_of_pieces]. rewrite key_of_piece_lower, IH. reflexivity.
Qed.

Lemma split_digits_lower (s : string) : forall cur in_digits,
  split_digits_from (lower cur) in_digits (lower s)
  = map lower (split_digits_from cur in_digits s).
Proof.
  induction s as [|c s IH]; intros cur in_digits.
  - cbn [lower map_str split_digits_from]. destruct in_digits; reflexivity.
  - rewrite lower_cons. cbn [split_digits_from]. rewrite is_digit_to_lower.
    destruct (Bool.eqb (is_digit c) in_digits).
    + rewrite <- lower_snoc. apply IH.
    + cbn [map]. f_equal. apply (IH (String c EmptyString)).
Qed.

(** X14. The sort key does not see letter case: on a name and on its
    lower-case form [natural_sort_key] returns the same key or raises the
    same exception, so names that differ in case only are never reordered
    by the sort; accented capitals count as capitals. *)
Theorem natural_sort_key_ignores_case (filename : string) :
  natural_sort_key (lower filename) = natural_sort_key filename
  /\ natural_sort_key (Samples.E_acute +:+ "Tude.M4B")
     = Ok [KStr (Samples.e_acute +:+ "tude.m"); KInt 4; KStr "b"].
Proof.
  split; [|vm_compute; reflexivity].
  unfold natural_sort_key, split_digits.
  change (split_digits_from EmptyString false (lower filename))
    with (split_digits_from (lower EmptyString) false (lower filename)).
  rewrite (split_digits_lower filename EmptyString false).
  apply key_of_pieces_lower.
Qed.

(** ** The CSV template and the parser *)

Import Template.

Lemma readlines_text (s : string) : forall cur rest,
  no_break s = true ->
  readlines_from cur (s +:+ rest) = readlines_from (cur +:+ s) rest.
Proof.
  induction s as [|c s IH]; intros cur rest Hs.
  - rewrite append_empty_r. reflexivity.
  - cbn [no_break] in Hs. apply andb_true_iff in Hs as [Hc Hs].
    apply negb_true_iff, orb_false_iff in Hc as [H10 H13].
    rewrite append_cons. cbn [readlines_from]. rewrite H10, H13.
    rewrite (IH _ _ Hs), append_assoc. reflexivity.
Qed.

Lemma readlines_nl cur rest :
  readlines_from cur (nl +:+ rest)
  = (cur +:+ nl) :: readlines_from EmptyString rest.
Proof. reflexivity. Qed.

(** A line of text followed by a line feed is read back as that line. *)
Lemma readlines_line (s rest : string) :
  no_break s = true ->
  readlines_from EmptyString (s +:+ nl +:+ rest)
  = (s +:+ nl) :: readlines_from EmptyString rest.
Proof.
  intros Hs. rewrite (readlines_text _ _ _ Hs), readlines_nl. reflexivity.
Qed.

Lemma no_break_app (a b : string) :
  no_break (a +:+ b) = no_break a && no_break b.
Proof.
  induction a as [|c a IH]; [reflexivity|].
  rewrite append_cons. cbn [no_break]. rewrite IH, andb_assoc. reflexivity.
Qed.

(** The header block is read back line by line. *)
Lemma readlines_header folder_name output_m4b rows :
  no_break folder_name = true -> no_break output_m4b = true ->
  readlines (header_text folder_name output_m4b +:+ rows)
  = template_lines folder_name output_m4b ++ readlines rows.
Proof.
  intros Hf Ho. unfold readlines, header_text, template_lines.
  rewrite <- (append_assoc "#title," folder_name).
  rewrite <- (append_assoc "#output_path," output_m4b).
  rewrite !append_assoc.
  rewrite <- (append_assoc "#title," folder_name).
  rewrite <- (append_assoc "#output_path," output_m4b).
  rewrite readlines_line by (rewrite no_break_app, Hf; reflexivity).
  rewrite !readlines_line by reflexivity.
  rewrite readlines_line by (rewrite no_break_app, Ho; reflexivity).
  rewrite readlines_line by reflexivity.
  rewrite readlines_nl. rewrite !append_assoc. reflexivity.
Qed.

Lemma rstrip_cons_nonspace c (s : string) :
  is_space c = false -> rstrip (String c s) = String c (rstrip s).
Proof.
  intros Hc. rewrite rstrip_cons, Hc.
  destruct (rstrip s); reflexivity.
Qed.

Lemma rstrip_app_nl (s : string) : rstrip (s +:+ nl) = rstrip s.
Proof.
  induction s as [|c s IH]; [reflexivity|].
  rewrite append_cons, !rstrip_cons, IH. reflexivity.
Qed.

Lemma strip_rstrip (s : string) : strip (rstrip s) = strip s.
Proof. unfold strip. rewrite lstrip_rstrip, rstrip_idem. reflexivity. Qed.

Lemma key_word_cons c (s : string) :
  key_word (String c s) = true ->
  is_space c = false /\ ch_eqb c "," = false /\ key_word s = true.
Proof.
  cbn [key_word]. intros H. apply andb_true_iff in H as [H Hs].
  apply andb_true_iff in H as [H1 H2].
  apply negb_true_iff in H1, H2. repeat split; assumption.
Qed.

Lemma rstrip_word_app (k rest : string) :
  key_word k = true -> rstrip (k +:+ rest) = k +:+ rstrip rest.
Proof.
  induction k as [|c k IH]; intros Hk; [reflexivity|].
  apply key_word_cons in Hk as (Hc & _ & Hk).
  rewrite !append_cons, (rstrip_cons_nonspace _ _ Hc), (IH Hk). reflexivity.
Qed.

Lemma strip_word (k : string) : key_word k = true -> strip k = k.
Proof.
  intros Hk. unfold strip.
  assert (Hl : lstrip k = k).
  { destruct k as [|c k]; [reflexivity|].
    apply key_word_cons in Hk as (Hc & _). cbn [lstrip]. rewrite Hc. reflexivity. }
  rewrite Hl. rewrite <- (append_empty_r k) at 1.
  rewrite (rstrip_word_app _ _ Hk). apply append_empty_r.
Qed.

Lemma split_once_word (k rest : string) :
  key_word k = true -> split_once "," (k +:+ String "," rest) = (k, rest).
Proof.
  induction k as [|c k IH]; intros Hk; [reflexivity|].
  apply key_word_cons in Hk as (_ & Hc & Hk).
  rewrite append_cons. cbn [split_once]. rewrite Hc, (IH Hk). reflexivity.
Qed.

(** One turn of the directive loop on a line [#key,value]. *)
Lemma directive_line_step k v i rest metadata data_start_idx :
  key_word k = true ->
  directives_loop i (("#" +:+ k +:+ "," +:+ v +:+ nl) :: rest)
    metadata data_start_idx
  = directives_loop (S i) rest
      (if truthy (lower k) then store (lower k) (strip v) metadata
       else metadata)
      (S i).
Proof.
  intros Hk.
  assert (Hstrip : strip ("#" +:+ k +:+ "," +:+ v +:+ nl)
                   = String "#" (k +:+ String "," (rstrip v))).
  { unfold strip. change ("#" +:+ k +:+ "," +:+ v +:+ nl)
      with (String "#" (k +:+ String "," (v +:+ nl))).
    cbn [lstrip]. change (is_space "#") with false. cbn iota.
    rewrite rstrip_cons_nonspace by reflexivity.
    rewrite (rstrip_word_app _ _ Hk).
    rewrite rstrip_cons_nonspace by reflexivity.
    rewrite rstrip_app_nl. reflexivity. }
  cbn [directives_loop]. rewrite Hstrip.
  cbn [startswith_char tail_str]. change (ch_eqb "#" "#") with true. cbn iota.
  assert (Hcomma : contains_char "," (String "#" (k +:+ String "," (rstrip v)))
                   = true).
  { cbn [contains_char]. rewrite contains_char_app. cbn [contains_char].
    change (ch_eqb "," ",") with true. rewrite orb_true_r. reflexivity. }
  rewrite Hcomma, (split_once_word _ _ Hk), (strip_word _ Hk), strip_rstrip.
  unfold store. destruct (truthy (lower k)), (truthy (strip v)); reflexivity.
Qed.

(** The directive loop on the header block of a template. *)
Lemma directives_of_template folder_name output_m4b :
  directives_loop 0 (template_lines folder_name output_m4b) ∅ 0
  = (template_directives folder_name output_m4b, 8).
Proof.
  unfold template_lines.
  rewrite (directive_line_step "title" folder_name) by reflexivity.
  rewrite (directive_line_step "author" EmptyString) by reflexivity.
  rewrite (directive_line_step "narrator" EmptyString) by reflexivity.
  rewrite (directive_line_step "genre" "Audiobook") by reflexivity.
  rewrite (directive_line_step "year" EmptyString) by reflexivity.
  rewrite (directive_line_step "description" EmptyString) by reflexivity.
  rewrite (directive_line_step "output_path" output_m4b) by reflexivity.
  rewrite (directive_line_step "cover_path" EmptyString) by reflexivity.
  reflexivity.
Qed.

(** The header block of a template, read back and parsed. *)
Lemma header_block_parses_back folder_name output_m4b rows line post :
  no_break folder_name = true -> no_break output_m4b = true ->
  readlines rows = line :: post ->
  startswith_char "#" (strip line) = false ->
  truthy (strip line) = true ->
  readlines (header_text folder_name output_m4b +:+ rows)
  = template_lines folder_name output_m4b ++ line :: post
  /\ directives_loop 0 (readlines (header_text folder_name output_m4b +:+ rows))
       ∅ 0
     = (template_directives folder_name output_m4b, 8)
  /\ filter (fun l => truthy (strip l) = true)
       (drop 8 (readlines (header_text folder_name output_m4b +:+ rows)))
     = line :: filter (fun l => truthy (strip l) = true) post.
Proof.
  intros Hf Ho Hrows Hhash Hline.
  rewrite (readlines_header _ _ _ Hf Ho), Hrows. split; [reflexivity|]. split.
  - rewrite (directives_loop_stops _ _ _ Hhash Hline).
    apply directives_of_template.
  - change (drop 8 (template_lines folder_name output_m4b ++ line :: post))
      with (nl :: line :: post).
    rewrite filter_cons. change (strip nl) with EmptyString.
    destruct (decide (truthy EmptyString = true)) as [H|_]; [discriminate H|].
    rewrite filter_cons.
    destruct (decide (truthy (strip line) = true)); [reflexivity|contradiction].
Qed.

(** X15. The template round trip. Let [generate_csv_from_folder] write a
    template for a folder whose name and output path hold no line break,
    and let the first line its [csv.writer] writes be a content line. Read
    back, the file begins with the nine lines of the header block, and the
    directive loop of [parse_csv_input] returns exactly the directives
    [title] (the folder name), [genre] ([Audiobook]) and [output_path]
    (folder/name.m4b), each trimmed and left out when blank: the empty
    placeholders [author], [narrator], [year], [description] and
    [cover_path] give no directive. The CSV data starts with the first line
    of the writer. *)
Theorem template_parses_back tl fs folder_path output_csv path text lg
    m4b_files line post :
  generate_csv_from_folder tl fs folder_path output_csv
  = (Ok true, Some (path, text), lg) ->
  let folder := abspath tl folder_path in
  let folder_name := basename folder in
  let output_m4b := path_join folder (folder_name +:+ ".m4b") in
  folder_files tl fs folder = Ok m4b_files ->
  no_break folder_name = true -> no_break output_m4b = true ->
  readlines (writerow fs ["file"; "title"]
             +:+ rows_text tl fs (dirname path) m4b_files)
  = line :: post ->
  startswith_char "#" (strip line) = false ->
  truthy (strip line) = true ->
  readlines text = template_lines folder_name output_m4b ++ line :: post
  /\ directives_loop 0 (readlines text) ∅ 0
     = (template_directives folder_name output_m4b, 8)
  /\ filter (fun l => truthy (strip l) = true) (drop 8 (readlines text))
     = line :: filter (fun l => truthy (strip l) = true) post.
Proof.
  unfold generate_csv_from_folder.
  destruct (negb (path_exists tl (abspath tl folder_path))); [discriminate|].
  destruct (negb (isdir fs (abspath tl folder_path))); [discriminate|].
  destruct (found_files tl fs (abspath tl folder_path)) as [|f found];
    [discriminate|].
  destruct (folder_files tl fs (abspath tl folder_path)) as [files|e];
    [|discriminate].
  destruct (open_error fs _) as [e|]; [discriminate|].
  intros [= <- <- _]. cbn zeta. intros [= <-]. apply header_block_parses_back.
Qed.

(** The theorem at the folder [/books/My Book]. *)
Lemma template_parses_back_witness :
  exists path text,
    generate_csv_from_folder Samples.library_machine Samples.library_folder
      "/books/My Book" None = (Ok true, Some (path, text), [])
    /\ path = "/books/My Book/My Book.csv"
    /\ readlines text
       = template_lines "My Book" "/books/My Book/My Book.m4b"
         ++ ["file,title" +:+ nl; "01 - intro.m4b,Intro" +:+ nl]
    /\ directives_loop 0 (readlines text) ∅ 0
       = (template_directives "My Book" "/books/My Book/My Book.m4b", 8)
    /\ filter (fun l => truthy (strip l) = true) (drop 8 (readlines text))
       = ("file,title" +:+ nl)
         :: filter (fun l => truthy (strip l) = true)
              ["01 - intro.m4b,Intro" +:+ nl].
Proof.
  eexists _, _. split; [vm_compute; reflexivity|]. split; [reflexivity|].
  apply (template_parses_back Samples.library_machine Samples.library_folder
           "/books/My Book" None "/books/My Book/My Book.csv" _ []
           ["/books/My Book/01 - intro.m4b"]
           ("file,title" +:+ nl) ["01 - intro.m4b,Intro" +:+ nl]);
    vm_compute; reflexivity.
Defined.
(** ** The two other title derivers *)

(** The package's deriver, in terms of the cleaned stem. *)
Lemma derive_chapter_title_unfold file_path index existing_title :
  derive_chapter_title file_path index existing_title
  = if truthy (strip existing_title) then strip existing_title
    else if truthy (cleaned_stem (path_stem file_path))
         then Py.title (cleaned_stem (path_stem file_path))
         else "Chapter " +:+ str_nat index.
Proof.
  unfold derive_chapter_title. rewrite derive_chapter_title_cleaned.
  reflexivity.
Qed.

(** The script's deriver, in the same terms. *)
Lemma derive_chapter_title_script_cleaned file_path index existing_title :
  derive_chapter_title_script file_path index existing_title
  = if truthy existing_title then existing_title
    else if truthy (cleaned_stem (path_stem file_path))
         then "Chapter " +:+ str_nat index +:+ ": "
              +:+ Py.title (cleaned_stem (path_stem file_path))
         else "Chapter " +:+ str_nat index.
Proof.
  unfold derive_chapter_title_script. rewrite derive_chapter_title_cleaned.
  reflexivity.
Qed.

(** X16. The title [generate_csv_from_folder] writes in a row is the title
    [combine_m4b_files] would derive for that file from its metadata title
    and its name, at any position, whenever the metadata title is not blank
    or something is left of the cleaned file name; when both are empty the
    template falls back to the file stem where the combiner numbers the
    chapter. A file whose probe fails is treated as one without a title. *)
Theorem template_title_is_derived_title tl file_path :
  let metadata_title :=
    match get_audio_metadata tl file_path with
    | Some metadata => meta_title metadata
    | None => EmptyString
    end in
  (forall index,
     truthy (strip metadata_title) || truthy (cleaned_stem (path_stem file_path))
     = true ->
     row_title tl file_path
     = derive_chapter_title file_path index metadata_title)
  /\ (forall index,
        truthy (strip metadata_title) || truthy (cleaned_stem (path_stem file_path))
        = false ->
        row_title tl file_path = path_stem file_path
        /\ derive_chapter_title file_path index metadata_title
           = "Chapter " +:+ str_nat index).
Proof.
  cbn zeta.
  assert (Hrow : row_title tl file_path
            = let t := strip (match get_audio_metadata tl file_path with
                              | Some metadata => meta_title metadata
                              | None => EmptyString
                              end) in
              if truthy t then t
              else if truthy (cleaned_stem (path_stem file_path))
                   then Py.title (cleaned_stem (path_stem file_path))
                   else path_stem file_path).
  { unfold row_title. rewrite derive_chapter_title_cleaned.
    destruct (get_audio_metadata tl file_path); reflexivity. }
  rewrite Hrow. cbn zeta. split; intros index H.
  - rewrite derive_chapter_title_unfold.
    destruct (truthy (strip _)); [reflexivity|]. cbn [orb] in H.
    rewrite H. reflexivity.
  - apply orb_false_iff in H as [H1 H2].
    rewrite derive_chapter_title_unfold, H1, H2. split; reflexivity.
Qed.

(** The theorem at a file without a metadata title, and at a file whose
    name leaves nothing. *)
Lemma template_title_is_derived_title_witness :
  row_title Samples.plain_machine "/work/02_the-road.m4b" = "The Road"
  /\ derive_chapter_title "/work/02_the-road.m4b" 2 EmptyString = "The Road"
  /\ row_title Samples.plain_machine "/work/chapter1.m4b" = "chapter1"
  /\ derive_chapter_title "/work/chapter1.m4b" 1 EmptyString = "Chapter 1".
Proof.
  pose proof (proj1 (template_title_is_derived_title Samples.plain_machine
                       "/work/02_the-road.m4b") 2 eq_refl) as H1.
  pose proof (proj2 (template_title_is_derived_title Samples.plain_machine
                       "/work/chapter1.m4b") 1 eq_refl) as [H2 H3].
  split; [reflexivity|]. split; [reflexivity|]. split; [exact H2|exact H3].
Defined.

(** X17. The two versions of [derive_chapter_title] side by side. Without
    an existing title, the script's title is the package's title with
    "Chapter {position}: " before it when something is left of the file
    name, and the same "Chapter {position}" when nothing is. With an
    existing title that is not blank, the package returns the script's
    answer trimmed. With a blank, non-empty existing title the script
    returns the blank as it is and the package derives from the file
    name. *)
Theorem script_and_package_titles file_path index :
  derive_chapter_title_script file_path index EmptyString
  = (if truthy (cleaned_stem (path_stem file_path))
     then "Chapter " +:+ str_nat index +:+ ": "
          +:+ derive_chapter_title file_path index EmptyString
     else derive_chapter_title file_path index EmptyString)
  /\ (forall existing_title,
        truthy (strip existing_title) = true ->
        derive_chapter_title file_path index existing_title
        = strip (derive_chapter_title_script file_path index existing_title))
  /\ (forall existing_title,
        truthy existing_title = true -> truthy (strip existing_title) = false ->
        derive_chapter_title_script file_path index existing_title
        = existing_title
        /\ derive_chapter_title file_path index existing_title
           = derive_chapter_title file_path index EmptyString).
Proof.
  split; [|split].
  - rewrite derive_chapter_title_script_cleaned, derive_chapter_title_unfold.
    change (truthy EmptyString) with false. change (strip EmptyString) with EmptyString.
    change (truthy EmptyString) with false. cbn iota.
    destruct (truthy (cleaned_stem (path_stem file_path))); reflexivity.
  - intros t Ht.
    rewrite derive_chapter_title_script_cleaned, derive_chapter_title_unfold, Ht.
    destruct t as [|c t]; [discriminate Ht|]. reflexivity.
  - intros t Ht Hblank.
    rewrite derive_chapter_title_script_cleaned, !derive_chapter_title_unfold.
    rewrite Ht, Hblank. split; reflexivity.
Qed.
(** ** The chapter probe and [combine_m4b_files] *)

Lemma rows_loop_with_chapter_probe tl probe csv fieldnames records :
  forall file_list lg,
    rows_loop (with_chapter_probe tl probe) csv fieldnames records file_list lg
    = rows_loop tl csv fieldnames records file_list lg.
Proof.
  induction records as [|record rest IH]; intros file_list lg;
    cbn [rows_loop]; [reflexivity|].
  cbn [with_chapter_probe abspath path_exists].
  destruct (dict_row fieldnames record !! "file") as [[file|]|]; try reflexivity.
  destruct (negb (truthy (strip file))); [apply IH|].
  destruct (negb (path_exists tl _)); [apply IH|].
  destruct (negb (accepted_suffix _)); [apply IH|].
  destruct (default (Some EmptyString) (dict_row fieldnames record !! "title"));
    [apply IH|reflexivity].
Qed.

Lemma parse_csv_input_with_chapter_probe tl probe csv :
  parse_csv_input (with_chapter_probe tl probe) csv = parse_csv_input tl csv.
Proof.
  unfold parse_csv_input, header, data_records.
  cbn [with_chapter_probe abspath path_exists read_lines csv_reader].
  destruct (negb (path_exists tl (abspath tl csv))); [reflexivity|].
  destruct (directives_loop 0 (read_lines tl (abspath tl csv)) ∅ 0)
    as [metadata idx].
  destruct (drop idx (read_lines tl (abspath tl csv))); [reflexivity|].
  destruct (filter _ _); [reflexivity|].
  rewrite rows_loop_with_chapter_probe. reflexivity.
Qed.

Lemma select_files_with_chapter_probe tl probe args :
  select_files (with_chapter_probe tl probe) args = select_files tl args.
Proof.
  unfold select_files, load_inputs.
  rewrite parse_csv_input_with_chapter_probe. reflexivity.
Qed.

Lemma probe_loop_with_chapter_probe tl probe files : forall acc t,
  probe_loop (with_chapter_probe tl probe) files acc t
  = probe_loop tl files acc t.
Proof.
  induction files as [|f files IH]; intros acc t; cbn [probe_loop];
    [reflexivity|].
  cbn [with_chapter_probe get_audio_metadata].
  destruct (get_audio_metadata tl f); [apply IH|reflexivity].
Qed.

(** X18. Without [preserve_existing_chapters] the chapter probe plays no
    part: whatever [ffprobe -show_chapters] would answer, fail or print,
    [combine_m4b_files] selects the same files, logs the same records and
    decides the same chapters, metadata and output. *)
Theorem chapter_probe_unused_without_flag tl probe args :
  preserve_existing_chapters args = false ->
  combine_plan (with_chapter_probe tl probe) args = combine_plan tl args.
Proof.
  intros Hp. unfold combine_plan.
  rewrite select_files_with_chapter_probe.
  destruct (select_files tl args) as [[[inp|]|e] lg]; try reflexivity.
  rewrite probe_loop_with_chapter_probe.
  destruct (probe_loop tl (m4b_files inp) [] 0%float) as [[[fms tot]|] lg2];
    try reflexivity.
  destruct fms as [|first rest]; [reflexivity|].
  rewrite !(generate_chapters_whole _ _ _ _ Hp). reflexivity.
Qed.

(** The theorem at three files, with a chapter probe that always fails
    instead of one that finds no chapters. *)
Lemma chapter_probe_unused_without_flag_witness :
  combine_plan (with_chapter_probe Samples.plain_machine (fun _ => ProbeExit 1))
    (Samples.pattern_args false)
  = combine_plan Samples.plain_machine (Samples.pattern_args false).
Proof.
  apply (chapter_probe_unused_without_flag Samples.plain_machine
           (fun _ => ProbeExit 1) (Samples.pattern_args false)).
  reflexivity.
Defined.

(** The chapter loop raises what the first failing chapter probe raises. *)
Lemma chapter_loop_raises tl args ftl before m after e :
  preserve_existing_chapters args = true ->
  Forall (fun b => is_ok (fst (extract_existing_chapters tl (file_path b))) = true)
         before ->
  fst (extract_existing_chapters tl (file_path m)) = Raise e ->
  forall i st,
    chapter_loop tl args ftl i (before ++ m :: after) st = Raise e.
Proof.
  intros Hp Hbefore Hm.
  induction Hbefore as [|b before Hb _ IH]; intros i st; cbn [app chapter_loop].
  - unfold chapter_step. rewrite Hp, Hm. reflexivity.
  - destruct (fst (extract_existing_chapters tl (file_path b))) as [found|e']
      eqn:Hfound; [|discriminate Hb].
    rewrite (chapter_step_kept _ _ _ _ _ _ found Hp Hfound). cbn [bind].
    apply IH.
Qed.

(** X19. With [preserve_existing_chapters], what [extract_existing_chapters]
    does not catch escapes [combine_m4b_files]: when the chapter probe of a
    file raises (a chapter whose time is not a number, an entry of the wrong
    shape) and the files before it were read, the whole call raises that
    exception instead of returning [False]. *)
Theorem unreadable_chapter_escapes_combine
    tl args inp lg fms tot lg2 before m after e :
  select_files tl args = (Ok (Some inp), lg) ->
  probe_loop tl (m4b_files inp) [] 0%float = (Some (fms, tot), lg2) ->
  preserve_existing_chapters args = true ->
  fms = before ++ m :: after ->
  Forall (fun b => is_ok (fst (extract_existing_chapters tl (file_path b))) = true)
         before ->
  fst (extract_existing_chapters tl (file_path m)) = Raise e ->
  combine_plan tl args = (Raise e, lg ++ lg2).
Proof.
  intros Hsel Hprobe Hp -> Hbefore Hm.
  unfold combine_plan. rewrite Hsel, Hprobe.
  destruct (before ++ m :: after) as [|first rest] eqn:Hfms.
  { destruct before; discriminate Hfms. }
  rewrite <- Hfms. unfold generate_chapters.
  rewrite (chapter_loop_raises _ _ _ _ _ _ _ Hp Hbefore Hm). reflexivity.
Qed.

(** The theorem at a file whose first chapter starts at ["soon"]. *)
Lemma unreadable_chapter_escapes_combine_witness :
  combine_plan Samples.unreadable_machine (Samples.pattern_args true)
  = (Raise (ValueError "could not convert string to float"), [] ++ []).
Proof.
  apply (unreadable_chapter_escapes_combine Samples.unreadable_machine
           (Samples.pattern_args true)
           {| m4b_files := ["/work/part1.m4b"; "/work/part2.m4b"];
              file_title_list :=
                [ {| me_file := "/work/part1.m4b"; me_title := EmptyString |};
                  {| me_file := "/work/part2.m4b"; me_title := EmptyString |} ];
              csv_metadata := ∅;
              out_file := Some "/out/book.m4b";
              book_title := None |}
           []
           [ {| file_path := "/work/part1.m4b"; start_offset := 0;
                probed := Samples.probed_file 10 "" "" |};
             {| file_path := "/work/part2.m4b"; start_offset := 10;
                probed := Samples.probed_file 0 "" "" |} ]
           10%float []
           []
           {| file_path := "/work/part1.m4b"; start_offset := 0;
              probed := Samples.probed_file 10 "" "" |}
           [ {| file_path := "/work/part2.m4b"; start_offset := 10;
                probed := Samples.probed_file 0 "" "" |} ]
           (ValueError "could not convert string to float"));
    try (vm_compute; reflexivity).
  constructor.
Defined.
(** ** The stand-alone scripts *)

(** The generator skips the streams that are not audio. *)
Lemma first_audio_skips before : forall rest,
  Forall other_stream before ->
  Scripts.first_audio (before ++ rest) = Scripts.first_audio rest.
Proof.
  induction before as [|v before IH]; intros rest H; [reflexivity|].
  apply Forall_cons in H as [(members & -> & Hv) H].
  cbn [app Scripts.first_audio Scripts.get bind]. rewrite Hv. apply IH, H.
Qed.

(** X20. [get_audio_metadata] of combine-m4b-chapters.py on a probe answer
    of the expected shape (a dict whose [format] is a dict with a dict of
    tags, and whose [streams] is a list of dicts). Codec, bit rate, sample
    rate and channels come from the first stream whose [codec_type] is
    [audio], whatever precedes it, with the defaults [''] and 2 when that
    stream lacks them or when no stream is audio; the tags come from the
    format, with the default ['']. A duration that is not a number gives
    the empty dict, as a failed probe and a text that is not JSON do, and
    raises nothing. *)
Theorem script_metadata_of_probe tl members fmt tags streams :
  default (JObj []) (obj_get "format" members) = JObj fmt ->
  default (JObj []) (obj_get "tags" fmt) = JObj tags ->
  default (JArr []) (obj_get "streams" members) = JArr streams ->
  let audio_of (stream : list (string * json)) duration :=
    Ok (Some {| Scripts.md_duration := duration;
                Scripts.md_title := default (JStr EmptyString) (obj_get "title" tags);
                Scripts.md_artist := default (JStr EmptyString) (obj_get "artist" tags);
                Scripts.md_album := default (JStr EmptyString) (obj_get "album" tags);
                Scripts.md_codec :=
                  default (JStr EmptyString) (obj_get "codec_name" stream);
                Scripts.md_bitrate :=
                  default (JStr EmptyString) (obj_get "bit_rate" stream);
                Scripts.md_sample_rate :=
                  default (JStr EmptyString) (obj_get "sample_rate" stream);
                Scripts.md_channels :=
                  default (JNum 2) (obj_get "channels" stream) |}) in
  (forall before stream after duration,
     streams = before ++ JObj stream :: after ->
     Forall other_stream before ->
     Scripts.is_audio (default JNull (obj_get "codec_type" stream)) = true ->
     py_float tl (default (JNum 0) (obj_get "duration" fmt)) = Ok duration ->
     Scripts.get_audio_metadata tl (ProbeJson (JObj members))
     = audio_of stream duration)
  /\ (forall duration,
        Forall other_stream streams ->
        py_float tl (default (JNum 0) (obj_get "duration" fmt)) = Ok duration ->
        Scripts.get_audio_metadata tl (ProbeJson (JObj members))
        = audio_of [] duration)
  /\ (forall msg,
        (exists before stream after,
           streams = before ++ JObj stream :: after
           /\ Forall other_stream before
           /\ Scripts.is_audio (default JNull (obj_get "codec_type" stream)) = true)
        \/ Forall other_stream streams ->
        py_float tl (default (JNum 0) (obj_get "duration" fmt))
        = Raise (ValueError msg) ->
        Scripts.get_audio_metadata tl (ProbeJson (JObj members)) = Ok None)
  /\ (forall rc, Scripts.get_audio_metadata tl (ProbeExit rc) = Ok None)
  /\ (forall out, Scripts.get_audio_metadata tl (ProbeNotJson out) = Ok None).
Proof.
  intros Hfmt Htags Hstreams. cbn zeta.
  assert (Hfound : forall before stream after,
            streams = before ++ JObj stream :: after ->
            Forall other_stream before ->
            Scripts.is_audio (default JNull (obj_get "codec_type" stream)) = true ->
            Scripts.first_audio streams = Ok (JObj stream)).
  { intros before stream after -> Hb Ha.
    rewrite (first_audio_skips _ _ Hb).
    cbn [Scripts.first_audio Scripts.get bind]. rewrite Ha. reflexivity. }
  assert (Hnone : Forall other_stream streams ->
            Scripts.first_audio streams = Ok (JObj [])).
  { intros Hs. rewrite <- (app_nil_r streams).
    rewrite (first_audio_skips _ _ Hs). reflexivity. }
  split; [|split; [|split; [|split; reflexivity]]].
  - intros before stream after duration Hs Hb Ha Hd.
    unfold Scripts.get_audio_metadata.
    cbn [Scripts.get bind]. rewrite Hfmt, Hstreams. cbn [py_iter bind].
    rewrite (Hfound _ _ _ Hs Hb Ha). cbn [bind Scripts.get].
    rewrite Hd, Htags. reflexivity.
  - intros duration Hs Hd.
    unfold Scripts.get_audio_metadata.
    cbn [Scripts.get bind]. rewrite Hfmt, Hstreams. cbn [py_iter bind].
    rewrite (Hnone Hs). cbn [bind Scripts.get].
    rewrite Hd, Htags. reflexivity.
  - intros msg Hs Hd.
    unfold Scripts.get_audio_metadata.
    cbn [Scripts.get bind]. rewrite Hfmt, Hstreams. cbn [py_iter bind].
    destruct Hs as [(before & stream & after & Hs & Hb & Ha)|Hs].
    + rewrite (Hfound _ _ _ Hs Hb Ha). cbn [bind Scripts.get].
      rewrite Hd. reflexivity.
    + rewrite (Hnone Hs). cbn [bind Scripts.get]. rewrite Hd. reflexivity.
Qed.

(** The theorem at a file with a cover picture before its audio stream. *)
Lemma script_metadata_of_probe_witness :
  Scripts.get_audio_metadata Samples.plain_machine
    (ProbeJson (JObj Samples.cover_then_audio))
  = Ok (Some {| Scripts.md_duration := 12.5;
                Scripts.md_title := JStr "Intro";
                Scripts.md_artist := JStr EmptyString;
                Scripts.md_album := JStr EmptyString;
                Scripts.md_codec := JStr "aac";
                Scripts.md_bitrate := JStr EmptyString;
                Scripts.md_sample_rate := JStr "44100";
                Scripts.md_channels := JNum 1 |}).
Proof.
  apply (proj1 (script_metadata_of_probe Samples.plain_machine
                  Samples.cover_then_audio
                  [("duration", JNum 12.5);
                   ("tags", JObj [("title", JStr "Intro")])]
                  [("title", JStr "Intro")]
                  [JObj [("codec_type", JStr "video"); ("codec_name", JStr "mjpeg")];
                   JObj [("codec_type", JStr "audio"); ("codec_name", JStr "aac");
                         ("sample_rate", JStr "44100"); ("channels", JNum 1)]]
                  eq_refl eq_refl eq_refl)
           [JObj [("codec_type", JStr "video"); ("codec_name", JStr "mjpeg")]]
           [("codec_type", JStr "audio"); ("codec_name", JStr "aac");
            ("sample_rate", JStr "44100"); ("channels", JNum 1)]
           [] 12.5%float eq_refl).
  - constructor; [|constructor]. eexists. split; reflexivity.
  - reflexivity.
  - reflexivity.
Defined.

(** X21. The exit codes of the two converters for the same batch result,
    with at least one job. The script convert-all-to-m4b.py exits 0 only
    when every file was converted; the command [m4b-tools convert] also
    exits 0 when some, but not all, were. The two differ exactly on a
    partial success. *)
Theorem script_and_cli_exit_codes lib args successful total :
  Cli.convert_all_to_m4b lib = Cli.Returns (successful, total) ->
  (1 <= Cli.jobs args)%Z ->
  (Scripts.convert_main (Cli.jobs args) (Cli.convert_all_to_m4b lib)
   = Cli.Returns 0%Z <-> successful = total)
  /\ (Cli.cmd_convert lib args = Cli.Returns 0%Z
      <-> successful = total \/ successful <> 0)
  /\ (Scripts.convert_main (Cli.jobs args) (Cli.convert_all_to_m4b lib)
      <> Cli.cmd_convert lib args
      <-> successful <> total /\ successful <> 0).
Proof.
  intros Hrun Hjobs. unfold Scripts.convert_main, Cli.cmd_convert.
  rewrite Hrun. apply Z.ltb_ge in Hjobs. rewrite Hjobs.
  destruct (successful =? total)%nat eqn:Est;
    [apply Nat.eqb_eq in Est|apply Nat.eqb_neq in Est];
    (destruct (successful =? 0)%nat eqn:Es0;
     [apply Nat.eqb_eq in Es0|apply Nat.eqb_neq in Es0]);
    repeat split; intros; try tauto; try discriminate; try congruence;
    try (left; assumption); try (right; assumption).
  all: try (exfalso; intuition congruence).
Qed.

(** The theorem at 3 files converted of 5. *)
Lemma script_and_cli_exit_codes_witness :
  Scripts.convert_main 1 (Cli.Returns (3, 5)) = Cli.Returns 1%Z
  /\ Cli.cmd_convert Samples.partial_library Samples.convert_cli
     = Cli.Returns 0%Z.
Proof.
  destruct (script_and_cli_exit_codes Samples.partial_library
              Samples.convert_cli 3 5 eq_refl ltac:(discriminate))
    as (_ & H & _).
  split; [reflexivity|]. apply H. right. discriminate.
Defined.



(** ** Titles travel with their files *)

Lemma find_entry (entries : list manifest_entry) f :
  f ∈ map me_file entries ->
  exists e, find (fun item => String.eqb (me_file item) f) entries = Some e
            /\ me_file e = f.
Proof.
  induction entries as [|e entries IH]; intros H.
  - apply elem_of_nil in H. contradiction.
  - cbn [find]. destruct (String.eqb (me_file e) f) eqn:E.
    + exists e. split; [reflexivity|apply String.eqb_eq, E].
    + cbn [map] in H. apply elem_of_cons in H as [H|H]; [|apply IH, H].
      subst f. rewrite String.eqb_refl in E. discriminate.
Qed.

(** X23. With a manifest and without [preserve_existing_chapters], every
    chapter carries the title of its own file, wherever the sort has put
    the file: the chapter at position k of the combined list belongs to the
    k-th file of the sorted list, and its title is the title of the first
    manifest row that names that file or, when that title is empty, the
    title derived from the file's metadata and name with the position
    after sorting, counted from 1. *)
Theorem manifest_titles_follow_files tl args p lg :
  opt_truthy (csv_file args) = true ->
  preserve_existing_chapters args = false ->
  combine_plan tl args = (Ok (Some p), lg) ->
  exists entries directives lg',
    parse_csv_input tl (default EmptyString (csv_file args))
    = (Ok (entries, directives), lg')
    /\ length (plan_chapters p) = length (plan_files p)
    /\ forall k f, plan_files p !! k = Some f ->
         exists e metadata c,
           find (fun item => String.eqb (me_file item) f) entries = Some e
           /\ me_file e = f
           /\ get_audio_metadata tl f = Some metadata
           /\ plan_chapters p !! k = Some c
           /\ ch_title c
              = or_else (me_title e)
                  (derive_chapter_title f (S k) (meta_title metadata)).
Proof.
  intros Hcsv Hp Hplan.
  destruct (combine_plan_inv _ _ _ _ Hplan)
    as (inp & lg1 & first & rest & total & lg2 & chs
        & Hsel & Hprobe & Hgen & Hfiles & Hchs & _).
  destruct (select_files_inv _ _ _ _ Hsel) as (inp0 & Hload & Hsorted & Hftl & _).
  destruct (load_inputs_csv_inv _ _ _ _ Hcsv Hload)
    as (entries & directives & Hparse & Hrows & Hentries & _).
  exists entries, directives, lg1. split; [exact Hparse|].
  rewrite Hftl, Hentries, (generate_chapters_whole _ _ _ _ Hp) in Hgen.
  assert (Hspans : chs = whole_spans args entries 0%float 1 (first :: rest))
    by congruence.
  rewrite Hspans in Hchs. clear Hgen Hspans.
  pose proof (probed_files_paths _ _ _ _ _ Hprobe) as Hpaths.
  destruct (probe_loop_files _ _ _ _ _ _ _ Hprobe) as (new & Hnew & Hpairs).
  simpl in Hnew. subst new.
  rewrite Hchs, Hfiles, <- Hpaths.
  split; [rewrite whole_spans_length, length_map; reflexivity|].
  intros k f Hk. rewrite list_lookup_fmap in Hk.
  destruct ((first :: rest) !! k) as [m|] eqn:Hm; [|discriminate Hk].
  injection Hk as <-.
  assert (Hin : file_path m ∈ map me_file entries).
  { rewrite <- Hrows. destruct (natural_sort_ok _ _ Hsorted) as [_ Hsort].
    assert (Hmem : file_path m ∈ m4b_files inp).
    { rewrite <- Hpaths. apply list_elem_of_fmap. exists m.
      split; [reflexivity|]. eapply list_elem_of_lookup_2. exact Hm. }
    rewrite Hsort in Hmem.
    rewrite sort_by_perm in Hmem. exact Hmem. }
  destruct (find_entry _ _ Hin) as (e & He & Hfile).
  assert (Hmeta : get_audio_metadata tl (file_path m) = Some (probed m)).
  { rewrite <- Hpaths in Hpairs.
    assert (Hall : forall l, Forall2 (fun f m0 => file_path m0 = f
                     /\ get_audio_metadata tl f = Some (probed m0))
                     (map file_path l) l ->
                   forall m0, m0 ∈ l ->
                     get_audio_metadata tl (file_path m0) = Some (probed m0)).
    { intros l. induction l as [|x l IHl]; intros HF m0 Hm0.
      - apply elem_of_nil in Hm0. contradiction.
      - cbn [map] in HF. apply Forall2_cons in HF as [[_ Hx] HF].
        apply elem_of_cons in Hm0 as [->|Hm0]; [exact Hx|apply IHl; assumption]. }
    apply (Hall _ Hpairs). eapply list_elem_of_lookup_2. exact Hm. }
  destruct (lookup_lt_is_Some_2
              (whole_spans args entries 0%float 1 (first :: rest)) k) as [c Hc].
  { rewrite whole_spans_length. eapply lookup_lt_Some. exact Hm. }
  exists e, (probed m), c. split; [exact He|]. split; [exact Hfile|].
  split; [exact Hmeta|]. split; [exact Hc|].
  destruct (whole_spans_lookup _ _ _ _ _ _ _ Hc) as (m' & Hm' & Ht & _).
  assert (m' = m) by congruence. subst m'.
  rewrite Ht. unfold span_title, csv_title_for. rewrite Hcsv, He. reflexivity.
Qed.

(** The theorem at the manifest that lists [b.m4b] before [a.m4b]. *)
Lemma manifest_titles_follow_files_witness :
  exists p lg,
    combine_plan Samples.reversed_machine
      (Samples.csv_args (Some "rev.csv") None None) = (Ok (Some p), lg)
    /\ plan_files p = ["/work/a.m4b"; "/work/b.m4b"]
    /\ exists entries directives lg',
         parse_csv_input Samples.reversed_machine "rev.csv"
         = (Ok (entries, directives), lg')
         /\ length (plan_chapters p) = length (plan_files p)
         /\ forall k f, plan_files p !! k = Some f ->
              exists e metadata c,
                find (fun item => String.eqb (me_file item) f) entries = Some e
                /\ me_file e = f
                /\ get_audio_metadata Samples.reversed_machine f = Some metadata
                /\ plan_chapters p !! k = Some c
                /\ ch_title c
                   = or_else (me_title e)
                       (derive_chapter_title f (S k) (meta_title metadata)).
Proof.
  destruct (combine_plan Samples.reversed_machine
              (Samples.csv_args (Some "rev.csv") None None))
    as [[[p|]|e] lg] eqn:Hplan; try (vm_compute in Hplan; discriminate Hplan).
  exists p, lg. split; [reflexivity|]. split.
  - vm_compute in Hplan. injection Hplan as <- _. reflexivity.
  - apply (manifest_titles_follow_files Samples.reversed_machine
             (Samples.csv_args (Some "rev.csv") None None) p lg
             eq_refl eq_refl Hplan).
Defined.
(** ** The converter: which files reach the transcoder *)

(** A conversion records at most one run, on its own input and output,
    whether or not the output was there. *)
Lemma convert_to_m4b_runs sv w input_file output_file success w' :
  Converter.convert_to_m4b sv w input_file output_file = (success, w') ->
  Converter.invocations w' = Converter.invocations w
  \/ Converter.invocations w'
     = Converter.invocations w ++ [(input_file, output_file)].
Proof.
  unfold Converter.convert_to_m4b.
  destruct (negb (Converter.makedirs_ok sv (dirname output_file))).
  { intros [= _ <-]. left. reflexivity. }
  destruct (Converter.ffmpeg sv (Converter.fs w) input_file output_file)
    as [exit_ok written].
  set (w1 := {| Converter.fs := _; Converter.invocations := _ |}).
  intros H. assert (w' = w1) as ->.
  { destruct exit_ok; [destruct (Converter.fs w1 !! output_file)|];
      injection H as _ <-; reflexivity. }
  right. reflexivity.
Qed.

(** The runs of the loop, however it ends: they are on files of the batch,
    in the order of the batch, one at most per file, each onto the output
    computed for its file. *)
Lemma convert_loop_runs sv jb inputs : forall n w r w',
  Converter.convert_loop sv jb inputs n w = (r, w') ->
  exists ran new,
    ran `sublist_of` inputs
    /\ Converter.invocations w' = Converter.invocations w ++ new
    /\ Forall2 (fun f io =>
                  exists out,
                    Converter.output_path_of sv jb f = Ok out
                    /\ io = (Converter.path_str (Converter.Path f),
                             Converter.path_str out))
               ran new.
Proof.
  induction inputs as [|f inputs IH]; intros n w r w';
    cbn [Converter.convert_loop].
  - intros [= <- <-]. exists [], []. rewrite app_nil_r.
    split; [constructor|]. split; [reflexivity|constructor].
  - unfold Converter.process_single_file.
    destruct (Converter.output_path_of sv jb f) as [out|e] eqn:Hout.
    2: { intros [= <- <-]. exists [], []. rewrite app_nil_r.
         split; [apply sublist_nil_l|]. split; [reflexivity|constructor]. }
    destruct (Converter.fs w !! Converter.path_str out).
    { intros H. destruct (IH _ _ _ _ H) as (ran & new & Hsub & Hinv & Hall).
      exists ran, new. split; [apply sublist_cons, Hsub|].
      split; [exact Hinv|exact Hall]. }
    destruct (Converter.convert_to_m4b sv w _ _) as [s w1] eqn:Hc.
    intros H. destruct (IH _ _ _ _ H) as (ran & new & Hsub & Hinv & Hall).
    destruct (convert_to_m4b_runs _ _ _ _ _ _ Hc) as [Hsame|Hrun].
    + exists ran, new. split; [apply sublist_cons, Hsub|].
      split; [rewrite Hinv, Hsame; reflexivity|exact Hall].
    + exists (f :: ran),
        ((Converter.path_str (Converter.Path f), Converter.path_str out) :: new).
      split; [apply sublist_skip, Hsub|].
      split; [rewrite Hinv, Hrun, <- app_assoc; reflexivity|].
      constructor; [|exact Hall]. exists out. split; [exact Hout|reflexivity].
Qed.

(** X24. However [convert_all_to_m4b] ends (one worker), also when it
    raises, the transcoder has run at most once per file, on files of the
    batch only (matched by the pattern, with a supported extension), in the
    order of the sorted batch, and each run wrote to the output path
    computed for its file. *)
Theorem transcoder_runs_once_per_file sv jb w r w' :
  Converter.convert_all_to_m4b sv jb w = (r, w') ->
  exists ran new,
    ran `sublist_of` Converter.audio_files_of sv jb
    /\ (forall f, f ∈ ran -> Converter.supported f = true)
    /\ Converter.invocations w' = Converter.invocations w ++ new
    /\ Forall2 (fun f io =>
                  exists out,
                    Converter.output_path_of sv jb f = Ok out
                    /\ io = (Converter.path_str (Converter.Path f),
                             Converter.path_str out))
               ran new.
Proof.
  unfold Converter.convert_all_to_m4b.
  assert (Hnone : exists ran new,
            ran `sublist_of` Converter.audio_files_of sv jb
            /\ (forall f, f ∈ ran -> Converter.supported f = true)
            /\ Converter.invocations w = Converter.invocations w ++ new
            /\ Forall2 (fun f io =>
                          exists out,
                            Converter.output_path_of sv jb f = Ok out
                            /\ io = (Converter.path_str (Converter.Path f),
                                     Converter.path_str out))
                       ran new).
  { exists [], []. rewrite app_nil_r. split; [apply sublist_nil_l|].
    split; [|split; [reflexivity|constructor]].
    intros f Hf. apply elem_of_nil in Hf. contradiction. }
  destruct (negb (Converter.ffmpeg_ok sv)).
  { intros [= _ <-]. exact Hnone. }
  destruct (Converter.audio_files_of sv jb) as [|f files] eqn:Hfiles.
  { intros [= _ <-]. exact Hnone. }
  clear Hnone. rewrite <- Hfiles.
  destruct (Converter.convert_loop sv jb (Converter.audio_files_of sv jb) 0 w)
    as [res w1] eqn:Hloop.
  intros H. assert (w' = w1) as -> by (destruct res; injection H as _ <-; reflexivity).
  destruct (convert_loop_runs _ _ _ _ _ _ _ Hloop) as (ran & new & Hsub & Hinv & Hall).
  exists ran, new. split; [exact Hsub|]. split; [|split; [exact Hinv|exact Hall]].
  intros g Hg. pose proof (elem_of_sublist _ _ _ Hg Hsub) as Hin.
  unfold Converter.audio_files_of in Hin.
  apply list_elem_of_filter in Hin as [Hs _]. exact Hs.
Qed.

(** The theorem at two inputs of which only the first reaches the
    transcoder. *)
Lemma transcoder_runs_once_per_file_witness :
  exists ran new,
    ran `sublist_of` Converter.audio_files_of Samples.twin_studio
                       (Samples.twin_job false)
    /\ (forall f, f ∈ ran -> Converter.supported f = true)
    /\ Converter.invocations
         (snd (Converter.convert_all_to_m4b Samples.twin_studio
                 (Samples.twin_job false) Samples.empty_disk))
       = Converter.invocations Samples.empty_disk ++ new
    /\ Forall2 (fun f io =>
                  exists out,
                    Converter.output_path_of Samples.twin_studio
                      (Samples.twin_job false) f = Ok out
                    /\ io = (Converter.path_str (Converter.Path f),
                             Converter.path_str out))
               ran new.
Proof.
  apply (transcoder_runs_once_per_file Samples.twin_studio
           (Samples.twin_job false) Samples.empty_disk
           (fst (Converter.convert_all_to_m4b Samples.twin_studio
                   (Samples.twin_job false) Samples.empty_disk))).
  apply surjective_pairing.
Defined.
(** ** The converter: running the batch again *)

(** Different outputs belong to different files. *)
Lemma files_of_outputs sv jb (files : gmap string string) (batch : list string) :
  forall outs : list string,
    NoDup outs ->
    (forall o, o ∈ outs ->
       exists f out,
         f ∈ batch
         /\ Converter.output_path_of sv jb f = Ok out
         /\ Converter.path_str out = o
         /\ is_Some (files !! o)) ->
    exists fs : list string,
      length fs = length outs /\ NoDup fs
      /\ (forall f, f ∈ fs ->
            f ∈ batch /\ output_exists sv jb files f = true
            /\ exists out, Converter.output_path_of sv jb f = Ok out
                           /\ Converter.path_str out ∈ outs).
Proof.
  induction outs as [|o outs IH]; intros Hnd Hall.
  - exists []. split; [reflexivity|]. split; [constructor|].
    intros f Hf. apply elem_of_nil in Hf. contradiction.
  - apply NoDup_cons in Hnd as [Hnotin Hnd].
    destruct IH as (fs & Hlen & Hfs & Hprop); [exact Hnd| |].
    { intros o' Ho'. apply Hall, elem_of_cons. right. exact Ho'. }
    destruct (Hall o) as (f & out & Hin & Hout & Hstr & Hsome).
    { apply elem_of_cons. left. reflexivity. }
    exists (f :: fs). split; [simpl; rewrite Hlen; reflexivity|]. split.
    + apply NoDup_cons. split; [|exact Hfs]. intros Hf.
      destruct (Hprop f Hf) as (_ & _ & out' & Hout' & Hin').
      rewrite Hout in Hout'. injection Hout' as <-.
      rewrite Hstr in Hin'. contradiction.
    + intros f' Hf'. apply elem_of_cons in Hf' as [->|Hf'].
      * split; [exact Hin|]. split.
        -- unfold output_exists. rewrite Hout, Hstr.
           apply bool_decide_eq_true. exact Hsome.
        -- exists out. split; [exact Hout|]. rewrite Hstr.
           apply elem_of_cons. left. reflexivity.
      * destruct (Hprop f' Hf') as (H1 & H2 & out' & H3 & H4).
        split; [exact H1|]. split; [exact H2|].
        exists out'. split; [exact H3|]. apply elem_of_cons. right. exact H4.
Qed.

(** X25. Running the same batch again never converts a file twice. When
    [convert_all_to_m4b] (one worker) is run a second time on what the
    first run left, the pattern matching the same files, the successes of
    the two runs together are at most the size of the batch: every file the
    first run converted is skipped by the second, which can only succeed on
    files that were left without an output. *)
Theorem rerun_converts_only_the_rest sv jb w s1 t1 w1 s2 t2 w2 :
  Converter.convert_all_to_m4b sv jb w = (Ok (s1, t1), w1) ->
  Converter.convert_all_to_m4b sv jb w1 = (Ok (s2, t2), w2) ->
  t2 = t1
  /\ s1 <= length (with_existing_output sv jb (Converter.fs w1)
                     (Converter.audio_files_of sv jb))
  /\ s1 + s2 <= t1.
Proof.
  unfold Converter.convert_all_to_m4b.
  destruct (negb (Converter.ffmpeg_ok sv)).
  { intros [= <- <- _] [= <- <- _]. repeat split; simpl; lia. }
  destruct (Converter.audio_files_of sv jb) as [|f files] eqn:Hfiles.
  { intros [= <- <- _] [= <- <- _]. repeat split; simpl; lia. }
  destruct (Converter.convert_loop sv jb (f :: files) 0 w) as [[n1|e1] w1'] eqn:Hl1;
    [|discriminate].
  intros [= <- <- <-].
  destruct (Converter.convert_loop sv jb (f :: files) 0 w1') as [[n2|e2] w2'] eqn:Hl2;
    [|discriminate].
  intros [= <- <- <-].
  destruct (convert_loop_successes _ _ _ _ _ _ _ Hl1) as (outs & Hlen & Hnd & Houts).
  assert (Hfirst : n1 <= length (with_existing_output sv jb (Converter.fs w1')
                                   (f :: files))).
  { destruct (files_of_outputs sv jb (Converter.fs w1') (f :: files) outs Hnd)
      as (fs & Hfl & Hfnd & Hprop).
    { intros o Ho.
      destruct (Houts o Ho) as (_ & (c & Hc & _) & g & out & Hg & Ho1 & Ho2 & _).
      exists g, out. repeat split; try assumption. exists c. exact Hc. }
    simpl in Hlen. rewrite Hlen, <- Hfl.
    apply submseteq_length, NoDup_submseteq; [exact Hfnd|].
    intros g Hg. destruct (Hprop g Hg) as (Hin & Hex & _).
    unfold with_existing_output. apply list_elem_of_filter. split; assumption. }
  destruct (convert_loop_frame _ _ _ _ _ _ _ Hl2) as (_ & _ & Hcount).
  split; [reflexivity|]. split; [exact Hfirst|]. simpl in Hcount. simpl. lia.
Qed.

(** The theorem at two files run twice: the second run has nothing to do. *)
Lemma rerun_converts_only_the_rest_witness :
  exists w1 w2,
    Converter.convert_all_to_m4b Samples.studio Samples.flat_job Samples.disk
    = (Ok (1, 2), w1)
    /\ Converter.convert_all_to_m4b Samples.studio Samples.flat_job w1
       = (Ok (0, 2), w2)
    /\ 2 = 2
    /\ 1 <= length (with_existing_output Samples.studio Samples.flat_job
                      (Converter.fs w1)
                      (Converter.audio_files_of Samples.studio Samples.flat_job))
    /\ 1 + 0 <= 2.
Proof.
  eexists _, _. split; [vm_compute; reflexivity|].
  split; [vm_compute; reflexivity|].
  eapply (rerun_converts_only_the_rest Samples.studio Samples.flat_job
            Samples.disk 1 2 _ 0 2); vm_compute; reflexivity.
Defined.

(** ** The converter: when an output path is undefined *)

Lemma strip_parts_self l : Converter.strip_parts l l = Some [].
Proof.
  induction l as [|a l IH]; [reflexivity|].
  cbn [Converter.strip_parts]. rewrite String.eqb_refl. exact IH.
Qed.

(** The relative path has an empty name exactly when the input has none or
    is the base itself. *)
Lemma relative_or_name_empty f base :
  Converter.name (Converter.relative_or_name (Converter.Path f) base)
  = EmptyString
  <-> Converter.name (Converter.Path f) = EmptyString
      \/ (Converter.anchored (Converter.Path f) = Converter.anchored base
          /\ Converter.parts (Converter.Path f) = Converter.parts base).
Proof.
  destruct (name_wellformed f) as [Hns Hnd].
  assert (Hname : Converter.name (Converter.Path (Converter.name (Converter.Path f)))
                  = Converter.name (Converter.Path f)).
  { destruct (truthy (Converter.name (Converter.Path f))) eqn:Ht.
    - rewrite (Path_single _ Hns Ht Hnd). reflexivity.
    - destruct (Converter.name (Converter.Path f)); [reflexivity|discriminate]. }
  unfold Converter.relative_or_name, Converter.relative_to.
  destruct (Bool.eqb (Converter.anchored (Converter.Path f))
                     (Converter.anchored base)) eqn:Ha.
  - apply Bool.eqb_prop in Ha.
    destruct (Converter.strip_parts (Converter.parts base)
                (Converter.parts (Converter.Path f))) as [rest|] eqn:Hs.
    + pose proof (strip_parts_app _ _ _ Hs) as Hparts.
      destruct rest as [|x rest].
      * split; [|reflexivity]. intros _. right. split; [exact Ha|].
        rewrite Hparts, app_nil_r. reflexivity.
      * assert (Hlast : Converter.name
                          {| Converter.anchored := false;
                             Converter.parts := x :: rest |}
                        = Converter.name (Converter.Path f)).
        { unfold Converter.name at 2. rewrite Hparts.
          symmetry. apply last_app_nonempty. discriminate. }
        rewrite Hlast. split; [tauto|]. intros [H|[_ H]]; [exact H|].
        rewrite H, strip_parts_self in Hs. discriminate.
    + rewrite Hname. split; [tauto|]. intros [H|[_ H]]; [exact H|].
      rewrite H, strip_parts_self in Hs. discriminate.
  - rewrite Hname. split; [tauto|]. intros [H|[H _]]; [exact H|].
    rewrite H, Bool.eqb_reflx in Ha. discriminate.
Qed.

(** With the structure kept, the output path is the relative path with its
    suffix replaced, under the output directory; and the relative path has
    no name exactly when the input has none or is the base itself. *)
Lemma output_path_relative sv jb f :
  Converter.preserve_structure jb = true ->
  exists rel,
    Converter.output_path_of sv jb f
    = bind (Converter.with_suffix rel ".m4b")
        (fun r => Ok (Converter.joinpath
                        (Converter.Path (Converter.output_base_dir jb)) r))
    /\ (Converter.name rel = EmptyString
        <-> Converter.name (Converter.Path f) = EmptyString \/ is_base sv jb f).
Proof.
  intros Hp. unfold Converter.output_path_of, is_base, structure_base.
  rewrite Hp.
  destruct (Converter.base_path_of sv jb) as [base_path|].
  { eexists. split; [reflexivity|]. rewrite relative_or_name_empty. split.
    - intros [H|H]; [left; exact H|].
      right. exists base_path. split; [reflexivity|exact H].
    - intros [H|(b & [= <-] & H)]; [left; exact H|right; exact H]. }
  destruct (Converter.before_pair "*" "*" (Converter.glob_pattern jb))
    as [before|].
  - destruct (truthy (Converter.rstrip_slash before));
      (eexists; split; [reflexivity|]); rewrite relative_or_name_empty;
      (split;
        [intros [H|H];
         [left; exact H|right; eexists; split; [reflexivity|exact H]]
        |intros [H|(b & [= <-] & H)]; [left; exact H|right; exact H]]).
  - eexists. split; [reflexivity|].
    destruct (name_wellformed f) as [Hns Hnd].
    assert (Hname : Converter.name (Converter.Path (Converter.name (Converter.Path f)))
                    = Converter.name (Converter.Path f)).
    { destruct (truthy (Converter.name (Converter.Path f))) eqn:Ht.
      - rewrite (Path_single _ Hns Ht Hnd). reflexivity.
      - destruct (Converter.name (Converter.Path f)); [reflexivity|discriminate]. }
    rewrite Hname. split.
    + intros H. left. exact H.
    + intros [H|(b & Hb & _)]; [exact H|discriminate Hb].
Qed.

(** X26. When [process_single_file] has no output path. Without the
    directory structure it always has one. With the structure, computing
    the path raises ([ValueError], from [with_suffix]) exactly when the
    input path has no name or is the base directory itself; nothing catches
    that exception in the loop of [convert_all_to_m4b]. *)
Theorem output_path_undefined sv jb f :
  (exists e, Converter.output_path_of sv jb f = Raise e)
  <-> Converter.preserve_structure jb = true
      /\ (Converter.name (Converter.Path f) = EmptyString \/ is_base sv jb f).
Proof.
  destruct (Converter.preserve_structure jb) eqn:Hp.
  2: { unfold Converter.output_path_of. rewrite Hp.
       split; [intros [e H]; discriminate|intros [H _]; discriminate]. }
  destruct (output_path_relative sv jb f Hp) as (rel & -> & Hrel).
  unfold Converter.with_suffix.
  destruct (Converter.name rel) eqn:Hname; cbn [bind].
  - split.
    + intros _. split; [reflexivity|]. apply Hrel. reflexivity.
    + intros _. eexists. reflexivity.
  - split; [intros [e H]; discriminate|].
    intros [_ H]. apply Hrel in H. discriminate H.
Qed.

(** The theorem at the base directory of the pattern [/in/**/*] itself. *)
Lemma output_path_undefined_witness :
  exists e,
    Converter.output_path_of Samples.twin_studio (Samples.twin_job true) "/in"
    = Raise e.
Proof.
  apply (proj2 (output_path_undefined Samples.twin_studio (Samples.twin_job true)
                  "/in")).
  split; [reflexivity|]. right. exists (Converter.Path "/in").
  repeat split.
Defined.

(** A file with a supported extension has a name. *)
Lemma supported_has_name f :
  Converter.supported f = true ->
  Converter.name (Converter.Path f) <> EmptyString.
Proof.
  unfold Converter.supported. intros Hs Hname.
  assert (Hsuffix : path_suffix f = EmptyString).
  { unfold path_suffix.
    change (path_name f) with (Converter.name (Converter.Path f)).
    rewrite Hname. reflexivity. }
  rewrite Hsuffix in Hs. vm_compute in Hs. discriminate Hs.
Qed.

(** The loop returns when every output path is defined. *)
Lemma convert_loop_returns sv jb files : forall n w,
  (forall f, f ∈ files -> exists out, Converter.output_path_of sv jb f = Ok out) ->
  exists n' w', Converter.convert_loop sv jb files n w = (Ok n', w').
Proof.
  induction files as [|f files IH]; intros n w Hall; cbn [Converter.convert_loop].
  - eexists _, _. reflexivity.
  - destruct (Hall f) as [out Hout]; [apply elem_of_cons; left; reflexivity|].
    unfold Converter.process_single_file. rewrite Hout.
    assert (Hrest : forall g, g ∈ files ->
              exists out', Converter.output_path_of sv jb g = Ok out')
      by (intros g Hg; apply Hall, elem_of_cons; right; exact Hg).
    destruct (Converter.fs w !! Converter.path_str out); [apply IH, Hrest|].
    destruct (Converter.convert_to_m4b sv w _ _) as [s w1]. apply IH, Hrest.
Qed.

(** X27. The single-worker loop of [convert_all_to_m4b] runs to its end and
    raises nothing, whenever no file of the batch is the base directory of
    the structure itself: a failing transcoder, a directory that cannot be
    made and an output that is already there are counted as failures, not
    raised, and the count of successes is at most the number of files. *)
Theorem conversion_loop_returns_count sv jb w :
  (forall f, f ∈ Converter.audio_files_of sv jb -> ~ is_base sv jb f) ->
  exists successful w',
    Converter.convert_loop sv jb (Converter.audio_files_of sv jb) 0 w
    = (Ok successful, w')
    /\ successful <= length (Converter.audio_files_of sv jb).
Proof.
  intros Hbase.
  destruct (convert_loop_returns sv jb (Converter.audio_files_of sv jb) 0 w)
    as (n & w' & Hloop).
  { intros g Hg.
    assert (Hs : Converter.supported g = true).
    { unfold Converter.audio_files_of in Hg.
      apply list_elem_of_filter in Hg as [Hs _]. exact Hs. }
    destruct (Converter.preserve_structure jb) eqn:Hp.
    2: { unfold Converter.output_path_of. rewrite Hp. eexists. reflexivity. }
    destruct (output_path_relative sv jb g Hp) as (rel & -> & Hrel).
    unfold Converter.with_suffix.
    destruct (Converter.name rel) eqn:Hname; cbn [bind];
      [exfalso|eexists; reflexivity].
    destruct (proj1 Hrel eq_refl) as [Hempty|His].
    - exact (supported_has_name g Hs Hempty).
    - exact (Hbase g Hg His). }
  exists n, w'. split; [exact Hloop|].
  destruct (convert_loop_frame _ _ _ _ _ _ _ Hloop) as (_ & _ & Hcount). lia.
Qed.

(** The theorem at two files under [/in], with the structure kept. *)
Lemma conversion_loop_returns_count_witness :
  exists successful w',
    Converter.convert_loop Samples.twin_studio (Samples.twin_job true)
      (Converter.audio_files_of Samples.twin_studio (Samples.twin_job true))
      0 Samples.empty_disk = (Ok successful, w')
    /\ successful
       <= length (Converter.audio_files_of Samples.twin_studio
                    (Samples.twin_job true)).
Proof.
  apply (conversion_loop_returns_count Samples.twin_studio
           (Samples.twin_job true) Samples.empty_disk).
  intros f Hf (base & Hb & _ & Hparts).
  vm_compute in Hb. injection Hb as <-.
  assert (Hfiles : Converter.audio_files_of Samples.twin_studio
                     (Samples.twin_job true)
                   = ["/in/x/a.mp3"; "/in/y/a.flac"])
    by (vm_compute; reflexivity).
  rewrite Hfiles in Hf.
  apply elem_of_cons in Hf as [->|Hf]; [vm_compute in Hparts; discriminate|].
  apply list_elem_of_singleton in Hf. subst f.
  vm_compute in Hparts. discriminate.
Defined.

(** ** The sort is stable *)

(** Files that the key does not tell apart have the same key. *)
Lemma same_key_eq f g : same_key f g = true -> file_key f = file_key g.
Proof.
  unfold same_key. intros H. apply andb_true_iff in H as [H1 H2].
  apply negb_true_iff in H1, H2.
  apply (alternating_keys_total _ _ true);
    first [apply file_key_shape | assumption].
Qed.

(** An element is inserted before the elements it ties with. *)
Lemma insert_stable_ties g x (l : list string) :
  List.filter (fun f => same_key f g) (insert_stable file_key key_lt x l)
  = List.filter (fun f => same_key f g) (x :: l).
Proof.
  induction l as [|y l IH]; [reflexivity|].
  cbn [insert_stable].
  destruct (key_lt (file_key y) (file_key x)) eqn:Hlt; [|reflexivity].
  cbn [List.filter] in *. rewrite IH.
  destruct (same_key x g) eqn:Hx, (same_key y g) eqn:Hy; try reflexivity.
  exfalso. apply same_key_eq in Hx, Hy.
  rewrite Hx, Hy, key_lt_irrefl in Hlt. discriminate.
Qed.

Lemma sort_by_ties g (files : list string) :
  List.filter (fun f => same_key f g) (sort_by file_key key_lt files)
  = List.filter (fun f => same_key f g) files.
Proof.
  unfold sort_by.
  induction files as [|x files IH]; [reflexivity|].
  cbn [foldr]. rewrite insert_stable_ties. cbn [List.filter]. rewrite IH.
  reflexivity.
Qed.

(** X29. The sort of [combine_m4b_files] is stable. When it returns, the
    files that the key does not tell apart from a given file stay in the
    order they had before the sort, the order of the manifest rows or of
    the pattern's matches; and two files of the list are not told apart
    exactly when [natural_sort_key] returns the same key for their names
    (names that differ in letter case, accented letters included, or in
    leading zeros only). *)
Theorem natural_sort_is_stable (files sorted : list string) g :
  natural_sort files = Ok sorted ->
  List.filter (fun f => same_key f g) sorted
  = List.filter (fun f => same_key f g) files
  /\ (forall f, f ∈ files -> g ∈ files ->
        same_key f g = true
        <-> natural_sort_key (basename f) = natural_sort_key (basename g)).
Proof.
  intros Hsort. destruct (natural_sort_ok _ _ Hsort) as [Hall ->].
  split; [apply sort_by_ties|].
  intros f Hf Hg. rewrite Forall_forall in Hall.
  pose proof (Hall f Hf) as Sf. pose proof (Hall g Hg) as Sg.
  unfold sortable in Sf, Sg. rewrite Sf, Sg. split.
  - intros H. rewrite (same_key_eq _ _ H). reflexivity.
  - intros [= E]. unfold same_key. rewrite E, key_lt_irrefl. reflexivity.
Qed.

(** The theorem at four files, two of which differ in the case of an
    accented letter and in a leading zero only. *)
Lemma natural_sort_is_stable_witness :
  let capital := Samples.E_acute +:+ "1.m4b" in
  let small := Samples.e_acute +:+ "01.m4b" in
  natural_sort [capital; "a2.m4b"; small; "a1.m4b"]
  = Ok ["a1.m4b"; "a2.m4b"; capital; small]
  /\ natural_sort [small; "a2.m4b"; capital; "a1.m4b"]
     = Ok ["a1.m4b"; "a2.m4b"; small; capital]
  /\ List.filter (fun f => same_key f small) ["a1.m4b"; "a2.m4b"; capital; small]
     = List.filter (fun f => same_key f small) [capital; "a2.m4b"; small; "a1.m4b"].
Proof.
  split; [vm_compute; reflexivity|]. split; [vm_compute; reflexivity|].
  refine (proj1 (natural_sort_is_stable
                   [Samples.E_acute +:+ "1.m4b"; "a2.m4b";
                    Samples.e_acute +:+ "01.m4b"; "a1.m4b"]
                   ["a1.m4b"; "a2.m4b"; Samples.E_acute +:+ "1.m4b";
                    Samples.e_acute +:+ "01.m4b"]
                   (Samples.e_acute +:+ "01.m4b") _)).
  vm_compute. reflexivity.
Defined.
